(** * Library circulation: the transaction lifecycle

    A shallow embedding of the Mongoose models [Transaction], [Book] and
    [Student] and of the Express handlers [POST /issue], [POST /return],
    [POST /renew] and [GET /meta/overdue] of the transactions router,
    followed by the properties of the circulation rules.

    Conventions of the embedding:
    - a JavaScript [Date] is its time value, an integer number of
      milliseconds ([Z]); every [new Date()] of the source is an explicit
      instant passed to the function that reads the clock;
    - [d.setDate(d.getDate() + 14)] is calendar arithmetic in the server's
      local time: the time zone is an input of the two handlers that call
      it, next to the clock reading, and the result is the instant at which
      the local clock shows the same time of day fourteen calendar days
      later;
    - [Math.ceil(x / 86400000)] on an integer number of milliseconds is the
      integer ceiling of the quotient (the double quotient of two time
      stamps rounds to the same integer for every pair of dates less than
      2^27 days apart);
    - a collection is a finite map from [_id] to document; a document holds
      the fields the handlers read or write;
    - a handler returns the data base it leaves behind together with its
      reply; an exception handed to [next(error)] is the reply [Thrown],
      and the data base then holds whatever had been saved before it. *)

From Stdlib Require Import ZArith Lia Bool String List.
From stdpp Require Import base option gmap fin_maps list.

Local Open Scope Z_scope.

(** ** Documents *)

Definition ObjectId := positive.

Inductive TransactionType := TIssue | TReturn | TRenew.
Inductive TransactionStatus := Active | Returned | Overdue | Lost.
Inductive FineReason := ROverdue | RDamage | RLost | RNone.
Inductive StudentStatus := SActive | SInactive | SGraduated.

#[export] Instance TransactionStatus_eq_dec : EqDecision TransactionStatus.
Proof. solve_decision. Defined.
#[export] Instance TransactionType_eq_dec : EqDecision TransactionType.
Proof. solve_decision. Defined.
#[export] Instance FineReason_eq_dec : EqDecision FineReason.
Proof. solve_decision. Defined.
#[export] Instance StudentStatus_eq_dec : EqDecision StudentStatus.
Proof. solve_decision. Defined.

Record Fine := mkFine {
  amount : Z;
  reason : FineReason;
  paid : bool;
  paidDate : option Z
}.

Record Transaction := mkTransaction {
  book : ObjectId;
  student : ObjectId;
  type : TransactionType;
  issueDate : Z;
  dueDate : Z;
  returnDate : option Z;
  status : TransactionStatus;
  fine : Fine;
  renewalCount : Z;
  notes : option string;
  processedBy : ObjectId
}.

Record Book := mkBook {
  isActive : bool;
  totalCopies : Z;
  availableCopies : Z
}.

Record Student := mkStudent {
  studentStatus : StudentStatus;
  maxBooksAllowed : Z;
  currentBooksIssued : Z
}.

(** Field assignments, one per assignment of the source. *)
Definition set_status (s : TransactionStatus) (t : Transaction) : Transaction :=
  mkTransaction (book t) (student t) (type t) (issueDate t) (dueDate t)
    (returnDate t) s (fine t) (renewalCount t) (notes t) (processedBy t).

Definition set_type (k : TransactionType) (t : Transaction) : Transaction :=
  mkTransaction (book t) (student t) k (issueDate t) (dueDate t)
    (returnDate t) (status t) (fine t) (renewalCount t) (notes t) (processedBy t).

Definition set_returnDate (d : Z) (t : Transaction) : Transaction :=
  mkTransaction (book t) (student t) (type t) (issueDate t) (dueDate t)
    (Some d) (status t) (fine t) (renewalCount t) (notes t) (processedBy t).

Definition set_dueDate (d : Z) (t : Transaction) : Transaction :=
  mkTransaction (book t) (student t) (type t) (issueDate t) d
    (returnDate t) (status t) (fine t) (renewalCount t) (notes t) (processedBy t).

Definition set_renewalCount (n : Z) (t : Transaction) : Transaction :=
  mkTransaction (book t) (student t) (type t) (issueDate t) (dueDate t)
    (returnDate t) (status t) (fine t) n (notes t) (processedBy t).

Definition set_notes (n : option string) (t : Transaction) : Transaction :=
  mkTransaction (book t) (student t) (type t) (issueDate t) (dueDate t)
    (returnDate t) (status t) (fine t) (renewalCount t) n (processedBy t).

Definition set_fine (f : Fine) (t : Transaction) : Transaction :=
  mkTransaction (book t) (student t) (type t) (issueDate t) (dueDate t)
    (returnDate t) (status t) f (renewalCount t) (notes t) (processedBy t).

Definition set_availableCopies (n : Z) (b : Book) : Book :=
  mkBook (isActive b) (totalCopies b) n.

Definition set_currentBooksIssued (n : Z) (s : Student) : Student :=
  mkStudent (studentStatus s) (maxBooksAllowed s) n.

(** ** Dates and fines *)

(** [1000 * 60 * 60 * 24] *)
Definition msPerDay : Z := 1000 * 60 * 60 * 24.

(** The loan period, the renewal limit and the fine per day, as the
    literals [14], [3] and [2] of the source. *)
Definition loanPeriodDays : Z := 14.
Definition maxRenewals : Z := 3.
Definition ratePerDay : Z := 2.

(** The time zone of the server, as ECMAScript's [LocalTZA(t, isUTC)]:
    the offset from UTC in milliseconds, in force at the instant [t] when
    [isUTC] is [true], and at the local time [t] when it is [false]. *)
Record TimeZone := mkTimeZone {
  LocalTZA : Z → bool → Z
}.

(** ECMAScript's [LocalTime(t)] and [UTC(t)]. *)
Definition LocalTime (tz : TimeZone) (t : Z) : Z := t + LocalTZA tz t true.
Definition UTC (tz : TimeZone) (t : Z) : Z := t - LocalTZA tz t false.

(** [d.setDate(d.getDate() + n)]: with [t] the local time of [d],
    [MakeDay(YearFromTime(t), MonthFromTime(t), DateFromTime(t) + n)] is the
    day number of [t] plus [n] and [MakeDate] puts back the time within the
    day, so the new local time is [t + n * msPerDay]; the new time value is
    [UTC] of it ([TimeClip] leaves it as it is within the range of
    [Date]). *)
Definition addDays (tz : TimeZone) (d n : Z) : Z :=
  UTC tz (LocalTime tz d + n * msPerDay).

(** [Math.ceil(a / b)] for an integer [a] and a positive [b]. *)
Definition ceil_div (a b : Z) : Z := - ((- a) / b).

(** [TransactionSchema.methods.checkOverdue]: the document after the call
    and the returned flag. *)
Definition checkOverdue (now : Z) (t : Transaction) : Transaction * bool :=
  if bool_decide (status t = Active) && (dueDate t <? now)
  then (set_status Overdue t, true)
  else (t, false).

(** [this.returnDate || new Date()] *)
Definition settlementDate (now : Z) (t : Transaction) : Z :=
  match returnDate t with
  | Some r => r
  | None => now
  end.

Definition overdueDays (now : Z) (t : Transaction) : Z :=
  ceil_div (settlementDate now t - dueDate t) msPerDay.

(** [TransactionSchema.methods.calculateFine]: the document after the call
    and the returned [this.fine.amount]. *)
Definition calculateFine (now : Z) (t : Transaction) : Transaction * Z :=
  let t' :=
    if bool_decide (status t = Overdue) || bool_decide (status t = Returned)
    then
      if 0 <? overdueDays now t
      then set_fine (mkFine (overdueDays now t * 2) ROverdue
                       (paid (fine t)) (paidDate (fine t))) t
      else t
    else t in
  (t', amount (fine t')).

(** ** Validation on save *)

(** The validators of [TransactionSchema] on the modelled paths:
    [fine.amount] has [min: 0], [renewalCount] has [max: 3], [notes] has
    [maxlength: 200], and [returnDate] is required when [type] is
    ['return']. *)
Definition notes_ok (n : option string) : bool :=
  match n with
  | Some s => (String.length s <=? 200)%nat
  | None => true
  end.

Definition Transaction_validate (t : Transaction) : bool :=
  (0 <=? amount (fine t)) && (renewalCount t <=? 3) && notes_ok (notes t)
  && (if bool_decide (type t = TReturn) then bool_decide (is_Some (returnDate t)) else true).

(** The validators of [BookSchema] on the copy counts ([totalCopies] has
    [min: 1], [availableCopies] has [min: 0]) followed by its
    [pre('save')] hook, which rejects [availableCopies > totalCopies]. *)
Definition Book_validate (b : Book) : bool :=
  (1 <=? totalCopies b) && (0 <=? availableCopies b).

Definition Book_preSave (b : Book) : bool :=
  negb (totalCopies b <? availableCopies b).

(** ** The data base *)

Record Db := mkDb {
  books : gmap ObjectId Book;
  students : gmap ObjectId Student;
  transactions : gmap ObjectId Transaction
}.

Definition with_books (bs : gmap ObjectId Book) (db : Db) : Db :=
  mkDb bs (students db) (transactions db).
Definition with_students (ss : gmap ObjectId Student) (db : Db) : Db :=
  mkDb (books db) ss (transactions db).
Definition with_transactions (ts : gmap ObjectId Transaction) (db : Db) : Db :=
  mkDb (books db) (students db) ts.

(** What a handler leaves: a reply to the client, named by its HTTP status
    and message, or an exception passed to [next(error)]. *)
Inductive Exn :=
| ValidationError        (* a schema validator or a pre-save hook refused *)
| TypeError.             (* a property read on [null] *)

Inductive Reply :=
| Created (id : ObjectId)                 (* 201, the new transaction *)
| Ok (id : ObjectId)                      (* 200, the updated transaction *)
| OkCount (n : nat)                       (* 200, [count] of the listing *)
| BookNotFound                            (* 404 'Book not found' *)
| StudentNotFound                         (* 404 'Student not found' *)
| ActiveTransactionNotFound               (* 404 'Active transaction not found' *)
| BookNotAvailable                        (* 400 'Book is not available for issue' *)
| AlreadyIssued                           (* 400 'Student already has this book issued' *)
| BookLimitReached                        (* 400 'Student has reached maximum book limit' *)
| RenewalLimitReached                     (* 400 'Maximum renewal limit reached' *)
| Thrown (e : Exn).                       (* next(error) *)

(** [document.save()] and [Model.create()]: the write happens only when
    validation and the pre-save hooks pass. *)
Definition Transaction_save (id : ObjectId) (t : Transaction) (db : Db) : option Db :=
  if Transaction_validate t
  then Some (with_transactions (<[id := t]> (transactions db)) db)
  else None.

Definition Book_save (id : ObjectId) (b : Book) (db : Db) : option Db :=
  if Book_validate b && Book_preSave b
  then Some (with_books (<[id := b]> (books db)) db)
  else None.

Definition Student_save (id : ObjectId) (s : Student) (db : Db) : Db :=
  with_students (<[id := s]> (students db)) db.

(** ** Queries *)

(** [{ book: bookId, student: studentId, status: 'active' }] *)
Definition activeFor (bookId studentId : ObjectId) (t : Transaction) : bool :=
  bool_decide (book t = bookId) && bool_decide (student t = studentId)
  && bool_decide (status t = Active).

(** [{ student: studentId, status: 'active' }] *)
Definition activeOf (studentId : ObjectId) (t : Transaction) : bool :=
  bool_decide (student t = studentId) && bool_decide (status t = Active).

(** [{ status: 'active', dueDate: { $lt: now } }] *)
Definition pastDue (now : Z) (t : Transaction) : bool :=
  bool_decide (status t = Active) && (dueDate t <? now).

(** [Model.find(q)], as the sub-collection of the matching documents. *)
Definition find (q : Transaction → bool) (ts : gmap ObjectId Transaction)
  : gmap ObjectId Transaction :=
  filter (λ kt, q kt.2 = true) ts.

(** [Model.countDocuments(q)] *)
Definition countDocuments (q : Transaction → bool) (ts : gmap ObjectId Transaction) : nat :=
  size (find q ts).

(** [Model.findOne(q)] only ever feeds a null test in [POST /issue]. *)
Definition existsOne (q : Transaction → bool) (ts : gmap ObjectId Transaction) : bool :=
  bool_decide (find q ts ≠ ∅).

(** [Transaction.findOne({ _id: id, status: 'active' })] *)
Definition findActiveById (id : ObjectId) (ts : gmap ObjectId Transaction)
  : option Transaction :=
  match ts !! id with
  | Some t => if bool_decide (status t = Active) then Some t else None
  | None => None
  end.

(** The [_id] a new document receives: one no document of the collection
    has. *)
Definition newObjectId (ts : gmap ObjectId Transaction) : ObjectId :=
  fresh (dom ts).

(** [Student.findOne({ _id: studentId, status: 'active' })] *)
Definition findActiveStudent (id : ObjectId) (ss : gmap ObjectId Student)
  : option Student :=
  match ss !! id with
  | Some s => if bool_decide (studentStatus s = SActive) then Some s else None
  | None => None
  end.

(** [notes || transaction.notes]: an absent or empty string is falsy. *)
Definition or_notes (n old : option string) : option string :=
  match n with
  | Some EmptyString => old
  | Some s => Some s
  | None => old
  end.

(** ** The handlers *)

(** [router.post('/issue')], from the destructuring of [req.body] on;
    [user] is [req.user.id], [now] the instant of [new Date()] and [tz]
    the zone in which [setDate] counts. *)
Definition post_issue (tz : TimeZone) (now : Z) (bookId studentId : ObjectId)
    (notes_ : option string) (user : ObjectId) (db : Db) : Db * Reply :=
  match books db !! bookId with
  | None => (db, BookNotFound)
  | Some book_ =>
    if negb (isActive book_) then (db, BookNotFound)
    else if availableCopies book_ <=? 0 then (db, BookNotAvailable)
    else
      match findActiveStudent studentId (students db) with
      | None => (db, StudentNotFound)
      | Some student_ =>
        if existsOne (activeFor bookId studentId) (transactions db)
        then (db, AlreadyIssued)
        else
          let activeBooks := countDocuments (activeOf studentId) (transactions db) in
          if maxBooksAllowed student_ <=? Z.of_nat activeBooks
          then (db, BookLimitReached)
          else
            let issueDate_ := now in
            let dueDate_ := addDays tz issueDate_ 14 in
            let id := newObjectId (transactions db) in
            let transaction :=
              mkTransaction bookId studentId TIssue issueDate_ dueDate_ None
                Active (mkFine 0 RNone false None) 0 notes_ user in
            match Transaction_save id transaction db with
            | None => (db, Thrown ValidationError)
            | Some db1 =>
              match Book_save bookId
                      (set_availableCopies (availableCopies book_ - 1) book_) db1 with
              | None => (db1, Thrown ValidationError)
              | Some db2 =>
                (Student_save studentId
                   (set_currentBooksIssued (currentBooksIssued student_ + 1) student_)
                   db2,
                 Created id)
              end
            end
      end
  end.

(** [router.post('/return')].  [calculateFine] runs after [returnDate] has
    been assigned, so its own clock reading is never taken; the book is the
    one [populate('book')] and [Book.findById] resolve, and reading a
    property of a missing one throws. *)
Definition post_return (now : Z) (transactionId : ObjectId)
    (notes_ : option string) (db : Db) : Db * Reply :=
  match findActiveById transactionId (transactions db) with
  | None => (db, ActiveTransactionNotFound)
  | Some transaction =>
    let t1 := set_type TReturn transaction in
    let t2 := set_returnDate now t1 in
    let t3 := set_status Returned t2 in
    let t4 := set_notes (or_notes notes_ (notes t3)) t3 in
    let t5 := fst (calculateFine now t4) in
    match Transaction_save transactionId t5 db with
    | None => (db, Thrown ValidationError)
    | Some db1 =>
      match books db1 !! book t5 with
      | None => (db1, Thrown TypeError)
      | Some book_ =>
        match Book_save (book t5)
                (set_availableCopies (availableCopies book_ + 1) book_) db1 with
        | None => (db1, Thrown ValidationError)
        | Some db2 =>
          match students db2 !! student t5 with
          | Some student_ =>
            if 0 <? currentBooksIssued student_
            then (Student_save (student t5)
                    (set_currentBooksIssued (currentBooksIssued student_ - 1) student_)
                    db2,
                  Ok transactionId)
            else (db2, Ok transactionId)
          | None => (db2, Ok transactionId)
          end
        end
      end
    end
  end.

(** [router.post('/renew')] *)
Definition post_renew (tz : TimeZone) (now : Z) (transactionId : ObjectId) (db : Db) : Db * Reply :=
  match findActiveById transactionId (transactions db) with
  | None => (db, ActiveTransactionNotFound)
  | Some transaction =>
    if 3 <=? renewalCount transaction then (db, RenewalLimitReached)
    else
      let t1 := set_renewalCount (renewalCount transaction + 1) transaction in
      let newDueDate := addDays tz now 14 in
      let t2 := set_dueDate newDueDate t1 in
      match Transaction_save transactionId t2 db with
      | None => (db, Thrown ValidationError)
      | Some db1 => (db1, Ok transactionId)
      end
  end.

(** [.sort('dueDate')]: ascending, documents with equal due dates in the
    order the collection yields them. *)
Fixpoint insertByDueDate (x : ObjectId * Transaction)
    (l : list (ObjectId * Transaction)) : list (ObjectId * Transaction) :=
  match l with
  | [] => [x]
  | y :: l' =>
    if dueDate x.2 <? dueDate y.2 then x :: y :: l'
    else y :: insertByDueDate x l'
  end.

Definition sortByDueDate (l : list (ObjectId * Transaction))
  : list (ObjectId * Transaction) :=
  foldr insertByDueDate [] l.

(** The documents [GET /meta/overdue] loads: active, due before [now]. *)
Definition overdueTransactions (now : Z) (ts : gmap ObjectId Transaction)
  : list (ObjectId * Transaction) :=
  sortByDueDate (map_to_list (find (pastDue now) ts)).

(** The body of [for (let transaction of overdueTransactions)].  The two
    methods read the clock themselves: [clock id] gives the instants
    [checkOverdue] and [calculateFine] see when the loop reaches document
    [id].  A failing [save] leaves the loop. *)
Fixpoint sweep_loop (clock : ObjectId → Z * Z)
    (l : list (ObjectId * Transaction)) (db : Db) : Db * option Exn :=
  match l with
  | [] => (db, None)
  | (id, transaction) :: rest =>
    let t1 := fst (checkOverdue (clock id).1 transaction) in
    let t2 := fst (calculateFine (clock id).2 t1) in
    match Transaction_save id t2 db with
    | None => (db, Some ValidationError)
    | Some db1 => sweep_loop clock rest db1
    end
  end.

(** [router.get('/meta/overdue')]; [now] is the instant of the query. *)
Definition get_meta_overdue (now : Z) (clock : ObjectId → Z * Z) (db : Db)
  : Db * Reply :=
  let l := overdueTransactions now (transactions db) in
  match sweep_loop clock l db with
  | (db1, Some e) => (db1, Thrown e)
  | (db1, None) => (db1, OkCount (length l))
  end.

(** ** Sequences of requests *)

(** A request with what its handler reads of the server: the clock and,
    where [setDate] is called, the time zone. *)
Inductive Request :=
| Issue (tz : TimeZone) (now : Z) (bookId studentId : ObjectId)
    (notes_ : option string) (user : ObjectId)
| Return (now : Z) (transactionId : ObjectId) (notes_ : option string)
| Renew (tz : TimeZone) (now : Z) (transactionId : ObjectId)
| Sweep (now : Z) (clock : ObjectId → Z * Z).

Definition handle (r : Request) (db : Db) : Db * Reply :=
  match r with
  | Issue tz now b s n u => post_issue tz now b s n u db
  | Return now t n => post_return now t n db
  | Renew tz now t => post_renew tz now t db
  | Sweep now clock => get_meta_overdue now clock db
  end.

(** The data base after a list of requests served one after the other. *)
Definition run (rs : list Request) (db : Db) : Db :=
  foldl (λ d r, fst (handle r d)) db rs.

(** ** Definitions used by the statements *)

(** The guard of [calculateFine], as one boolean. *)
Definition accrues (now : Z) (t : Transaction) : bool :=
  (bool_decide (status t = Overdue) || bool_decide (status t = Returned))
  && (0 <? overdueDays now t).

(** The replies that reject a request: the 404 and 400 answers of the
    three handlers. *)
Definition rejection (r : Reply) : bool :=
  match r with
  | BookNotFound | StudentNotFound | ActiveTransactionNotFound
  | BookNotAvailable | AlreadyIssued | BookLimitReached
  | RenewalLimitReached => true
  | Created _ | Ok _ | OkCount _ | Thrown _ => false
  end.

(** The document [POST /return] saves for the loan [t]. *)
Definition returnedDoc (now : Z) (n : option string) (t : Transaction) : Transaction :=
  (calculateFine now
     (set_notes (or_notes n (notes t))
        (set_status Returned (set_returnDate now (set_type TReturn t))))).1.

(** The student collection after [POST /return] has released the slot of
    student [s]: the counter goes down by one when the student exists and
    the counter is positive. *)
Definition releaseSlot (s : ObjectId) (ss : gmap ObjectId Student)
  : gmap ObjectId Student :=
  match ss !! s with
  | Some st =>
    if 0 <? currentBooksIssued st
    then <[s := set_currentBooksIssued (currentBooksIssued st - 1) st]> ss
    else ss
  | None => ss
  end.

(** The document [POST /renew] saves for the loan [t]. *)
Definition renewedDoc (tz : TimeZone) (now : Z) (t : Transaction) : Transaction :=
  set_dueDate (addDays tz now loanPeriodDays) (set_renewalCount (renewalCount t + 1) t).

(** The document the loop of [GET /meta/overdue] saves for the loan [t]
    with id [id]. *)
Definition sweptDoc (clock : ObjectId → Z * Z) (id : ObjectId) (t : Transaction)
  : Transaction :=
  (calculateFine (clock id).2 (checkOverdue (clock id).1 t).1).1.

(** A clock that shows the same instant for the whole request. *)
Definition frozenAt (now : Z) : ObjectId → Z * Z := λ _, (now, now).

(** *** Consistency of the three collections *)

(** [0 <= availableCopies <= totalCopies] for every title. *)
Definition copies_within_bounds (db : Db) : Prop :=
  ∀ id b, books db !! id = Some b → 0 ≤ availableCopies b ≤ totalCopies b.

(** The active loans of a title, as a query. *)
Definition activeOn (bookId : ObjectId) (t : Transaction) : bool :=
  bool_decide (book t = bookId) && bool_decide (status t = Active).

(** A data base is consistent when
    - no title has a negative [availableCopies], and the copies on the
      shelf plus the copies out on active loans do not exceed
      [totalCopies];
    - the title of every active loan exists;
    - no borrower's [currentBooksIssued] exceeds the number of the
      borrower's active loans or [maxBooksAllowed]. *)
Definition consistent (db : Db) : Prop :=
  (∀ bid b, books db !! bid = Some b →
     0 ≤ availableCopies b
     ∧ availableCopies b + Z.of_nat (countDocuments (activeOn bid) (transactions db))
       ≤ totalCopies b)
  ∧ (∀ id t, transactions db !! id = Some t → status t = Active →
       is_Some (books db !! book t))
  ∧ (∀ sid s, students db !! sid = Some s →
       currentBooksIssued s
         ≤ Z.of_nat (countDocuments (activeOf sid) (transactions db))
       ∧ currentBooksIssued s ≤ maxBooksAllowed s).

(** *** Fines on the record *)

(** The fine of a loan settled at the evaluation instant [e]:
    [max(0, ceil((settlementDate - dueDate) / 1 day)) * ratePerDay], the
    settlement date being the return date when there is one and [e]
    otherwise. *)
Definition fineAt (e : Z) (t : Transaction) : Z :=
  Z.max 0 (ceil_div (settlementDate e t - dueDate t) msPerDay) * ratePerDay.

(** No loan that is still [active] has a return date or a fine: the state
    of the loans [POST /issue] creates. *)
Definition no_fine_while_active (db : Db) : Prop :=
  ∀ id t, transactions db !! id = Some t → status t = Active →
    returnDate t = None ∧ amount (fine t) = 0.

(** The fine records the routes leave while no sweep has read the clock
    for a fine after the instant [T]: an [active] loan has none, an
    [overdue] loan has no return date and the fine of an instant up to [T],
    a [returned] loan has the fine of its return date. *)
Definition fines_settled (T : Z) (db : Db) : Prop :=
  no_fine_while_active db
  ∧ (∀ id t, transactions db !! id = Some t → status t = Overdue →
       returnDate t = None ∧ ∃ e, e ≤ T ∧ amount (fine t) = fineAt e t)
  ∧ (∀ id t, transactions db !! id = Some t → status t = Returned →
       is_Some (returnDate t) ∧ ∀ e, amount (fine t) = fineAt e t).


(** Whether a request is the overdue sweep. *)
Definition is_sweep (r : Request) : bool :=
  match r with
  | Sweep _ _ => true
  | _ => false
  end.

(** [0] or [1], for counting. *)
Definition indicator (b : bool) : nat := if b then 1%nat else 0%nat.

(** ** Sample data *)

(** A server that keeps UTC. *)
Definition zoneUTC : TimeZone := mkTimeZone (λ _ _, 0).

Definition msPerHour : Z := 1000 * 60 * 60.

(** 14 March 2027, 07:00 UTC: the clocks of New York go from 02:00 to
    03:00. *)
Definition springForward : Z := 1805007600000.

(** New York around that change: five hours behind UTC before it, four
    after; a local time of the skipped hour takes the offset in force
    before the change. *)
Definition zoneNewYork : TimeZone :=
  mkTimeZone (λ t isUTC,
    if isUTC
    then if t <? springForward then - 5 * msPerHour else - 4 * msPerHour
    else if t <? springForward - 4 * msPerHour then - 5 * msPerHour
         else - 4 * msPerHour).

(** A loan as [POST /issue] creates it at instant 0 on a server that
    keeps UTC. *)
Definition sampleLoan : Transaction :=
  mkTransaction 1%positive 1%positive TIssue 0 (addDays zoneUTC 0 14) None Active
    (mkFine 0 RNone false None) 0 None 9%positive.

(** The same loan marked [overdue]. *)
Definition overdueLoan : Transaction := set_status Overdue sampleLoan.

(** One title with two copies, one of them lent to the one student, whose
    quota is one loan. *)
Definition libraryDb : Db :=
  mkDb {[ 1%positive := mkBook true 2 1 ]}
       {[ 1%positive := mkStudent SActive 1 1 ]}
       {[ 1%positive := sampleLoan ]}.

(** The same library once the loan has been marked [overdue]. *)
Definition libraryDbOverdue : Db :=
  with_transactions {[ 1%positive := overdueLoan ]} libraryDb.

(** The same library with the student's counter at 0, as the seeding
    script leaves it for the loans it creates. *)
Definition libraryDbSeeded : Db :=
  with_students {[ 1%positive := mkStudent SActive 1 0 ]} libraryDb.

(** The same library with every copy recorded as available. *)
Definition libraryDbFull : Db :=
  with_books {[ 1%positive := mkBook true 2 2 ]} libraryDb.

(** The same library with its single copy out. *)
Definition libraryDbOut : Db :=
  with_books {[ 1%positive := mkBook true 1 0 ]} libraryDb.

(** A loan of the sample title issued fifteen days before instant 0, so
    due one day before it. *)
Definition dueYesterday : Transaction :=
  mkTransaction 1%positive 1%positive TIssue (- 15 * msPerDay) (- msPerDay) None
    Active (mkFine 0 RNone false None) 0 None 9%positive.

(** A library with both copies of its title out: one loan still running,
    one due yesterday. *)
Definition sweepDb : Db :=
  mkDb {[ 1%positive := mkBook true 2 0 ]}
       {[ 1%positive := mkStudent SActive 3 2 ]}
       (<[ 2%positive := dueYesterday ]> {[ 1%positive := sampleLoan ]}).

(** A library with two titles on the shelf, no loan, and one borrower
    allowed a single loan. *)
Definition quotaDb : Db :=
  mkDb (<[ 2%positive := mkBook true 1 1 ]> {[ 1%positive := mkBook true 2 2 ]})
       {[ 1%positive := mkStudent SActive 1 0 ]}
       ∅.

(** The borrower takes the first title, the sweep runs on the day after
    the due date, the borrower takes the second title. *)
Definition quotaRequests : list Request :=
  [ Issue zoneUTC 0 1%positive 1%positive None 9%positive;
    Sweep (addDays zoneUTC 0 15) (frozenAt (addDays zoneUTC 0 15));
    Issue zoneUTC (addDays zoneUTC 0 15) 2%positive 1%positive None 9%positive ].

(** ** Further definitions used by the statements *)

(** The document [POST /issue] creates. *)
Definition issuedDoc (tz : TimeZone) (now : Z) (bookId studentId : ObjectId)
    (n : option string) (user : ObjectId) : Transaction :=
  mkTransaction bookId studentId TIssue now (addDays tz now 14) None Active
    (mkFine 0 RNone false None) 0 n user.

(** A loan issued in New York ten days before the clocks go forward. *)
Definition marchLoan : Transaction :=
  issuedDoc zoneNewYork (springForward - 10 * msPerDay) 1%positive 1%positive None
    9%positive.

(** A copy of title [bookId] is out on loan [t]: the loan is [active] or
    [overdue]. *)
Definition outstandingOn (bookId : ObjectId) (t : Transaction) : bool :=
  bool_decide (book t = bookId)
  && (bool_decide (status t = Active) || bool_decide (status t = Overdue)).

(** Every stored loan passes the validators of its schema. *)
Definition all_valid (db : Db) : Prop :=
  ∀ id t, transactions db !! id = Some t → Transaction_validate t = true.

(** The part of [consistent] that concerns the inventory. *)
Definition stock_consistent (db : Db) : Prop :=
  (∀ bid b, books db !! bid = Some b →
     0 ≤ availableCopies b
     ∧ availableCopies b + Z.of_nat (countDocuments (activeOn bid) (transactions db))
       ≤ totalCopies b)
  ∧ (∀ id t, transactions db !! id = Some t → status t = Active →
       is_Some (books db !! book t)).

(** How a loan record may differ from an earlier state of itself. *)
Definition evolves (t t' : Transaction) : Prop :=
  book t' = book t ∧ student t' = student t ∧ issueDate t' = issueDate t
  ∧ processedBy t' = processedBy t
  ∧ renewalCount t ≤ renewalCount t'
  ∧ (status t' = Active → status t = Active)
  ∧ (status t ≠ Active → t' = t).

(** Between two states of the data base every title keeps its
    [totalCopies] and the sum of its copies on the shelf and its copies
    out. *)
Definition conserved (db0 db : Db) : Prop :=
  ∀ bid bk, books db0 !! bid = Some bk →
    ∃ bk', books db !! bid = Some bk'
           ∧ totalCopies bk' = totalCopies bk
           ∧ isActive bk' = isActive bk
           ∧ availableCopies bk'
               + Z.of_nat (countDocuments (outstandingOn bid) (transactions db))
             = availableCopies bk
               + Z.of_nat (countDocuments (outstandingOn bid) (transactions db0)).

(** ** The other routes *)

(** *** Reading loans *)

(** [req.user], as far as the handlers read it: [role] and [id]. *)
Inductive Role := RAdmin | RLibrarian | RStudent.

#[export] Instance Role_eq_dec : EqDecision Role.
Proof. solve_decision. Defined.

Record User := mkUser {
  role : Role;
  user_id : ObjectId
}.

(** The replies of the two reading routes.  The documents of a listing
    are given as a collection: their order ([sort('-createdAt')]) is not
    part of the model. *)
Inductive ReadReply :=
| Data (t : Transaction)                                (* 200, one loan *)
| DataList (count : nat) (data : gmap ObjectId Transaction)   (* 200, a listing *)
| TransactionNotFound                                   (* 404 'Transaction not found' *)
| NotAuthorized                                         (* 403 *)
| ReadThrown (e : Exn).                                 (* next(error) *)

(** [router.get('/:id')] of the transactions router.  [populate('student')]
    leaves [null] for a missing student, and the role test reads its
    [_id] only for a user of role ['student']. *)
Definition get_transaction (user : User) (id : ObjectId) (db : Db) : ReadReply :=
  match transactions db !! id with
  | None => TransactionNotFound
  | Some transaction =>
    if bool_decide (role user = RStudent)
    then
      match students db !! student transaction with
      | None => ReadThrown TypeError
      | Some _ =>
        if bool_decide (student transaction ≠ user_id user)
        then NotAuthorized
        else Data transaction
      end
    else Data transaction
  end.

(** [{ student: req.params.studentId }] *)
Definition ofStudent (studentId : ObjectId) (t : Transaction) : bool :=
  bool_decide (student t = studentId).

(** [router.get('/student/:studentId')] *)
Definition get_student_transactions (user : User) (studentId : ObjectId) (db : Db)
  : ReadReply :=
  if bool_decide (role user = RStudent) && bool_decide (studentId ≠ user_id user)
  then NotAuthorized
  else
    let transactions_ := find (ofStudent studentId) (transactions db) in
    DataList (size transactions_) transactions_.

(** *** The books router *)

Definition set_isActive (a : bool) (b : Book) : Book :=
  mkBook a (totalCopies b) (availableCopies b).

Definition set_totalCopies (n : Z) (b : Book) : Book :=
  mkBook (isActive b) n (availableCopies b).

(** A numeric field of [req.body] as [express-validator]'s [isInt] sees
    it: absent, present but not an integer, or an integer. *)
Inductive IntField := Absent | NotInt | Int (z : Z).

(** A [req.body] of [PUT /api/books/:id] that sets no other path than
    these three. *)
Record BookBody := mkBookBody {
  body_isActive : option bool;
  body_totalCopies : IntField;
  body_availableCopies : IntField
}.

Inductive BookReply :=
| BookData (b : Book)               (* 200, the book *)
| BookDeleted                       (* 200 'Book deleted successfully' *)
| BookMissing                       (* 404 'Book not found' *)
| BookRejected                      (* 400 'Validation failed' *)
| BookThrown (e : Exn).             (* next(error) *)

(** [router.get('/:id')] of the books router. *)
Definition get_book (id : ObjectId) (db : Db) : BookReply :=
  match books db !! id with
  | Some book_ => if isActive book_ then BookData book_ else BookMissing
  | None => BookMissing
  end.

(** [body(f).optional().isInt({ min: m })]: an absent field passes. *)
Definition optional_isInt_min (m : Z) (f : IntField) : bool :=
  match f with
  | Absent => true
  | NotInt => false
  | Int z => m <=? z
  end.

(** [Book.findByIdAndUpdate(id, req.body, { new: true, runValidators: true })]
    on a found book: the given paths are set; the update validators are the
    [min] validators of the paths set; no [save] middleware runs. *)
Definition Book_update (body : BookBody) (b : Book) : option Book :=
  let b1 := match body_isActive body with Some a => set_isActive a b | None => b end in
  let b2 := match body_totalCopies body with Int z => set_totalCopies z b1 | _ => b1 end in
  let b3 := match body_availableCopies body with
            | Int z => set_availableCopies z b2
            | _ => b2
            end in
  let valid :=
    match body_totalCopies body with Int z => 1 <=? z | _ => true end
    && match body_availableCopies body with Int z => 0 <=? z | _ => true end in
  if valid then Some b3 else None.

(** [router.put('/:id')] of the books router. *)
Definition put_book (id : ObjectId) (body : BookBody) (db : Db) : Db * BookReply :=
  if optional_isInt_min 1 (body_totalCopies body)
     && optional_isInt_min 0 (body_availableCopies body)
  then
    match books db !! id with
    | None => (db, BookMissing)
    | Some book_ =>
      if negb (isActive book_) then (db, BookMissing)
      else
        match Book_update body book_ with
        | None => (db, BookThrown ValidationError)
        | Some b' => (with_books (<[id := b']> (books db)) db, BookData b')
        end
    end
  else (db, BookRejected).

(** [router.delete('/:id')] of the books router: a soft delete through
    [book.save()]. *)
Definition delete_book (id : ObjectId) (db : Db) : Db * BookReply :=
  match books db !! id with
  | None => (db, BookMissing)
  | Some book_ =>
    if negb (isActive book_) then (db, BookMissing)
    else
      match Book_save id (set_isActive false book_) db with
      | None => (db, BookThrown ValidationError)
      | Some db1 => (db1, BookDeleted)
      end
  end.

(** *** The students router *)

Definition set_studentStatus (s : StudentStatus) (st : Student) : Student :=
  mkStudent s (maxBooksAllowed st) (currentBooksIssued st).

Inductive StudentReply :=
| StudentData (s : Student)         (* 200, the student *)
| StudentDeleted                    (* 200 'Student deleted successfully' *)
| StudentMissing.                   (* 404 'Student not found' *)

(** [router.get('/:id')] of the students router: any status. *)
Definition get_student (id : ObjectId) (db : Db) : StudentReply :=
  match students db !! id with
  | Some student_ => StudentData student_
  | None => StudentMissing
  end.

(** [router.delete('/:id')] of the students router:
    [findByIdAndUpdate(id, { status: 'inactive' })], without validators or
    middleware. *)
Definition delete_student (id : ObjectId) (db : Db) : Db * StudentReply :=
  match students db !! id with
  | None => (db, StudentMissing)
  | Some student_ =>
    (with_students (<[id := set_studentStatus SInactive student_]> (students db)) db,
     StudentDeleted)
  end.

(** *** Pagination, as the three listing routes compute it *)

(** [parseInt(q, 10) || d], from the result of [parseInt] ([None] for
    [NaN]): [NaN] and [0] are falsy. *)
Definition orDefault (parsed : option Z) (d : Z) : Z :=
  match parsed with
  | Some 0 => d
  | Some v => v
  | None => d
  end.

Record PageLink := mkPageLink {
  link_page : Z;
  link_limit : Z
}.

Record Pagination := mkPagination {
  next : option PageLink;
  prev : option PageLink
}.

Definition startIndex (page limit : Z) : Z := (page - 1) * limit.
Definition endIndex (page limit : Z) : Z := page * limit.

(** The [pagination] object for the parsed query parameters and [total]. *)
Definition pagination (pageParam limitParam : option Z) (total : Z) : Pagination :=
  let page := orDefault pageParam 1 in
  let limit := orDefault limitParam 10 in
  mkPagination
    (if endIndex page limit <? total then Some (mkPageLink (page + 1) limit) else None)
    (if 0 <? startIndex page limit then Some (mkPageLink (page - 1) limit) else None).

(** *** The dashboard's loan counts *)

(** [Transaction.countDocuments({ status: 'active' })] *)
Definition activeTransactions (db : Db) : nat :=
  countDocuments (λ t, bool_decide (status t = Active)) (transactions db).

(** [Transaction.countDocuments({ status: 'active', dueDate: { $lt: new
    Date() } })] *)
Definition dashboard_overdueTransactions (now : Z) (db : Db) : nat :=
  countDocuments (pastDue now) (transactions db).

(** * Properties *)

(** ** Fines *)

Section Fines.

Lemma msPerDay_pos : 0 < msPerDay.
Proof. reflexivity. Qed.

(** [ceil_div a b] is the least integer [q] with [a <= q * b]. *)
Lemma ceil_div_bounds (a b : Z) :
  0 < b → (ceil_div a b - 1) * b < a ≤ ceil_div a b * b.
Proof.
  intros Hb. unfold ceil_div.
  pose proof (Z.div_mod (- a) b ltac:(lia)) as Hdm.
  pose proof (Z.mod_pos_bound (- a) b Hb) as Hm.
  nia.
Qed.

Lemma ceil_div_unique (a b q : Z) :
  0 < b → (q - 1) * b < a ≤ q * b → ceil_div a b = q.
Proof.
  intros Hb Hq. pose proof (ceil_div_bounds a b Hb) as Hc. nia.
Qed.

Lemma ceil_div_pos_iff (a b : Z) : 0 < b → 0 < ceil_div a b ↔ 0 < a.
Proof.
  intros Hb. pose proof (ceil_div_bounds a b Hb) as Hc. split; intros; nia.
Qed.


Lemma ceil_div_days (n : Z) : ceil_div (n * msPerDay) msPerDay = n.
Proof. apply ceil_div_unique; [apply msPerDay_pos | pose proof msPerDay_pos; nia]. Qed.

Lemma overdueDays_pos_iff now t :
  0 < overdueDays now t ↔ dueDate t < settlementDate now t.
Proof.
  unfold overdueDays. rewrite ceil_div_pos_iff by apply msPerDay_pos. lia.
Qed.

Lemma calculateFine_unfold now t :
  (calculateFine now t).1 =
  if accrues now t
  then set_fine (mkFine (overdueDays now t * 2) ROverdue
                   (paid (fine t)) (paidDate (fine t))) t
  else t.
Proof.
  unfold calculateFine, accrues. simpl.
  destruct (bool_decide (status t = Overdue) || bool_decide (status t = Returned));
    simpl; [destruct (0 <? overdueDays now t) |]; reflexivity.
Qed.

Lemma calculateFine_snd now t :
  (calculateFine now t).2 = amount (fine (calculateFine now t).1).
Proof. reflexivity. Qed.

Lemma accrues_true now t :
  accrues now t = true ↔
  (status t = Overdue ∨ status t = Returned) ∧ dueDate t < settlementDate now t.
Proof.
  unfold accrues. rewrite andb_true_iff, orb_true_iff, !bool_decide_eq_true,
    Z.ltb_lt, overdueDays_pos_iff. tauto.
Qed.

Lemma accrues_false now t :
  accrues now t = false ↔
  ¬ (status t = Overdue ∨ status t = Returned) ∨ settlementDate now t ≤ dueDate t.
Proof.
  rewrite <- not_true_iff_false, accrues_true.
  destruct (decide (status t = Overdue ∨ status t = Returned));
    destruct (decide (dueDate t < settlementDate now t)); split; intros; try tauto; try lia.
  destruct H as [H|H]; [tauto | lia].
Qed.

(** What [calculateFine] leaves alone: every field except [fine]. *)
Lemma calculateFine_fields now t :
  let t' := (calculateFine now t).1 in
  book t' = book t ∧ student t' = student t ∧ type t' = type t ∧
  issueDate t' = issueDate t ∧ dueDate t' = dueDate t ∧
  returnDate t' = returnDate t ∧ status t' = status t ∧
  renewalCount t' = renewalCount t ∧ notes t' = notes t ∧
  processedBy t' = processedBy t.
Proof.
  cbv zeta. rewrite calculateFine_unfold. destruct (accrues now t); simpl; tauto.
Qed.

(** The amount once the settlement date has passed the due date. *)
Lemma calculateFine_late now t :
  status t = Overdue ∨ status t = Returned →
  dueDate t < settlementDate now t →
  (calculateFine now t).2 = overdueDays now t * 2 ∧ 0 < overdueDays now t.
Proof.
  intros Hst Hlt. rewrite calculateFine_snd, calculateFine_unfold.
  replace (accrues now t) with true by (symmetry; apply accrues_true; tauto).
  split; [reflexivity | by apply overdueDays_pos_iff].
Qed.


End Fines.

(** ** The handlers, one request at a time *)

Section Handlers.

Lemma findActiveById_Some id ts t :
  findActiveById id ts = Some t ↔ ts !! id = Some t ∧ status t = Active.
Proof.
  unfold findActiveById. destruct (ts !! id) as [t'|].
  - case_bool_decide as Hst; split.
    + intros [= ->]. done.
    + intros [[= ->] _]. done.
    + discriminate.
    + intros [[= ->] ?]. done.
  - split; [discriminate | intros [? _]; discriminate].
Qed.

Lemma findActiveById_None id ts :
  findActiveById id ts = None ↔ ¬ ∃ t, ts !! id = Some t ∧ status t = Active.
Proof.
  split.
  - intros Hnone (t & Ht). apply findActiveById_Some in Ht. congruence.
  - intros Hno. destruct (findActiveById id ts) as [t|] eqn:Hf; [| done].
    destruct Hno. exists t. by apply findActiveById_Some.
Qed.

Lemma Transaction_validate_true t :
  Transaction_validate t = true ↔
  0 ≤ amount (fine t) ∧ renewalCount t ≤ 3 ∧ notes_ok (notes t) = true
  ∧ (type t = TReturn → is_Some (returnDate t)).
Proof.
  unfold Transaction_validate.
  rewrite !andb_true_iff, !Z.leb_le.
  case_bool_decide as Hty.
  - rewrite bool_decide_eq_true. tauto.
  - tauto.
Qed.

Lemma Transaction_save_Some id t db db' :
  Transaction_save id t db = Some db' →
  db' = with_transactions (<[id := t]> (transactions db)) db.
Proof. unfold Transaction_save. destruct (Transaction_validate t); by intros [= <-]. Qed.

Lemma or_notes_ok n old :
  notes_ok n = true → notes_ok old = true → notes_ok (or_notes n old) = true.
Proof. destruct n as [[|]|]; simpl; auto. Qed.

(** Where the zone's offset from UTC is the same at both ends, [setDate]
    adds whole days of 24 hours. *)
Lemma addDays_same_offset tz d n :
  LocalTZA tz (LocalTime tz d + n * msPerDay) false = LocalTZA tz d true →
  addDays tz d n = d + n * msPerDay.
Proof. unfold addDays, UTC, LocalTime. intros ->. lia. Qed.

(** C6, as amended.  For a stored loan that passes the schema's validators,
    [POST /renew] succeeds exactly when the status is [active] and
    [renewalCount] is below 3.  On success the saved document is the loan
    with [renewalCount] one higher and [dueDate] the instant at which the
    server's local clock shows the time of the renewal fourteen calendar
    days later, which is the renewal instant plus fourteen times 24 hours when
    the zone's offset from UTC is the same at both ends; nothing else
    changes.  Otherwise the data base is left as it was, and with
    [renewalCount] already 3 the reply is 'Maximum renewal limit
    reached'. *)
Theorem post_renew_spec (tz : TimeZone) (now : Z) (id : ObjectId) (db : Db) (t : Transaction) :
  transactions db !! id = Some t →
  Transaction_validate t = true →
  ((post_renew tz now id db).2 = Ok id ↔ status t = Active ∧ renewalCount t < maxRenewals)
  ∧ (status t = Active → renewalCount t < maxRenewals →
     (post_renew tz now id db).1
     = with_transactions (<[id := renewedDoc tz now t]> (transactions db)) db
     ∧ renewalCount (renewedDoc tz now t) = renewalCount t + 1
     ∧ dueDate (renewedDoc tz now t)
       = UTC tz (LocalTime tz now + loanPeriodDays * msPerDay)
     ∧ (LocalTZA tz (LocalTime tz now + loanPeriodDays * msPerDay) false
        = LocalTZA tz now true →
        dueDate (renewedDoc tz now t) = now + loanPeriodDays * msPerDay))
  ∧ (¬ (status t = Active ∧ renewalCount t < maxRenewals) →
     (post_renew tz now id db).1 = db)
  ∧ (status t = Active → renewalCount t = maxRenewals →
     post_renew tz now id db = (db, RenewalLimitReached)).
Proof.
  intros Hid Hval. unfold maxRenewals.
  apply Transaction_validate_true in Hval as (Hamt & Hcnt & Hnotes & Hret).
  unfold post_renew.
  destruct (findActiveById id (transactions db)) as [t'|] eqn:Hfind.
  - apply findActiveById_Some in Hfind as [Hid' Hact].
    assert (t' = t) as -> by congruence.
    destruct (3 <=? renewalCount t) eqn:Hlim.
    + apply Z.leb_le in Hlim. simpl. split_and!.
      * split; [discriminate | lia].
      * lia.
      * reflexivity.
      * reflexivity.
    + apply Z.leb_gt in Hlim.
      assert (Hok : Transaction_validate
                (set_dueDate (addDays tz now 14)
                   (set_renewalCount (renewalCount t + 1) t)) = true).
      { apply Transaction_validate_true. simpl. split_and!; [done | lia | done | done]. }
      unfold Transaction_save. rewrite Hok. simpl. split_and!.
      * split; [auto | reflexivity].
      * intros _ _. split_and!; try reflexivity.
        apply addDays_same_offset.
      * intros Hn. destruct Hn. auto.
      * lia.
  - apply findActiveById_None in Hfind. simpl.
    assert (Hna : status t ≠ Active) by (intros Hact; destruct Hfind; eauto).
    split_and!.
    + split; [discriminate | tauto].
    + tauto.
    + reflexivity.
    + tauto.
Qed.

(** Three renewals of a fresh loan succeed and the fourth is refused; on
    a server that keeps UTC the first moves the due date to fourteen days
    after the renewal. *)
Lemma post_renew_spec_witness :
  let db := mkDb ∅ ∅ {[ 1%positive := sampleLoan ]} in
  let db3 := run [Renew zoneUTC 5 1%positive; Renew zoneUTC 6 1%positive;
                  Renew zoneUTC 7 1%positive] db in
  (post_renew zoneUTC 5 1%positive db).2 = Ok 1%positive
  ∧ (renewalCount <$> transactions (post_renew zoneUTC 5 1%positive db).1 !! 1%positive) = Some 1
  ∧ dueDate (renewedDoc zoneUTC 5 sampleLoan) = 5 + loanPeriodDays * msPerDay
  ∧ (renewalCount <$> transactions db3 !! 1%positive) = Some 3
  ∧ post_renew zoneUTC 8 1%positive db3 = (db3, RenewalLimitReached).
Proof.
  intros db db3.
  assert (H1 : transactions db !! 1%positive = Some sampleLoan) by reflexivity.
  assert (Hv : Transaction_validate sampleLoan = true) by reflexivity.
  destruct (post_renew_spec zoneUTC 5 1%positive db sampleLoan H1 Hv) as (Hiff & Hok & _ & _).
  assert (H3 : transactions db3 !! 1%positive
               = Some (renewedDoc zoneUTC 7 (renewedDoc zoneUTC 6
                         (renewedDoc zoneUTC 5 sampleLoan))))
    by (vm_compute; reflexivity).
  assert (Hv3 : Transaction_validate
                  (renewedDoc zoneUTC 7 (renewedDoc zoneUTC 6
                     (renewedDoc zoneUTC 5 sampleLoan))) = true)
    by reflexivity.
  destruct (post_renew_spec zoneUTC 8 1%positive db3 _ H3 Hv3) as (_ & _ & _ & Hfourth).
  destruct Hok as (Hdb & _ & _ & Hdue); [reflexivity | reflexivity |].
  split_and!.
  - apply Hiff. split; [reflexivity | reflexivity].
  - rewrite Hdb. reflexivity.
  - apply Hdue. reflexivity.
  - rewrite H3. reflexivity.
  - apply Hfourth; reflexivity.
Defined.

(** Where C6 as first stated fails: in New York, a loan issued ten days
    before the clocks go forward and renewed on the eve of the change gets
    a due date fourteen calendar days later at the same local time, one hour short
    of fourteen times 24 hours after the renewal. *)
Lemma post_renew_counterexample :
  let db := mkDb ∅ ∅ {[ 1%positive := marchLoan ]} in
  let now := springForward - msPerDay in
  status marchLoan = Active ∧ renewalCount marchLoan = 0
  ∧ (post_renew zoneNewYork now 1%positive db).2 = Ok 1%positive
  ∧ (dueDate <$> transactions (post_renew zoneNewYork now 1%positive db).1 !! 1%positive)
    = Some (now + 14 * msPerDay - msPerHour)
  ∧ now + 14 * msPerDay - msPerHour ≠ now + 14 * msPerDay.
Proof. vm_compute. split_and!; [reflexivity .. | discriminate]. Qed.

(** C8.  A request that is rejected (any 404 or 400 reply of [POST /issue],
    [POST /return] or [POST /renew]) leaves books, students and
    transactions exactly as they were. *)
Theorem rejected_request_mutates_nothing (r : Request) (db : Db) :
  rejection (handle r db).2 = true → (handle r db).1 = db.
Proof.
  destruct r as [tz now b s n u | now i n | tz now i | now clock]; simpl.
  - unfold post_issue, Transaction_save, Book_save.
    repeat case_match; simpl; try reflexivity; discriminate.
  - unfold post_return, Transaction_save, Book_save.
    repeat case_match; simpl; try reflexivity; discriminate.
  - unfold post_renew, Transaction_save.
    repeat case_match; simpl; try reflexivity; discriminate.
  - unfold get_meta_overdue.
    destruct (sweep_loop clock _ db) as [db1 [e|]]; simpl; discriminate.
Qed.

Lemma rejected_request_mutates_nothing_witness :
  let db := mkDb {[ 1%positive := mkBook true 1 0 ]}
                 {[ 1%positive := mkStudent SActive 3 0 ]} ∅ in
  rejection (handle (Issue zoneUTC 0 1%positive 1%positive None 9%positive) db).2 = true
  ∧ (handle (Issue zoneUTC 0 1%positive 1%positive None 9%positive) db).1 = db.
Proof.
  intros db. split; [reflexivity |].
  apply rejected_request_mutates_nothing. reflexivity.
Defined.

Lemma returnedDoc_fields now n t :
  book (returnedDoc now n t) = book t
  ∧ student (returnedDoc now n t) = student t
  ∧ type (returnedDoc now n t) = TReturn
  ∧ issueDate (returnedDoc now n t) = issueDate t
  ∧ dueDate (returnedDoc now n t) = dueDate t
  ∧ returnDate (returnedDoc now n t) = Some now
  ∧ status (returnedDoc now n t) = Returned
  ∧ renewalCount (returnedDoc now n t) = renewalCount t
  ∧ notes (returnedDoc now n t) = or_notes n (notes t)
  ∧ processedBy (returnedDoc now n t) = processedBy t.
Proof.
  unfold returnedDoc.
  pose proof (calculateFine_fields now
    (set_notes (or_notes n (notes t))
       (set_status Returned (set_returnDate now (set_type TReturn t))))) as H.
  cbv zeta in H. destruct H as (-> & -> & -> & -> & -> & -> & -> & -> & -> & ->).
  simpl. split_and!; reflexivity.
Qed.

(** The final fine of a return: recomputed with [returnDate] as the
    settlement date. *)
Lemma returnedDoc_fine now n t :
  fine (returnedDoc now n t) =
  if dueDate t <? now
  then mkFine (ceil_div (now - dueDate t) msPerDay * ratePerDay) ROverdue
         (paid (fine t)) (paidDate (fine t))
  else fine t.
Proof.
  unfold returnedDoc. rewrite calculateFine_unfold.
  set (t4 := set_notes _ _).
  destruct (dueDate t <? now) eqn:Hlt.
  - apply Z.ltb_lt in Hlt.
    replace (accrues now t4) with true
      by (symmetry; apply accrues_true; split; [right; reflexivity | exact Hlt]).
    reflexivity.
  - apply Z.ltb_ge in Hlt.
    replace (accrues now t4) with false
      by (symmetry; apply accrues_false; right; exact Hlt).
    reflexivity.
Qed.

Lemma returnedDoc_valid now n t :
  Transaction_validate t = true → notes_ok n = true →
  Transaction_validate (returnedDoc now n t) = true.
Proof.
  rewrite !Transaction_validate_true. intros (Hamt & Hcnt & Hnotes & _) Hn.
  pose proof (returnedDoc_fields now n t) as (_ & _ & _ & _ & _ & Hret & _ & Hrc & Hno & _).
  rewrite Hret, Hrc, Hno, returnedDoc_fine. split_and!.
  - destruct (dueDate t <? now) eqn:Hlt; [| exact Hamt]. simpl.
    apply Z.ltb_lt in Hlt.
    pose proof (proj2 (ceil_div_pos_iff (now - dueDate t) msPerDay msPerDay_pos)).
    unfold ratePerDay. lia.
  - exact Hcnt.
  - apply or_notes_ok; assumption.
  - intros _. eauto.
Qed.

(** [POST /return] in terms of the document it saves. *)
Lemma post_return_unfold now id n db :
  post_return now id n db =
  match findActiveById id (transactions db) with
  | None => (db, ActiveTransactionNotFound)
  | Some t =>
    match Transaction_save id (returnedDoc now n t) db with
    | None => (db, Thrown ValidationError)
    | Some db1 =>
      match books db1 !! book t with
      | None => (db1, Thrown TypeError)
      | Some b =>
        match Book_save (book t) (set_availableCopies (availableCopies b + 1) b) db1 with
        | None => (db1, Thrown ValidationError)
        | Some db2 =>
          (with_students (releaseSlot (student t) (students db2)) db2, Ok id)
        end
      end
    end
  end.
Proof.
  unfold post_return. destruct (findActiveById id (transactions db)) as [t|]; [| reflexivity].
  cbv zeta.
  pose proof (returnedDoc_fields now n t) as (Hbk & Hstu & _).
  change (calculateFine now _).1 with (returnedDoc now n t).
  rewrite Hbk, Hstu.
  destruct (Transaction_save id (returnedDoc now n t) db) as [db1|]; [| reflexivity].
  destruct (books db1 !! book t) as [b|]; [| reflexivity].
  destruct (Book_save _ _ db1) as [db2|]; [| reflexivity].
  unfold releaseSlot, Student_save.
  destruct (students db2 !! student t) as [st|]; [| by destruct db2].
  destruct (0 <? currentBooksIssued st); [reflexivity | by destruct db2].
Qed.

(** C1, as amended.  [POST /return] answers 'Active transaction not found'
    exactly when no loan with the given id has status [active].  For a loan
    with status [active] that passes the schema's validators, with a note of
    at most 200 characters, whose book exists with [availableCopies] below
    [totalCopies], it succeeds: the loan is saved with [type] 'return',
    [returnDate] the current instant, [status] 'returned' and the fine
    recomputed with [returnDate] as settlement date; the book's
    [availableCopies] goes up by one; the student's [currentBooksIssued]
    goes down by one when the student exists and the counter is positive,
    and stays as it is otherwise. *)
Theorem post_return_active (now : Z) (id : ObjectId) (n : option string) (db : Db) :
  ((post_return now id n db).2 = ActiveTransactionNotFound
   ↔ ¬ ∃ t, transactions db !! id = Some t ∧ status t = Active)
  ∧ ∀ t b,
      transactions db !! id = Some t → status t = Active →
      Transaction_validate t = true → notes_ok n = true →
      books db !! book t = Some b →
      0 ≤ availableCopies b < totalCopies b →
      post_return now id n db
      = (mkDb (<[book t := set_availableCopies (availableCopies b + 1) b]> (books db))
              (releaseSlot (student t) (students db))
              (<[id := returnedDoc now n t]> (transactions db)),
         Ok id)
      ∧ type (returnedDoc now n t) = TReturn
      ∧ returnDate (returnedDoc now n t) = Some now
      ∧ status (returnedDoc now n t) = Returned
      ∧ amount (fine (returnedDoc now n t))
        = (if dueDate t <? now
           then ceil_div (now - dueDate t) msPerDay * ratePerDay
           else amount (fine t)).
Proof.
  split.
  - rewrite <- findActiveById_None. unfold post_return.
    destruct (findActiveById id (transactions db)) as [t|]; [| done].
    split; [| discriminate].
    unfold Transaction_save, Book_save. cbv zeta.
    repeat case_match; simpl; discriminate.
  - intros t b Hid Hact Hval Hn Hb Hcopies.
    pose proof (returnedDoc_fields now n t) as (Hbk & Hstu & Hty & _ & _ & Hret & Hst & _).
    split_and!; try assumption.
    2:{ rewrite returnedDoc_fine. destruct (dueDate t <? now); reflexivity. }
    rewrite post_return_unfold.
    replace (findActiveById id (transactions db)) with (Some t)
      by (symmetry; apply findActiveById_Some; done).
    unfold Transaction_save. rewrite (returnedDoc_valid now n t Hval Hn).
    simpl. rewrite Hb.
    unfold Book_save, Book_validate, Book_preSave. simpl.
    replace (1 <=? totalCopies b) with true by (symmetry; apply Z.leb_le; lia).
    replace (0 <=? availableCopies b + 1) with true by (symmetry; apply Z.leb_le; lia).
    replace (totalCopies b <? availableCopies b + 1) with false
      by (symmetry; apply Z.ltb_ge; lia).
    reflexivity.
Qed.

(** Where C1 as first stated fails: a loan marked [overdue] is not found
    by [POST /return]; with the student's counter at 0 the return succeeds
    and the counter is not decremented; with every copy already recorded as
    available the loan is saved as returned and the request then throws. *)
Lemma post_return_counterexample :
  (transactions libraryDbOverdue !! 1%positive = Some overdueLoan
   ∧ status overdueLoan = Overdue
   ∧ post_return (addDays zoneUTC 0 17) 1%positive None libraryDbOverdue
     = (libraryDbOverdue, ActiveTransactionNotFound))
  ∧ (transactions libraryDbSeeded !! 1%positive = Some sampleLoan
     ∧ status sampleLoan = Active
     ∧ (post_return 5 1%positive None libraryDbSeeded).2 = Ok 1%positive
     ∧ (currentBooksIssued <$> students libraryDbSeeded !! 1%positive) = Some 0
     ∧ (currentBooksIssued
          <$> students (post_return 5 1%positive None libraryDbSeeded).1 !! 1%positive)
       = Some 0)
  ∧ (transactions libraryDbFull !! 1%positive = Some sampleLoan
     ∧ (post_return 5 1%positive None libraryDbFull).2 = Thrown ValidationError
     ∧ (status
          <$> transactions (post_return 5 1%positive None libraryDbFull).1 !! 1%positive)
       = Some Returned
     ∧ books (post_return 5 1%positive None libraryDbFull).1 = books libraryDbFull).
Proof. vm_compute. split_and!; reflexivity. Qed.

Lemma post_return_active_witness :
  post_return (addDays zoneUTC 0 17) 1%positive None libraryDb
  = (mkDb {[ 1%positive := mkBook true 2 2 ]}
          {[ 1%positive := mkStudent SActive 1 0 ]}
          {[ 1%positive := returnedDoc (addDays zoneUTC 0 17) None sampleLoan ]},
     Ok 1%positive)
  ∧ returnDate (returnedDoc (addDays zoneUTC 0 17) None sampleLoan) = Some (addDays zoneUTC 0 17)
  ∧ status (returnedDoc (addDays zoneUTC 0 17) None sampleLoan) = Returned
  ∧ amount (fine (returnedDoc (addDays zoneUTC 0 17) None sampleLoan)) = 3 * ratePerDay.
Proof.
  destruct (proj2 (post_return_active (addDays zoneUTC 0 17) 1%positive None libraryDb)
              sampleLoan (mkBook true 2 1))
    as (Hrun & _ & Hret & Hst & Hfine);
    [reflexivity | reflexivity | reflexivity | reflexivity | reflexivity
    | simpl; lia |].
  split_and!.
  - rewrite Hrun. reflexivity.
  - exact Hret.
  - exact Hst.
  - rewrite Hfine. reflexivity.
Defined.

Lemma existsOne_true q ts :
  existsOne q ts = true ↔ ∃ id t, ts !! id = Some t ∧ q t = true.
Proof.
  unfold existsOne, find. rewrite bool_decide_eq_true. split.
  - intros Hne. apply map_choose in Hne as (id & t & Hl).
    apply map_lookup_filter_Some in Hl as [Hl Hq]. eauto.
  - intros (id & t & Hl & Hq) Hempty.
    eapply (map_filter_empty_not_lookup _ _ id t); [exact Hempty | exact Hq | exact Hl].
Qed.

(** C2, as amended.  While a loan of the pair (title, borrower) has status
    [active], a further [POST /issue] for the pair is rejected and changes
    nothing, so it creates no loan.  The rejection is 'Student already has
    this book issued' when the title is found, in circulation and in stock
    and the borrower is found and active; before that the earlier checks
    answer (book not found, not available, student not found). *)
Theorem post_issue_duplicate (tz : TimeZone) (now : Z) (b s : ObjectId) (n : option string)
    (u : ObjectId) (db : Db) (id : ObjectId) (t : Transaction) :
  transactions db !! id = Some t →
  book t = b → student t = s → status t = Active →
  (post_issue tz now b s n u db).1 = db
  ∧ rejection (post_issue tz now b s n u db).2 = true
  ∧ (∀ bk st,
       books db !! b = Some bk → isActive bk = true → 0 < availableCopies bk →
       students db !! s = Some st → studentStatus st = SActive →
       (post_issue tz now b s n u db).2 = AlreadyIssued).
Proof.
  intros Hid Hb Hs Hact.
  assert (Hdup : existsOne (activeFor b s) (transactions db) = true).
  { apply existsOne_true. exists id, t. split; [exact Hid |].
    unfold activeFor. rewrite !andb_true_iff, !bool_decide_eq_true. done. }
  unfold post_issue.
  destruct (books db !! b) as [bk|] eqn:Hbk; [| split_and!; [done | done | intros; discriminate]].
  destruct (isActive bk) eqn:Hia; simpl;
    [| split_and!; [done | done | intros ? ? [= <-]; congruence]].
  destruct (availableCopies bk <=? 0) eqn:Hav;
    [apply Z.leb_le in Hav; split_and!; [done | done | intros ? ? [= <-]; lia] |].
  unfold findActiveStudent.
  destruct (students db !! s) as [st|] eqn:Hst; [| split_and!; [done | done | intros; discriminate]].
  case_bool_decide as Hss; [| split_and!; [done | done | intros ? ? _ _ _ [= <-]; congruence]].
  rewrite Hdup. split_and!; done.
Qed.

(** Where C2 as first stated fails: with the pair's loan marked [overdue]
    a second issue goes through and creates a second loan; with the pair's
    loan [active] and the title out of stock the rejection is 'Book is not
    available for issue'. *)
Lemma post_issue_duplicate_counterexample :
  (transactions libraryDbOverdue !! 1%positive = Some overdueLoan
   ∧ book overdueLoan = 1%positive ∧ student overdueLoan = 1%positive
   ∧ status overdueLoan = Overdue
   ∧ (post_issue zoneUTC (addDays zoneUTC 0 17) 1%positive 1%positive None 9%positive
        libraryDbOverdue).2 = Created 2%positive
   ∧ (status
        <$> transactions
              (post_issue zoneUTC (addDays zoneUTC 0 17) 1%positive 1%positive None 9%positive
                 libraryDbOverdue).1 !! 2%positive) = Some Active)
  ∧ (transactions libraryDbOut !! 1%positive = Some sampleLoan
     ∧ book sampleLoan = 1%positive ∧ student sampleLoan = 1%positive
     ∧ status sampleLoan = Active
     ∧ post_issue zoneUTC 5 1%positive 1%positive None 9%positive libraryDbOut
       = (libraryDbOut, BookNotAvailable)).
Proof. vm_compute. split_and!; reflexivity. Qed.

Lemma post_issue_duplicate_witness :
  post_issue zoneUTC 5 1%positive 1%positive None 9%positive libraryDb
  = (libraryDb, AlreadyIssued).
Proof.
  destruct (post_issue_duplicate zoneUTC 5 1%positive 1%positive None 9%positive libraryDb
              1%positive sampleLoan)
    as (Hdb & _ & Hdup); [reflexivity | reflexivity | reflexivity | reflexivity |].
  rewrite (surjective_pairing (post_issue _ _ _ _ _ _ _)).
  rewrite Hdb.
  rewrite (Hdup (mkBook true 2 1) (mkStudent SActive 1 1));
    [reflexivity | reflexivity | reflexivity | simpl; lia | reflexivity | reflexivity].
Defined.

(** The scenario of one copy and a quota of one: the issue takes the copy
    and the slot, a second borrower finds the title out of stock, the
    return gives both back. *)
Example circulation_scenario :
  let db := mkDb {[ 1%positive := mkBook true 1 1 ]}
                 (<[ 2%positive := mkStudent SActive 1 0 ]>
                    {[ 1%positive := mkStudent SActive 1 0 ]})
                 ∅ in
  let db1 := (post_issue zoneUTC 0 1%positive 1%positive None 9%positive db).1 in
  let db2 := (post_return 5 1%positive None db1).1 in
  (post_issue zoneUTC 0 1%positive 1%positive None 9%positive db).2 = Created 1%positive
  ∧ (availableCopies <$> books db1 !! 1%positive) = Some 0
  ∧ (currentBooksIssued <$> students db1 !! 1%positive) = Some 1
  ∧ post_issue zoneUTC 1 1%positive 2%positive None 9%positive db1 = (db1, BookNotAvailable)
  ∧ (availableCopies <$> books db2 !! 1%positive) = Some 1
  ∧ (currentBooksIssued <$> students db2 !! 1%positive) = Some 0
  ∧ (status <$> transactions db2 !! 1%positive) = Some Returned.
Proof. vm_compute. split_and!; reflexivity. Qed.

End Handlers.

(** ** The overdue sweep *)

Section Sweep.

Lemma insertByDueDate_perm x l : insertByDueDate x l ≡ₚ x :: l.
Proof.
  induction l as [|y l IH]; simpl; [reflexivity |].
  destruct (dueDate x.2 <? dueDate y.2); [reflexivity |].
  rewrite IH. apply Permutation_swap.
Qed.

Lemma sortByDueDate_perm l : sortByDueDate l ≡ₚ l.
Proof.
  induction l as [|x l IH]; simpl; [reflexivity |].
  rewrite insertByDueDate_perm. by rewrite IH.
Qed.

(** The loop visits each matching document once. *)
Lemma overdueTransactions_elem now ts id t :
  (id, t) ∈ overdueTransactions now ts ↔ ts !! id = Some t ∧ pastDue now t = true.
Proof.
  unfold overdueTransactions, find.
  rewrite sortByDueDate_perm, elem_of_map_to_list, map_lookup_filter_Some.
  reflexivity.
Qed.

Lemma overdueTransactions_NoDup now ts : NoDup (overdueTransactions now ts).*1.
Proof.
  unfold overdueTransactions. rewrite sortByDueDate_perm.
  apply NoDup_fst_map_to_list.
Qed.

Lemma overdueTransactions_length now ts :
  length (overdueTransactions now ts) = countDocuments (pastDue now) ts.
Proof.
  unfold overdueTransactions, countDocuments.
  rewrite sortByDueDate_perm. apply length_map_to_list.
Qed.

Lemma calculateFine_valid now t :
  Transaction_validate t = true → Transaction_validate (calculateFine now t).1 = true.
Proof.
  rewrite !Transaction_validate_true. intros (Hamt & Hcnt & Hnotes & Hret).
  pose proof (calculateFine_fields now t) as Hf. cbv zeta in Hf.
  destruct Hf as (_ & _ & Hty & _ & _ & Hrd & _ & Hrc & Hno & _).
  rewrite Hty, Hrd, Hrc, Hno. split_and!; try assumption.
  rewrite calculateFine_unfold. destruct (accrues now t) eqn:Hacc; [| exact Hamt].
  unfold accrues in Hacc. apply andb_true_iff in Hacc as [_ Hpos].
  apply Z.ltb_lt in Hpos. simpl. lia.
Qed.

Lemma checkOverdue_valid now t :
  Transaction_validate t = true → Transaction_validate (checkOverdue now t).1 = true.
Proof.
  unfold checkOverdue. destruct (_ && _); simpl; auto.
Qed.

(** *** The loop, for a given clock *)

Section Loop.

Context (clock : ObjectId → Z * Z).

Lemma sweptDoc_valid id t :
  Transaction_validate t = true → Transaction_validate (sweptDoc clock id t) = true.
Proof. intros H. apply calculateFine_valid, checkOverdue_valid, H. Qed.

Lemma sweep_loop_cons id t l db :
  sweep_loop clock ((id, t) :: l) db =
  match Transaction_save id (sweptDoc clock id t) db with
  | None => (db, Some ValidationError)
  | Some db1 => sweep_loop clock l db1
  end.
Proof. reflexivity. Qed.

(** Whether it runs to its end or leaves early, the loop writes
    transactions only. *)
Lemma sweep_loop_books l db : books (sweep_loop clock l db).1 = books db.
Proof.
  revert db. induction l as [|[id t] l IH]; intros db; [reflexivity |].
  rewrite sweep_loop_cons.
  destruct (Transaction_save id _ db) as [db1|] eqn:Hs; [| reflexivity].
  rewrite IH. by apply Transaction_save_Some in Hs as ->.
Qed.

Lemma sweep_loop_students l db : students (sweep_loop clock l db).1 = students db.
Proof.
  revert db. induction l as [|[id t] l IH]; intros db; [reflexivity |].
  rewrite sweep_loop_cons.
  destruct (Transaction_save id _ db) as [db1|] eqn:Hs; [| reflexivity].
  rewrite IH. by apply Transaction_save_Some in Hs as ->.
Qed.

(** When every [save] passes: one insertion per document. *)
Lemma sweep_loop_ok l db :
  (∀ id t, (id, t) ∈ l → Transaction_validate t = true) →
  sweep_loop clock l db
  = (with_transactions
       (foldl (λ m it, <[it.1 := sweptDoc clock it.1 it.2]> m) (transactions db) l) db,
     None).
Proof.
  revert db. induction l as [|[id t] l IH]; intros db Hval.
  - by destruct db.
  - rewrite sweep_loop_cons. unfold Transaction_save.
    rewrite (sweptDoc_valid id t) by (apply (Hval id t); left).
    rewrite IH by (intros id' t' Hin; apply (Hval id' t'); by right).
    reflexivity.
Qed.

Lemma sweep_fold_lookup_notin l (m : gmap ObjectId Transaction) id :
  id ∉ l.*1 →
  foldl (λ m it, <[it.1 := sweptDoc clock it.1 it.2]> m) m l !! id = m !! id.
Proof.
  revert m. induction l as [|[id' t'] l IH]; intros m Hnotin; simpl; [reflexivity |].
  simpl in Hnotin. apply not_elem_of_cons in Hnotin as [Hne Hnotin].
  rewrite IH by exact Hnotin. by rewrite lookup_insert_ne.
Qed.

Lemma sweep_fold_lookup_in l (m : gmap ObjectId Transaction) id t :
  NoDup l.*1 → (id, t) ∈ l →
  foldl (λ m it, <[it.1 := sweptDoc clock it.1 it.2]> m) m l !! id
  = Some (sweptDoc clock id t).
Proof.
  revert m. induction l as [|[id' t'] l IH]; intros m Hnd Hin; simpl.
  - by apply elem_of_nil in Hin.
  - simpl in Hnd. apply NoDup_cons in Hnd as [Hhd Hnd].
    apply elem_of_cons in Hin as [[= <- <-]|Hin].
    + rewrite sweep_fold_lookup_notin by exact Hhd. apply lookup_insert_eq.
    + by apply IH.
Qed.

(** On a loan the query matched, [checkOverdue] at an instant not before
    the query's flips the status. *)
Lemma sweptDoc_pastDue now id t :
  pastDue now t = true → now ≤ (clock id).1 →
  sweptDoc clock id t = (calculateFine (clock id).2 (set_status Overdue t)).1.
Proof.
  unfold pastDue, sweptDoc, checkOverdue.
  rewrite andb_true_iff, bool_decide_eq_true, Z.ltb_lt. intros [Hact Hdue] Hclk.
  rewrite bool_decide_true by exact Hact.
  replace (dueDate t <? (clock id).1) with true by (symmetry; apply Z.ltb_lt; lia).
  reflexivity.
Qed.

End Loop.

Lemma pastDue_true now t :
  pastDue now t = true ↔ status t = Active ∧ dueDate t < now.
Proof.
  unfold pastDue. by rewrite andb_true_iff, bool_decide_eq_true, Z.ltb_lt.
Qed.

(** Every [save] of the loop passes when the matched loans pass the
    validators: each loan that is [active] and past due is then replaced by
    its swept version. *)
Lemma get_meta_overdue_moved now clock db id t :
  (∀ id t, transactions db !! id = Some t → pastDue now t = true →
           Transaction_validate t = true) →
  transactions db !! id = Some t → status t = Active → dueDate t < now →
  transactions (get_meta_overdue now clock db).1 !! id = Some (sweptDoc clock id t).
Proof.
  intros Hval Hid Hact Hdue. unfold get_meta_overdue.
  rewrite sweep_loop_ok
    by (intros id' t' Hin; apply overdueTransactions_elem in Hin as [? ?]; eauto).
  cbn [fst snd transactions with_transactions].
  apply sweep_fold_lookup_in.
  - apply overdueTransactions_NoDup.
  - apply overdueTransactions_elem. split; [exact Hid | by apply pastDue_true].
Qed.

(** C7, as amended.  With a clock that does not run backwards during the
    request and matched loans that pass the schema's validators, [GET
    /meta/overdue] saves every loan that is [active] with [dueDate] strictly
    before the current instant as [overdue] with its fine recomputed, leaves
    every other loan, every book and every student as they were, and reports
    the number of loans it moved.  The fine of a loan without return date is
    the number of days, rounded up, from its due date to the instant
    [calculateFine] reads, times [ratePerDay]: [1 * ratePerDay] when that
    instant is at most one day after the due date, so for a loan due exactly
    one day before the instant of the query only if the clock has not moved
    since, and at least [2 * ratePerDay] once it has. *)
Theorem get_meta_overdue_spec (now : Z) (clock : ObjectId → Z * Z) (db : Db) :
  (∀ id t, transactions db !! id = Some t → pastDue now t = true →
           Transaction_validate t = true) →
  (∀ id, now ≤ (clock id).1) →
  (get_meta_overdue now clock db).2
    = OkCount (countDocuments (pastDue now) (transactions db))
  ∧ books (get_meta_overdue now clock db).1 = books db
  ∧ students (get_meta_overdue now clock db).1 = students db
  ∧ (∀ id t, transactions db !! id = Some t → status t = Active → dueDate t < now →
       transactions (get_meta_overdue now clock db).1 !! id
       = Some (calculateFine (clock id).2 (set_status Overdue t)).1
       ∧ status (calculateFine (clock id).2 (set_status Overdue t)).1 = Overdue)
  ∧ (∀ id, ¬ (∃ t, transactions db !! id = Some t ∧ status t = Active ∧ dueDate t < now) →
       transactions (get_meta_overdue now clock db).1 !! id = transactions db !! id)
  ∧ (∀ id t, transactions db !! id = Some t → status t = Active → dueDate t < now →
       returnDate t = None →
       ∃ t', transactions (get_meta_overdue now clock db).1 !! id = Some t'
             ∧ status t' = Overdue
             ∧ (dueDate t < (clock id).2 →
                amount (fine t')
                = ceil_div ((clock id).2 - dueDate t) msPerDay * ratePerDay)
             ∧ (dueDate t < (clock id).2 ≤ dueDate t + msPerDay →
                amount (fine t') = 1 * ratePerDay)
             ∧ (dueDate t = now - msPerDay → (clock id).2 = now →
                amount (fine t') = 1 * ratePerDay)
             ∧ (dueDate t = now - msPerDay → now < (clock id).2 →
                2 * ratePerDay ≤ amount (fine t'))).
Proof.
  intros Hval Hclk.
  assert (Hmoved : ∀ id t, transactions db !! id = Some t → status t = Active →
            dueDate t < now →
            transactions (get_meta_overdue now clock db).1 !! id
            = Some (calculateFine (clock id).2 (set_status Overdue t)).1).
  { intros id t Hid Hact Hdue.
    rewrite (get_meta_overdue_moved now clock db id t Hval Hid Hact Hdue).
    rewrite (sweptDoc_pastDue clock now); [reflexivity | by apply pastDue_true | apply Hclk]. }
  assert (Hloop : get_meta_overdue now clock db
                  = (with_transactions
                       (foldl (λ m it, <[it.1 := sweptDoc clock it.1 it.2]> m)
                          (transactions db) (overdueTransactions now (transactions db))) db,
                     OkCount (length (overdueTransactions now (transactions db))))).
  { unfold get_meta_overdue.
    rewrite sweep_loop_ok
      by (intros id t Hin; apply overdueTransactions_elem in Hin as [? ?]; eauto).
    reflexivity. }
  split_and!.
  - rewrite Hloop. cbn [snd]. by rewrite overdueTransactions_length.
  - by rewrite Hloop.
  - by rewrite Hloop.
  - intros id t Hid Hact Hdue. split; [by apply Hmoved |].
    pose proof (calculateFine_fields (clock id).2 (set_status Overdue t)) as Hf.
    cbv zeta in Hf. by destruct Hf as (_ & _ & _ & _ & _ & _ & -> & _).
  - intros id Hnone. rewrite Hloop. cbn [fst transactions with_transactions].
    apply sweep_fold_lookup_notin.
    intros Hin. apply list_elem_of_fmap in Hin as ([id' t] & -> & Hin).
    apply overdueTransactions_elem in Hin as [Hid Hpd].
    apply pastDue_true in Hpd. apply Hnone. exists t. simpl in *. done.
  - intros id t Hid Hact Hdue Hret.
    exists (calculateFine (clock id).2 (set_status Overdue t)).1.
    pose proof msPerDay_pos as Hday.
    split; [by apply Hmoved |].
    pose proof (calculateFine_fields (clock id).2 (set_status Overdue t)) as Hf.
    cbv zeta in Hf. destruct Hf as (_ & _ & _ & _ & _ & _ & -> & _).
    split; [reflexivity |].
    assert (Hs : settlementDate (clock id).2 (set_status Overdue t) = (clock id).2)
      by (unfold settlementDate; simpl; by rewrite Hret).
    assert (Hamt : dueDate t < (clock id).2 →
              amount (fine (calculateFine (clock id).2 (set_status Overdue t)).1)
              = ceil_div ((clock id).2 - dueDate t) msPerDay * ratePerDay).
    { intros Hlt. rewrite <- calculateFine_snd.
      destruct (calculateFine_late (clock id).2 (set_status Overdue t)) as [-> _];
        [by left | rewrite Hs; simpl; lia |].
      unfold overdueDays. rewrite Hs. reflexivity. }
    pose proof (ceil_div_bounds ((clock id).2 - dueDate t) msPerDay Hday) as Hb.
    split_and!.
    + exact Hamt.
    + intros [Hlt Hle]. rewrite Hamt by exact Hlt.
      replace (ceil_div ((clock id).2 - dueDate t) msPerDay) with 1; [reflexivity |].
      symmetry. apply ceil_div_unique; lia.
    + intros Hd Hnow. rewrite Hamt by lia.
      replace (ceil_div ((clock id).2 - dueDate t) msPerDay) with 1; [reflexivity |].
      symmetry. apply ceil_div_unique; lia.
    + intros Hd Hnow. rewrite Hamt by lia. unfold ratePerDay. nia.
Qed.

Lemma get_meta_overdue_spec_witness :
  (get_meta_overdue 0 (frozenAt 0) sweepDb).2 = OkCount 1
  ∧ (∃ t', transactions (get_meta_overdue 0 (frozenAt 0) sweepDb).1 !! 2%positive = Some t'
           ∧ status t' = Overdue ∧ amount (fine t') = 1 * ratePerDay)
  ∧ transactions (get_meta_overdue 0 (frozenAt 0) sweepDb).1 !! 1%positive
    = Some sampleLoan.
Proof.
  destruct (get_meta_overdue_spec 0 (frozenAt 0) sweepDb)
    as (Hcount & _ & _ & _ & Hother & Hday).
  - intros id t Hid _.
    destruct (decide (id = 2%positive)) as [-> | Hne2]; [by inversion Hid |].
    destruct (decide (id = 1%positive)) as [-> | Hne1]; [by inversion Hid |].
    unfold sweepDb in Hid. simpl in Hid.
    rewrite lookup_insert_ne, lookup_singleton_ne in Hid by done. discriminate.
  - intros id. reflexivity.
  - split_and!.
    + rewrite Hcount. reflexivity.
    + destruct (Hday 2%positive dueYesterday) as (t' & Hl & Hst & _ & _ & Hone & _);
        [reflexivity | reflexivity | reflexivity | reflexivity |].
      exists t'. split_and!; [exact Hl | exact Hst |].
      apply Hone; reflexivity.
    + rewrite Hother; [reflexivity |].
      intros (t & Hid & _ & Hdue). inversion Hid; subst t. vm_compute in Hdue. discriminate.
Defined.

(** Where C7 as first stated fails: the loan is due exactly one day before
    the instant of the query, the clock has moved on by a millisecond when
    [calculateFine] reads it, and the fine is for two days. *)
Lemma get_meta_overdue_counterexample :
  transactions sweepDb !! 2%positive = Some dueYesterday
  ∧ status dueYesterday = Active
  ∧ dueDate dueYesterday = 0 - msPerDay
  ∧ (get_meta_overdue 0 (λ _, (0, 1)) sweepDb).2 = OkCount 1
  ∧ (status <$> transactions (get_meta_overdue 0 (λ _, (0, 1)) sweepDb).1 !! 2%positive)
    = Some Overdue
  ∧ (amount ∘ fine
       <$> transactions (get_meta_overdue 0 (λ _, (0, 1)) sweepDb).1 !! 2%positive)
    = Some (2 * ratePerDay)
  ∧ 2 * ratePerDay ≠ 1 * ratePerDay.
Proof. vm_compute. split_and!; [reflexivity .. | discriminate]. Qed.

End Sweep.

(** ** Invariants over sequences of requests *)

Section Inventory.

Lemma Book_save_Some id b db db' :
  Book_save id b db = Some db' ↔
  (1 ≤ totalCopies b ∧ 0 ≤ availableCopies b ≤ totalCopies b)
  ∧ db' = with_books (<[id := b]> (books db)) db.
Proof.
  unfold Book_save, Book_validate, Book_preSave.
  destruct (1 <=? totalCopies b) eqn:H1; destruct (0 <=? availableCopies b) eqn:H2;
    destruct (totalCopies b <? availableCopies b) eqn:H3; simpl;
    rewrite ?Z.leb_le, ?Z.leb_gt, ?Z.ltb_lt, ?Z.ltb_ge in *;
    (split; [intros [= <-] || intros [=] | intros [? ->]]); try done; try lia.
Qed.

(** A saved book is within bounds: the validators and the pre-save hook
    see to it. *)
Lemma Book_save_bounds id b db db' :
  Book_save id b db = Some db' → copies_within_bounds db → copies_within_bounds db'.
Proof.
  intros Hsave Hinv. apply Book_save_Some in Hsave as [(_ & Hb) ->].
  intros id' b'. simpl. rewrite lookup_insert.
  case_decide; [intros [= <-]; exact Hb | apply Hinv].
Qed.

Lemma get_meta_overdue_books now clock db :
  books (get_meta_overdue now clock db).1 = books db.
Proof.
  unfold get_meta_overdue.
  pose proof (sweep_loop_books clock (overdueTransactions now (transactions db)) db) as H.
  destruct (sweep_loop clock _ db) as [db1 [e|]]; exact H.
Qed.

Lemma handle_copies_within_bounds r db :
  copies_within_bounds db → copies_within_bounds (handle r db).1.
Proof.
  intros Hinv. destruct r as [tz now b s n u | now i n | tz now i | now clock]; simpl.
  - unfold post_issue.
    destruct (books db !! b) as [bk|]; [| exact Hinv].
    destruct (negb (isActive bk)); [exact Hinv |].
    destruct (availableCopies bk <=? 0); [exact Hinv |].
    destruct (findActiveStudent s (students db)) as [st|]; [| exact Hinv].
    destruct (existsOne _ _); [exact Hinv |].
    destruct (maxBooksAllowed st <=? _); [exact Hinv |].
    cbv zeta.
    destruct (Transaction_save _ _ db) as [db1|] eqn:Hs1; [| exact Hinv].
    apply Transaction_save_Some in Hs1 as ->.
    destruct (Book_save b _ _) as [db2|] eqn:Hs2; [| exact Hinv].
    simpl. eapply (Book_save_bounds _ _ _ _ Hs2). exact Hinv.
  - rewrite post_return_unfold.
    destruct (findActiveById i (transactions db)) as [t|]; [| exact Hinv].
    destruct (Transaction_save _ _ db) as [db1|] eqn:Hs1; [| exact Hinv].
    apply Transaction_save_Some in Hs1 as ->.
    destruct (books _ !! book t) as [bk|]; [| exact Hinv].
    destruct (Book_save _ _ _) as [db2|] eqn:Hs2; [| exact Hinv].
    simpl. eapply (Book_save_bounds _ _ _ _ Hs2). exact Hinv.
  - unfold post_renew.
    destruct (findActiveById i (transactions db)) as [t|]; [| exact Hinv].
    destruct (3 <=? renewalCount t); [exact Hinv |].
    cbv zeta.
    destruct (Transaction_save _ _ db) as [db1|] eqn:Hs1; [| exact Hinv].
    by apply Transaction_save_Some in Hs1 as ->.
  - intros id b. rewrite get_meta_overdue_books. apply Hinv.
Qed.

Lemma run_cons r rs db : run (r :: rs) db = run rs (handle r db).1.
Proof. reflexivity. Qed.

(** C4.  Starting from a data base in which every title has
    [0 <= availableCopies <= totalCopies], after any sequence of issue,
    return, renew and sweep requests every title still has
    [availableCopies] at least 0 and at most [totalCopies]. *)
Theorem availableCopies_within_bounds (rs : list Request) (db : Db) :
  copies_within_bounds db →
  ∀ id b, books (run rs db) !! id = Some b →
          0 ≤ availableCopies b ≤ totalCopies b.
Proof.
  revert db. induction rs as [|r rs IH]; intros db Hinv; [exact Hinv |].
  rewrite run_cons. apply IH, handle_copies_within_bounds, Hinv.
Qed.

Lemma availableCopies_within_bounds_witness :
  let rs := [Issue zoneUTC 0 1%positive 1%positive None 9%positive;
             Return 5 1%positive None; Return 6 1%positive None;
             Issue zoneUTC 7 1%positive 1%positive None 9%positive] in
  copies_within_bounds libraryDbFull
  ∧ (availableCopies <$> books (run rs libraryDbFull) !! 1%positive) = Some 1
  ∧ ∀ b, books (run rs libraryDbFull) !! 1%positive = Some b →
         0 ≤ availableCopies b ≤ totalCopies b.
Proof.
  intros rs.
  assert (Hinv : copies_within_bounds libraryDbFull).
  { intros id b Hb.
    destruct (decide (id = 1%positive)) as [-> | Hne].
    - assert (b = mkBook true 2 2) as -> by (vm_compute in Hb; congruence).
      simpl. lia.
    - unfold libraryDbFull in Hb. simpl in Hb.
      rewrite lookup_singleton_ne in Hb by done. discriminate. }
  split_and!.
  - exact Hinv.
  - vm_compute. reflexivity.
  - intros b. apply (availableCopies_within_bounds rs libraryDbFull Hinv).
Defined.

End Inventory.

(** ** The borrower's quota *)

Section Quota.

Lemma countDocuments_insert q (ts : gmap ObjectId Transaction) id d :
  countDocuments q (<[id := d]> ts)
  = (countDocuments q (delete id ts) + indicator (q d))%nat.
Proof.
  unfold countDocuments, find.
  rewrite <- (insert_delete_eq ts).
  destruct (q d) eqn:Hq; simpl.
  - rewrite map_filter_insert_True by exact Hq.
    rewrite map_size_insert_None; [lia |].
    apply map_lookup_filter_None. left. apply lookup_delete_eq.
  - rewrite map_filter_insert_False by (simpl; rewrite Hq; done).
    rewrite delete_delete_eq. lia.
Qed.

Lemma countDocuments_lookup q (ts : gmap ObjectId Transaction) id t :
  ts !! id = Some t →
  countDocuments q ts = (countDocuments q (delete id ts) + indicator (q t))%nat.
Proof.
  intros Hid. rewrite <- (insert_id ts id t Hid) at 1. apply countDocuments_insert.
Qed.

Lemma countDocuments_insert_fresh q (ts : gmap ObjectId Transaction) id d :
  ts !! id = None →
  countDocuments q (<[id := d]> ts) = (countDocuments q ts + indicator (q d))%nat.
Proof.
  intros Hid. rewrite countDocuments_insert. by rewrite delete_id.
Qed.

Lemma countDocuments_replace q (ts : gmap ObjectId Transaction) id t d :
  ts !! id = Some t →
  (countDocuments q (<[id := d]> ts) + indicator (q t)
   = countDocuments q ts + indicator (q d))%nat.
Proof.
  intros Hid. rewrite countDocuments_insert, (countDocuments_lookup q ts id t Hid). lia.
Qed.

Lemma newObjectId_fresh (ts : gmap ObjectId Transaction) : ts !! newObjectId ts = None.
Proof. unfold newObjectId. apply not_elem_of_dom. apply is_fresh. Qed.

Lemma findActiveStudent_Some id ss s :
  findActiveStudent id ss = Some s → ss !! id = Some s ∧ studentStatus s = SActive.
Proof.
  unfold findActiveStudent. destruct (ss !! id) as [s'|]; [| done].
  case_bool_decide; [| done]. by intros [= ->].
Qed.

(** Replacing a loan by one with the same title, borrower and status
    keeps the data base consistent. *)
Lemma consistent_replace db id t t' :
  transactions db !! id = Some t →
  book t' = book t → student t' = student t → status t' = status t →
  consistent db →
  consistent (with_transactions (<[id := t']> (transactions db)) db).
Proof.
  intros Hid Hbk Hstu Hst (I1 & I2 & I3).
  assert (Hon : ∀ bid, countDocuments (activeOn bid) (<[id := t']> (transactions db))
                       = countDocuments (activeOn bid) (transactions db)).
  { intros bid. pose proof (countDocuments_replace (activeOn bid) _ id t t' Hid) as H.
    replace (activeOn bid t') with (activeOn bid t) in H
      by (unfold activeOn; by rewrite Hbk, Hst).
    lia. }
  assert (Hof : ∀ sid, countDocuments (activeOf sid) (<[id := t']> (transactions db))
                       = countDocuments (activeOf sid) (transactions db)).
  { intros sid. pose proof (countDocuments_replace (activeOf sid) _ id t t' Hid) as H.
    replace (activeOf sid t') with (activeOf sid t) in H
      by (unfold activeOf; by rewrite Hstu, Hst).
    lia. }
  split_and!; simpl.
  - intros bid b Hb. rewrite Hon. by apply I1.
  - intros id' t'' Hid' Hact. rewrite lookup_insert in Hid'.
    case_decide; [| by eapply I2].
    injection Hid' as <-. rewrite Hbk. eapply (I2 id t Hid). congruence.
  - intros sid s Hs. rewrite Hof. by apply I3.
Qed.

Lemma post_renew_consistent tz now id db :
  consistent db → consistent (post_renew tz now id db).1.
Proof.
  intros Hinv. unfold post_renew.
  destruct (findActiveById id (transactions db)) as [t|] eqn:Hfind; [| exact Hinv].
  apply findActiveById_Some in Hfind as [Hid Hact].
  destruct (3 <=? renewalCount t); [exact Hinv |].
  cbv zeta.
  destruct (Transaction_save _ _ db) as [db1|] eqn:Hs1; [| exact Hinv].
  apply Transaction_save_Some in Hs1 as ->. simpl.
  by apply (consistent_replace db id t).
Qed.

Lemma post_return_consistent now id n db :
  consistent db → consistent (post_return now id n db).1.
Proof.
  intros Hinv. rewrite post_return_unfold.
  destruct (findActiveById id (transactions db)) as [t|] eqn:Hfind; [| exact Hinv].
  apply findActiveById_Some in Hfind as [Hid Hact].
  destruct (Transaction_save _ _ db) as [db1|] eqn:Hs1; [| exact Hinv].
  apply Transaction_save_Some in Hs1 as ->.
  destruct Hinv as (I1 & I2 & I3).
  pose proof (returnedDoc_fields now n t) as (Hbk & Hstu & _ & _ & _ & _ & Hst & _).
  set (t' := returnedDoc now n t) in *.
  (* the counts after the loan has left the active ones *)
  assert (Hon : ∀ bid, (countDocuments (activeOn bid) (<[id := t']> (transactions db))
                        + indicator (bool_decide (book t = bid))
                        = countDocuments (activeOn bid) (transactions db))%nat).
  { intros bid. pose proof (countDocuments_replace (activeOn bid) _ id t t' Hid) as H.
    replace (activeOn bid t') with false in H
      by (unfold activeOn; rewrite Hst; by rewrite andb_false_r).
    replace (activeOn bid t) with (bool_decide (book t = bid)) in H
      by (unfold activeOn; rewrite Hact; by rewrite andb_true_r).
    simpl in H. lia. }
  assert (Hof : ∀ sid, (countDocuments (activeOf sid) (<[id := t']> (transactions db))
                        + indicator (bool_decide (student t = sid))
                        = countDocuments (activeOf sid) (transactions db))%nat).
  { intros sid. pose proof (countDocuments_replace (activeOf sid) _ id t t' Hid) as H.
    replace (activeOf sid t') with false in H
      by (unfold activeOf; rewrite Hst; by rewrite andb_false_r).
    replace (activeOf sid t) with (bool_decide (student t = sid)) in H
      by (unfold activeOf; rewrite Hact; by rewrite andb_true_r).
    simpl in H. lia. }
  simpl.
  destruct (I2 id t Hid Hact) as [bk Hbk0]. rewrite Hbk0.
  destruct (I1 _ _ Hbk0) as [Hav0 Hav1].
  pose proof (Hon (book t)) as Hon0. rewrite bool_decide_true in Hon0 by done.
  simpl in Hon0.
  destruct (Book_save _ _ _) as [db2|] eqn:Hs2.
  2:{ (* the book cannot be refused: one of its copies was out *)
    exfalso. assert (is_Some (Book_save (book t)
               (set_availableCopies (availableCopies bk + 1) bk)
               (with_transactions (<[id := t']> (transactions db)) db))) as [? Hsome].
    { eexists. apply Book_save_Some. split; [simpl; lia | reflexivity]. }
    congruence. }
  apply Book_save_Some in Hs2 as [_ ->]. simpl.
  split_and!; simpl.
  - intros bid b. rewrite lookup_insert. case_decide as Hb.
    + intros [= <-]. subst bid. simpl. lia.
    + intros Hb'. destruct (I1 _ _ Hb') as [? ?].
      pose proof (Hon bid) as Hon1. rewrite bool_decide_false in Hon1 by done.
      simpl in Hon1. split; [done | lia].
  - intros id' t'' Hid' Hact'. rewrite lookup_insert in Hid'.
    case_decide; [injection Hid' as <-; congruence |].
    rewrite lookup_insert. case_decide; [eauto | by eapply I2].
  - intros sid s. unfold releaseSlot.
    pose proof (Hof sid) as Hof1.
    destruct (students db !! student t) as [st|] eqn:Hstd.
    + destruct (0 <? currentBooksIssued st) eqn:Hpos.
      * apply Z.ltb_lt in Hpos. rewrite lookup_insert. case_decide as Hs.
        -- intros [= <-]. subst sid. destruct (I3 _ _ Hstd) as [? ?].
           rewrite bool_decide_true in Hof1 by done. simpl in *. lia.
        -- intros Hs'. destruct (I3 _ _ Hs') as [? ?].
           rewrite bool_decide_false in Hof1 by done. simpl in Hof1. split; [lia | done].
      * apply Z.ltb_ge in Hpos. intros Hs'. destruct (I3 _ _ Hs') as [? ?].
        destruct (decide (student t = sid)) as [<- | Hne].
        -- assert (s = st) as -> by congruence. split; [lia | done].
        -- rewrite bool_decide_false in Hof1 by done. simpl in Hof1. split; [lia | done].
    + intros Hs'. destruct (I3 _ _ Hs') as [? ?].
      destruct (decide (student t = sid)) as [<- | Hne]; [congruence |].
      rewrite bool_decide_false in Hof1 by done. simpl in Hof1. split; [lia | done].
Qed.

Lemma post_issue_consistent tz now b s n u db :
  consistent db → consistent (post_issue tz now b s n u db).1.
Proof.
  intros Hinv. unfold post_issue.
  destruct (books db !! b) as [bk|] eqn:Hbk; [| exact Hinv].
  destruct (negb (isActive bk)); [exact Hinv |].
  destruct (availableCopies bk <=? 0) eqn:Hav; [exact Hinv |].
  apply Z.leb_gt in Hav.
  destruct (findActiveStudent s (students db)) as [st|] eqn:Hst; [| exact Hinv].
  apply findActiveStudent_Some in Hst as [Hst _].
  destruct (existsOne _ _); [exact Hinv |].
  destruct (maxBooksAllowed st <=? _) eqn:Hmax; [exact Hinv |].
  apply Z.leb_gt in Hmax.
  cbv zeta.
  set (id := newObjectId (transactions db)).
  set (t := mkTransaction b s TIssue now (addDays tz now 14) None Active
              (mkFine 0 RNone false None) 0 n u).
  pose proof (newObjectId_fresh (transactions db)) as Hfresh. fold id in Hfresh.
  destruct (Transaction_save id t db) as [db1|] eqn:Hs1; [| exact Hinv].
  apply Transaction_save_Some in Hs1 as ->.
  destruct Hinv as (I1 & I2 & I3).
  destruct (I1 _ _ Hbk) as [_ Hroom].
  assert (Hon : ∀ bid, countDocuments (activeOn bid) (<[id := t]> (transactions db))
                       = (countDocuments (activeOn bid) (transactions db)
                          + indicator (bool_decide (b = bid)))%nat).
  { intros bid. rewrite countDocuments_insert_fresh by exact Hfresh.
    do 2 f_equal. unfold activeOn, t. simpl. by destruct (bool_decide (b = bid)). }
  assert (Hof : ∀ sid, countDocuments (activeOf sid) (<[id := t]> (transactions db))
                       = (countDocuments (activeOf sid) (transactions db)
                          + indicator (bool_decide (s = sid)))%nat).
  { intros sid. rewrite countDocuments_insert_fresh by exact Hfresh.
    do 2 f_equal. unfold activeOf, t. simpl. by destruct (bool_decide (s = sid)). }
  destruct (Book_save _ _ _) as [db2|] eqn:Hs2.
  2:{ (* a title in stock and within bounds is never refused *)
    exfalso. assert (is_Some (Book_save b
               (set_availableCopies (availableCopies bk - 1) bk)
               (with_transactions (<[id := t]> (transactions db)) db))) as [? Hsome].
    { eexists. apply Book_save_Some. split; [simpl; lia | reflexivity]. }
    congruence. }
  apply Book_save_Some in Hs2 as [_ ->]. simpl.
  split_and!; simpl.
  - intros bid b'. rewrite lookup_insert, Hon. case_decide as Hb.
    + intros [= <-]. subst bid. rewrite bool_decide_true by done. simpl. lia.
    + intros Hb'. destruct (I1 _ _ Hb') as [? ?].
      rewrite bool_decide_false by done. simpl. split; [done | lia].
  - intros id' t' Hid' Hact'. rewrite lookup_insert in Hid'.
    rewrite lookup_insert.
    case_decide as Hi.
    + injection Hid' as <-. simpl. rewrite decide_True by done. eauto.
    + case_decide; [eauto | by eapply I2].
  - intros sid s'. rewrite lookup_insert, Hof. case_decide as Hs.
    + intros [= <-]. subst sid. destruct (I3 _ _ Hst) as [? ?].
      rewrite bool_decide_true by done. simpl. lia.
    + intros Hs'. destruct (I3 _ _ Hs') as [? ?].
      split; [lia | done].
Qed.

Lemma handle_consistent r db :
  is_sweep r = false → consistent db → consistent (handle r db).1.
Proof.
  destruct r as [tz now b s n u | now i n | tz now i | now clock]; simpl; intros Hr Hinv.
  - by apply post_issue_consistent.
  - by apply post_return_consistent.
  - by apply post_renew_consistent.
  - discriminate.
Qed.

Lemma run_consistent rs db :
  forallb (λ r, negb (is_sweep r)) rs = true → consistent db → consistent (run rs db).
Proof.
  revert db. induction rs as [|r rs IH]; intros db Hrs Hinv; [exact Hinv |].
  simpl in Hrs. apply andb_true_iff in Hrs as [Hr Hrs].
  rewrite run_cons. apply IH; [exact Hrs |].
  apply handle_consistent; [by apply negb_true_iff | exact Hinv].
Qed.

(** C3, as amended.  Starting from a consistent data base, after any
    sequence of issue, return and renew requests (no overdue sweep) every
    borrower's [currentBooksIssued] is at most [maxBooksAllowed]. *)
Theorem currentBooksIssued_within_quota (rs : list Request) (db : Db) :
  forallb (λ r, negb (is_sweep r)) rs = true →
  consistent db →
  ∀ sid s, students (run rs db) !! sid = Some s →
           currentBooksIssued s ≤ maxBooksAllowed s.
Proof.
  intros Hrs Hinv sid s Hs.
  destruct (run_consistent rs db Hrs Hinv) as (_ & _ & I3).
  by destruct (I3 sid s Hs).
Qed.

Lemma quotaDb_consistent : consistent quotaDb.
Proof.
  assert (Hnone : ∀ q, countDocuments q (transactions quotaDb) = 0%nat).
  { intros q. unfold countDocuments, find. simpl.
    rewrite map_filter_empty. apply map_size_empty. }
  split_and!.
  - intros bid b Hb. rewrite Hnone. unfold quotaDb in Hb. simpl in Hb.
    rewrite lookup_insert in Hb. case_decide.
    + injection Hb as <-. simpl. lia.
    + rewrite lookup_singleton in Hb. case_decide; [| done].
      injection Hb as <-. simpl. lia.
  - intros id t Hid. unfold quotaDb in Hid. simpl in Hid.
    by rewrite lookup_empty in Hid.
  - intros sid s Hs. rewrite Hnone. unfold quotaDb in Hs. simpl in Hs.
    rewrite lookup_singleton in Hs. case_decide; [| done].
    injection Hs as <-. simpl. lia.
Qed.

(** Where C3 as first stated fails: in a consistent library a borrower
    with a quota of one takes a title; the sweep marks the loan [overdue];
    the quota check, which counts [active] loans, lets the borrower take a
    second title, and [currentBooksIssued] is 2. *)
Lemma currentBooksIssued_counterexample :
  consistent quotaDb
  ∧ (maxBooksAllowed <$> students (run quotaRequests quotaDb) !! 1%positive) = Some 1
  ∧ (currentBooksIssued <$> students (run quotaRequests quotaDb) !! 1%positive) = Some 2
  ∧ (status <$> transactions (run quotaRequests quotaDb) !! 1%positive) = Some Overdue
  ∧ (status <$> transactions (run quotaRequests quotaDb) !! 2%positive) = Some Active.
Proof.
  split; [exact quotaDb_consistent |].
  vm_compute. split_and!; reflexivity.
Qed.

Lemma currentBooksIssued_within_quota_witness :
  let rs := [ Issue zoneUTC 0 1%positive 1%positive None 9%positive;
              Issue zoneUTC 1 2%positive 1%positive None 9%positive;
              Renew zoneUTC 2 1%positive;
              Return 3 1%positive None;
              Issue zoneUTC 4 2%positive 1%positive None 9%positive ] in
  (currentBooksIssued <$> students (run rs quotaDb) !! 1%positive) = Some 1
  ∧ ∀ s, students (run rs quotaDb) !! 1%positive = Some s →
         currentBooksIssued s ≤ maxBooksAllowed s.
Proof.
  intros rs. split; [vm_compute; reflexivity |].
  intros s. apply (currentBooksIssued_within_quota rs quotaDb).
  - reflexivity.
  - exact quotaDb_consistent.
Defined.

End Quota.

(** * Further properties *)

(** ** The methods of the loan document *)

Section Methods.

(** X1.  [checkOverdue] reports [true] exactly for an [active] loan whose due
    date has passed; it then changes the status to [overdue] and nothing
    else, and otherwise changes nothing.  Once it has reported [true], no
    later call reports [true] again or changes the loan. *)
Theorem checkOverdue_reports_once (now : Z) (t : Transaction) :
  ((checkOverdue now t).2 = true ↔ status t = Active ∧ dueDate t < now)
  ∧ ((checkOverdue now t).2 = true → (checkOverdue now t).1 = set_status Overdue t)
  ∧ ((checkOverdue now t).2 = false → (checkOverdue now t).1 = t)
  ∧ ((checkOverdue now t).2 = true →
     ∀ later, checkOverdue later (checkOverdue now t).1
              = ((checkOverdue now t).1, false)).
Proof.
  unfold checkOverdue.
  destruct (bool_decide (status t = Active) && (dueDate t <? now)) eqn:Hc; simpl.
  - apply andb_true_iff in Hc as [Hact Hdue].
    apply bool_decide_eq_true in Hact. apply Z.ltb_lt in Hdue.
    split_and!; done.
  - split_and!; try done.
    split; [discriminate |]. intros [Hact Hdue].
    rewrite bool_decide_true, (proj2 (Z.ltb_lt _ _) Hdue) in Hc by done. discriminate.
Qed.

Lemma checkOverdue_reports_once_witness :
  checkOverdue (addDays zoneUTC 0 15) sampleLoan = (overdueLoan, true)
  ∧ checkOverdue (addDays zoneUTC 0 16) (checkOverdue (addDays zoneUTC 0 15) sampleLoan).1
    = (overdueLoan, false).
Proof.
  destruct (checkOverdue_reports_once (addDays zoneUTC 0 15) sampleLoan)
    as (Hiff & Hset & _ & Honce).
  assert (Hflag : (checkOverdue (addDays zoneUTC 0 15) sampleLoan).2 = true)
    by (apply Hiff; split; reflexivity).
  split.
  - rewrite (surjective_pairing (checkOverdue _ _)), (Hset Hflag), Hflag. reflexivity.
  - rewrite (Honce Hflag). rewrite (Hset Hflag). reflexivity.
Defined.

(** X2.  [calculateFine] never returns a negative amount for a loan whose
    stored amount is not negative, and whatever it does to the amount it
    leaves [fine.paid] and [fine.paidDate] as they were. *)
Theorem calculateFine_never_negative (now : Z) (t : Transaction) :
  0 ≤ amount (fine t) →
  0 ≤ (calculateFine now t).2
  ∧ paid (fine (calculateFine now t).1) = paid (fine t)
  ∧ paidDate (fine (calculateFine now t).1) = paidDate (fine t).
Proof.
  intros Hamt. rewrite calculateFine_snd, calculateFine_unfold.
  destruct (accrues now t) eqn:Hacc; [| done].
  apply accrues_true in Hacc as [_ Hlate]. apply overdueDays_pos_iff in Hlate.
  simpl. split_and!; [lia | reflexivity | reflexivity].
Qed.

Lemma calculateFine_never_negative_witness :
  0 ≤ (calculateFine (addDays zoneUTC 0 19) overdueLoan).2
  ∧ paid (fine (calculateFine (addDays zoneUTC 0 19) overdueLoan).1) = false.
Proof.
  destruct (calculateFine_never_negative (addDays zoneUTC 0 19) overdueLoan) as (H & Hp & _).
  - simpl. lia.
  - split; [exact H | exact Hp].
Defined.

(** X3.  Any lateness of up to one day, be it a millisecond, costs one full
    day: the amount is [ratePerDay]. *)
Theorem calculateFine_first_day (now : Z) (t : Transaction) :
  status t = Overdue ∨ status t = Returned →
  dueDate t < settlementDate now t ≤ dueDate t + msPerDay →
  (calculateFine now t).2 = ratePerDay.
Proof.
  intros Hst [Hlt Hle].
  destruct (calculateFine_late now t Hst Hlt) as [-> _].
  unfold overdueDays.
  rewrite (ceil_div_unique _ msPerDay 1); [reflexivity | apply msPerDay_pos | lia].
Qed.

Lemma calculateFine_first_day_witness :
  (calculateFine (dueDate overdueLoan + 1) overdueLoan).2 = ratePerDay.
Proof.
  apply calculateFine_first_day; [left; reflexivity |].
  split; vm_compute; [reflexivity | discriminate].
Defined.

Lemma ceil_div_add_days (a k : Z) :
  ceil_div (a + k * msPerDay) msPerDay = ceil_div a msPerDay + k.
Proof.
  pose proof msPerDay_pos as Hd.
  pose proof (ceil_div_bounds a msPerDay Hd) as Hb.
  apply ceil_div_unique; [exact Hd | nia].
Qed.

(** X4.  For a loan that is [overdue], not yet returned and past its due date,
    evaluating [k] whole days later raises the amount by exactly
    [k * ratePerDay]. *)
Theorem calculateFine_per_day (now k : Z) (t : Transaction) :
  status t = Overdue → returnDate t = None → dueDate t < now → 0 ≤ k →
  (calculateFine (now + k * msPerDay) t).2 = (calculateFine now t).2 + k * ratePerDay.
Proof.
  intros Hst Hret Hlate Hk. pose proof msPerDay_pos as Hd.
  assert (Hs : ∀ x, settlementDate x t = x)
    by (intros x; unfold settlementDate; by rewrite Hret).
  destruct (calculateFine_late now t) as [-> _]; [by left | by rewrite Hs |].
  destruct (calculateFine_late (now + k * msPerDay) t) as [-> _];
    [by left | rewrite Hs; nia |].
  unfold overdueDays. rewrite !Hs.
  replace (now + k * msPerDay - dueDate t) with (now - dueDate t + k * msPerDay) by lia.
  rewrite ceil_div_add_days. unfold ratePerDay. lia.
Qed.

Lemma calculateFine_per_day_witness :
  (calculateFine (addDays zoneUTC 0 15 + 4 * msPerDay) overdueLoan).2
  = (calculateFine (addDays zoneUTC 0 15) overdueLoan).2 + 4 * ratePerDay.
Proof.
  apply calculateFine_per_day; [reflexivity | reflexivity | reflexivity | lia].
Defined.

End Methods.

(** ** Issuing *)

Section Issuing.

Lemma existsOne_false q ts :
  existsOne q ts = false ↔ ∀ id t, ts !! id = Some t → q t = false.
Proof.
  rewrite <- not_true_iff_false, existsOne_true. split.
  - intros Hno id t Hid. destruct (q t) eqn:Hq; [| done]. destruct Hno. eauto.
  - intros Hall (id & t & Hid & Hq). rewrite (Hall id t Hid) in Hq. discriminate.
Qed.

Lemma findActiveStudent_spec id ss :
  findActiveStudent id ss
  = match ss !! id with
    | Some s => if bool_decide (studentStatus s = SActive) then Some s else None
    | None => None
    end.
Proof. reflexivity. Qed.

(** The state and the reply [POST /issue] leaves when every check and
    every save passes. *)
Lemma post_issue_created tz now b s n u db bk st :
  books db !! b = Some bk → isActive bk = true →
  0 < availableCopies bk ≤ totalCopies bk →
  students db !! s = Some st → studentStatus st = SActive →
  (∀ id t, transactions db !! id = Some t → activeFor b s t = false) →
  Z.of_nat (countDocuments (activeOf s) (transactions db)) < maxBooksAllowed st →
  notes_ok n = true →
  post_issue tz now b s n u db
  = (mkDb (<[b := set_availableCopies (availableCopies bk - 1) bk]> (books db))
          (<[s := set_currentBooksIssued (currentBooksIssued st + 1) st]> (students db))
          (<[newObjectId (transactions db) := issuedDoc tz now b s n u]> (transactions db)),
     Created (newObjectId (transactions db))).
Proof.
  intros Hb Hact Hcopies Hs Hsact Hnodup Hquota Hnotes.
  unfold post_issue. rewrite Hb, Hact. simpl.
  replace (availableCopies bk <=? 0) with false by (symmetry; apply Z.leb_gt; lia).
  rewrite findActiveStudent_spec, Hs, bool_decide_true by exact Hsact.
  replace (existsOne (activeFor b s) (transactions db)) with false
    by (symmetry; by apply existsOne_false).
  replace (maxBooksAllowed st <=? _) with false by (symmetry; apply Z.leb_gt; lia).
  fold (issuedDoc tz now b s n u).
  unfold Transaction_save, Transaction_validate. simpl. rewrite Hnotes. simpl.
  unfold Book_save, Book_validate, Book_preSave. simpl.
  replace (1 <=? totalCopies bk) with true by (symmetry; apply Z.leb_le; lia).
  replace (0 <=? availableCopies bk - 1) with true by (symmetry; apply Z.leb_le; lia).
  replace (totalCopies bk <? availableCopies bk - 1) with false
    by (symmetry; apply Z.ltb_ge; lia).
  reflexivity.
Qed.

(** X5.  [POST /issue] succeeds when the title is in circulation, in stock and
    within its bounds, the borrower is active, holds no active loan of the
    title and has fewer active loans than [maxBooksAllowed], and the note
    fits.  It then creates one loan under an id no loan had, with
    [issueDate] the current instant, [dueDate] the instant at which the
    server's local clock shows the same time fourteen calendar days later
    (the issue instant plus fourteen times 24 hours when the zone's offset from
    UTC is the same at both ends), status [active], no renewal and no fine,
    takes one copy off the shelf and adds one to the borrower's counter;
    nothing else changes. *)
Theorem post_issue_success (tz : TimeZone) (now : Z) (b s : ObjectId) (n : option string)
    (u : ObjectId) (db : Db) (bk : Book) (st : Student) :
  books db !! b = Some bk → isActive bk = true →
  0 < availableCopies bk ≤ totalCopies bk →
  students db !! s = Some st → studentStatus st = SActive →
  (∀ id t, transactions db !! id = Some t → activeFor b s t = false) →
  Z.of_nat (countDocuments (activeOf s) (transactions db)) < maxBooksAllowed st →
  notes_ok n = true →
  post_issue tz now b s n u db
  = (mkDb (<[b := set_availableCopies (availableCopies bk - 1) bk]> (books db))
          (<[s := set_currentBooksIssued (currentBooksIssued st + 1) st]> (students db))
          (<[newObjectId (transactions db) := issuedDoc tz now b s n u]> (transactions db)),
     Created (newObjectId (transactions db)))
  ∧ transactions db !! newObjectId (transactions db) = None
  ∧ issueDate (issuedDoc tz now b s n u) = now
  ∧ dueDate (issuedDoc tz now b s n u)
    = UTC tz (LocalTime tz now + loanPeriodDays * msPerDay)
  ∧ (LocalTZA tz (LocalTime tz now + loanPeriodDays * msPerDay) false
     = LocalTZA tz now true →
     dueDate (issuedDoc tz now b s n u) = now + loanPeriodDays * msPerDay)
  ∧ status (issuedDoc tz now b s n u) = Active
  ∧ renewalCount (issuedDoc tz now b s n u) = 0
  ∧ amount (fine (issuedDoc tz now b s n u)) = 0.
Proof.
  intros Hb Hact Hcopies Hs Hsact Hnodup Hquota Hnotes.
  split_and!; try reflexivity.
  - by apply (post_issue_created tz now b s n u db bk st).
  - apply newObjectId_fresh.
  - apply addDays_same_offset.
Qed.

(** On a server that keeps UTC the loan is due fourteen days after the
    issue; in New York a loan issued ten days before the clocks go forward
    is due an hour earlier than that. *)
Lemma post_issue_success_witness :
  post_issue zoneUTC 0 1%positive 1%positive None 9%positive quotaDb
  = (mkDb (<[1%positive := mkBook true 2 1]> (books quotaDb))
          (<[1%positive := mkStudent SActive 1 1]> (students quotaDb))
          (<[1%positive := issuedDoc zoneUTC 0 1%positive 1%positive None 9%positive]> ∅),
     Created 1%positive)
  ∧ dueDate (issuedDoc zoneUTC 0 1%positive 1%positive None 9%positive)
    = 0 + loanPeriodDays * msPerDay
  ∧ dueDate marchLoan = issueDate marchLoan + loanPeriodDays * msPerDay - msPerHour.
Proof.
  destruct (post_issue_success zoneUTC 0 1%positive 1%positive None 9%positive quotaDb
              (mkBook true 2 2) (mkStudent SActive 1 0)) as (Hrun & _ & _ & _ & Hdue & _);
    [reflexivity | reflexivity | simpl; lia | reflexivity | reflexivity
    | | reflexivity | reflexivity |].
  - intros id t Hid. unfold quotaDb in Hid. simpl in Hid.
    by rewrite lookup_empty in Hid.
  - split_and!.
    + rewrite Hrun. reflexivity.
    + apply Hdue. reflexivity.
    + reflexivity.
Defined.

(** X6.  Each rejection of [POST /issue] names the first check that failed, in
    the order the route makes them: the title (missing or withdrawn), its
    stock, the borrower (missing or not active), a loan of the title the
    borrower already holds, the borrower's number of active loans. *)
Theorem post_issue_rejections (tz : TimeZone) (now : Z) (b s : ObjectId) (n : option string)
    (u : ObjectId) (db : Db) :
  let r := (post_issue tz now b s n u db).2 in
  let titleOk := ∃ bk, books db !! b = Some bk ∧ isActive bk = true in
  let inStock := ∃ bk, books db !! b = Some bk ∧ isActive bk = true
                       ∧ 0 < availableCopies bk in
  let borrowerOk := ∃ st, students db !! s = Some st ∧ studentStatus st = SActive in
  let held := ∃ id t, transactions db !! id = Some t ∧ activeFor b s t = true in
  (r = BookNotFound ↔ ¬ titleOk)
  ∧ (r = BookNotAvailable ↔ titleOk ∧ ¬ inStock)
  ∧ (r = StudentNotFound ↔ inStock ∧ ¬ borrowerOk)
  ∧ (r = AlreadyIssued ↔ inStock ∧ borrowerOk ∧ held)
  ∧ (r = BookLimitReached ↔
       inStock ∧ ¬ held
       ∧ ∃ st, students db !! s = Some st ∧ studentStatus st = SActive
               ∧ maxBooksAllowed st
                 ≤ Z.of_nat (countDocuments (activeOf s) (transactions db))).
Proof.
  intros r titleOk inStock borrowerOk held.
  set (limit := ∃ st, students db !! s = Some st ∧ studentStatus st = SActive
                      ∧ maxBooksAllowed st
                        ≤ Z.of_nat (countDocuments (activeOf s) (transactions db))).
  assert (Hstock : inStock → titleOk) by (intros (bk & ? & ? & _); exists bk; done).
  destruct (books db !! b) as [bk|] eqn:Hb.
  2:{ assert (Hr : r = BookNotFound)
        by (subst r; unfold post_issue; by rewrite Hb).
      assert (¬ titleOk) by (intros (bk & Hb' & _); congruence).
      clearbody r titleOk inStock borrowerOk held limit. rewrite Hr.
      split_and!; split; intros; try discriminate; tauto. }
  destruct (isActive bk) eqn:Hact.
  2:{ assert (Hr : r = BookNotFound)
        by (subst r; unfold post_issue; by rewrite Hb, Hact).
      assert (¬ titleOk) by (intros (bk' & Hb' & ?); congruence).
      clearbody r titleOk inStock borrowerOk held limit. rewrite Hr.
      split_and!; split; intros; try discriminate; tauto. }
  assert (HT : titleOk) by (exists bk; done).
  destruct (availableCopies bk <=? 0) eqn:Hav.
  { assert (Hr : r = BookNotAvailable)
      by (subst r; unfold post_issue; by rewrite Hb, Hact, Hav).
    apply Z.leb_le in Hav.
    assert (¬ inStock) by (intros (bk' & Hb' & _ & ?); simplify_eq; lia).
    clearbody r titleOk inStock borrowerOk held limit. rewrite Hr.
    split_and!; split; intros; try discriminate; tauto. }
  assert (HS : inStock) by (exists bk; apply Z.leb_gt in Hav; done).
  destruct (findActiveStudent s (students db)) as [st|] eqn:Hst.
  2:{ assert (Hr : r = StudentNotFound)
        by (subst r; unfold post_issue; by rewrite Hb, Hact, Hav, Hst).
      rewrite findActiveStudent_spec in Hst.
      assert (Hno : ∀ st, students db !! s = Some st → studentStatus st ≠ SActive).
      { intros st Hs Hsa. rewrite Hs, bool_decide_true in Hst by done. discriminate. }
      assert (¬ borrowerOk) by (intros (st & ? & ?); by eapply Hno).
      assert (¬ limit) by (intros (st & ? & ? & _); by eapply Hno).
      clearbody r titleOk inStock borrowerOk held limit. rewrite Hr.
      split_and!; split; intros; try discriminate; tauto. }
  pose proof (findActiveStudent_Some _ _ _ Hst) as [Hs Hsa].
  assert (HB : borrowerOk) by (exists st; done).
  destruct (existsOne (activeFor b s) (transactions db)) eqn:Hdup.
  { assert (Hr : r = AlreadyIssued)
      by (subst r; unfold post_issue; by rewrite Hb, Hact, Hav, Hst, Hdup).
    assert (HH : held) by (by apply existsOne_true).
    clearbody r titleOk inStock borrowerOk held limit. rewrite Hr.
    split_and!; split; intros; try discriminate; tauto. }
  assert (HH : ¬ held) by (unfold held; rewrite <- existsOne_true; congruence).
  destruct (maxBooksAllowed st <=? Z.of_nat (countDocuments (activeOf s) (transactions db)))
    eqn:Hmax.
  { assert (Hr : r = BookLimitReached)
      by (subst r; unfold post_issue; by rewrite Hb, Hact, Hav, Hst, Hdup, Hmax).
    assert (HL : limit) by (exists st; apply Z.leb_le in Hmax; done).
    clearbody r titleOk inStock borrowerOk held limit. rewrite Hr.
    split_and!; split; intros; try discriminate; tauto. }
  assert (Hr : rejection r = false).
  { subst r. unfold post_issue. rewrite Hb, Hact. simpl. rewrite Hav, Hst, Hdup, Hmax.
    cbv zeta.
    unfold Transaction_save, Book_save. repeat case_match; reflexivity. }
  assert (HL : ¬ limit).
  { intros (st' & ? & _ & ?). simplify_eq. apply Z.leb_gt in Hmax. lia. }
  clearbody r titleOk inStock borrowerOk held limit.
  split_and!; split; intros Hx; try tauto; rewrite Hx in Hr; discriminate.
Qed.

Lemma post_issue_rejections_witness :
  (post_issue zoneUTC 5 1%positive 1%positive None 9%positive libraryDbOut).2 = BookNotAvailable
  ∧ (post_issue zoneUTC 5 1%positive 7%positive None 9%positive libraryDb).2 = StudentNotFound.
Proof.
  split.
  - apply (proj1 (proj2 (post_issue_rejections zoneUTC 5 1%positive 1%positive None 9%positive
                           libraryDbOut))).
    split.
    + exists (mkBook true 1 0). split; reflexivity.
    + intros (bk & Hb & _ & Hpos). vm_compute in Hb. injection Hb as <-.
      vm_compute in Hpos. discriminate.
  - apply (proj1 (proj2 (proj2 (post_issue_rejections zoneUTC 5 1%positive 7%positive None
                                  9%positive libraryDb)))).
    split.
    + exists (mkBook true 2 1). split_and!; reflexivity.
    + intros (st & Hs & _). vm_compute in Hs. discriminate.
Defined.

(** X7.  Issue, then return: the return of the loan an issue has just created
    puts the book and the student records back exactly as they were before
    the issue (for a borrower whose counter was not negative); what remains
    is the returned loan. *)
Theorem issue_then_return (tz : TimeZone) (now later : Z) (b s : ObjectId) (n n' : option string)
    (u : ObjectId) (db : Db) (bk : Book) (st : Student) :
  books db !! b = Some bk → isActive bk = true →
  0 < availableCopies bk ≤ totalCopies bk →
  students db !! s = Some st → studentStatus st = SActive →
  0 ≤ currentBooksIssued st →
  (∀ id t, transactions db !! id = Some t → activeFor b s t = false) →
  Z.of_nat (countDocuments (activeOf s) (transactions db)) < maxBooksAllowed st →
  notes_ok n = true → notes_ok n' = true →
  let id := newObjectId (transactions db) in
  post_return later id n' (post_issue tz now b s n u db).1
  = (mkDb (books db) (students db)
          (<[id := returnedDoc later n' (issuedDoc tz now b s n u)]> (transactions db)),
     Ok id).
Proof.
  intros Hb Hact Hcopies Hs Hsact Hcnt Hnodup Hquota Hn Hn' id.
  rewrite (post_issue_created tz now b s n u db bk st) by assumption.
  fold id. rewrite post_return_unfold. simpl.
  replace (findActiveById id (<[id := issuedDoc tz now b s n u]> (transactions db)))
    with (Some (issuedDoc tz now b s n u))
    by (symmetry; apply findActiveById_Some; by rewrite lookup_insert_eq).
  unfold Transaction_save.
  rewrite returnedDoc_valid; [| unfold Transaction_validate; simpl; by rewrite Hn | exact Hn'].
  simpl. rewrite lookup_insert_eq.
  unfold Book_save, Book_validate, Book_preSave. simpl.
  replace (1 <=? totalCopies bk) with true by (symmetry; apply Z.leb_le; lia).
  replace (0 <=? availableCopies bk - 1 + 1) with true by (symmetry; apply Z.leb_le; lia).
  replace (totalCopies bk <? availableCopies bk - 1 + 1) with false
    by (symmetry; apply Z.ltb_ge; lia).
  simpl. unfold releaseSlot, with_students, with_books. simpl.
  rewrite lookup_insert_eq. simpl.
  replace (0 <? currentBooksIssued st + 1) with true by (symmetry; apply Z.ltb_lt; lia).
  rewrite !insert_insert_eq.
  f_equal. f_equal.
  - apply insert_id. rewrite Hb. f_equal. destruct bk; simpl.
    unfold set_availableCopies; simpl. f_equal. lia.
  - apply insert_id. rewrite Hs. f_equal. destruct st; simpl.
    unfold set_currentBooksIssued; simpl. f_equal. lia.
Qed.

Lemma issue_then_return_witness :
  post_return 3 1%positive None
    (post_issue zoneUTC 0 1%positive 1%positive None 9%positive quotaDb).1
  = (mkDb (books quotaDb) (students quotaDb)
          {[ 1%positive := returnedDoc 3 None (issuedDoc zoneUTC 0 1%positive 1%positive None
                                                 9%positive) ]},
     Ok 1%positive).
Proof.
  apply (issue_then_return zoneUTC 0 3 1%positive 1%positive None None 9%positive quotaDb
           (mkBook true 2 2) (mkStudent SActive 1 0));
    [reflexivity | reflexivity | simpl; lia | reflexivity | reflexivity
    | simpl; lia | | reflexivity | reflexivity | reflexivity].
  intros id t Hid. unfold quotaDb in Hid. simpl in Hid. by rewrite lookup_empty in Hid.
Defined.

(** X8.  A request that ends in an exception never leaves a changed book or
    student behind: when [POST /issue] or [POST /return] throw after their
    first save, the loan record has been written and the counters have
    not. *)
Theorem thrown_request_keeps_counters (r : Request) (db : Db) (e : Exn) :
  (handle r db).2 = Thrown e →
  books (handle r db).1 = books db ∧ students (handle r db).1 = students db.
Proof.
  destruct r as [tz now b s n u | now i n | tz now i | now clock]; simpl.
  - unfold post_issue.
    repeat case_match; simpl; try discriminate; try done.
    all: intros _;
      repeat match goal with
             | H : Transaction_save _ _ _ = Some _ |- _ =>
                 apply Transaction_save_Some in H; subst
             end; done.
  - rewrite post_return_unfold.
    repeat case_match; simpl; try discriminate; try done.
    all: intros _;
      repeat match goal with
             | H : Transaction_save _ _ _ = Some _ |- _ =>
                 apply Transaction_save_Some in H; subst
             end; done.
  - unfold post_renew.
    repeat case_match; simpl; try discriminate; done.
  - intros _. unfold get_meta_overdue.
    pose proof (sweep_loop_books clock (overdueTransactions now (transactions db)) db).
    pose proof (sweep_loop_students clock (overdueTransactions now (transactions db)) db).
    destruct (sweep_loop clock _ db) as [db1 [e'|]]; done.
Qed.

Lemma thrown_request_keeps_counters_witness :
  (handle (Return 5 1%positive None) libraryDbFull).2 = Thrown ValidationError
  ∧ books (handle (Return 5 1%positive None) libraryDbFull).1 = books libraryDbFull
  ∧ students (handle (Return 5 1%positive None) libraryDbFull).1 = students libraryDbFull
  ∧ transactions (handle (Return 5 1%positive None) libraryDbFull).1
    ≠ transactions libraryDbFull.
Proof.
  assert (Hthrown : (handle (Return 5 1%positive None) libraryDbFull).2
                    = Thrown ValidationError) by reflexivity.
  destruct (thrown_request_keeps_counters _ _ _ Hthrown) as [Hb Hs].
  split_and!; [exact Hthrown | exact Hb | exact Hs |].
  intros Heq.
  assert (Hst : status <$> transactions (handle (Return 5 1%positive None)
                                           libraryDbFull).1 !! 1%positive
                = Some Active) by (rewrite Heq; reflexivity).
  vm_compute in Hst. discriminate.
Defined.

End Issuing.

(** ** What a sequence of requests does to a loan *)

Section History.

Lemma Transaction_save_valid id t db db' :
  Transaction_save id t db = Some db' → Transaction_validate t = true.
Proof. unfold Transaction_save. by destruct (Transaction_validate t). Qed.

Lemma evolves_refl t : evolves t t.
Proof. unfold evolves. split_and!; done. Qed.

Lemma evolves_trans t1 t2 t3 : evolves t1 t2 → evolves t2 t3 → evolves t1 t3.
Proof.
  intros (Hb & Hs & Hi & Hp & Hr & Ha & Hf) (Hb' & Hs' & Hi' & Hp' & Hr' & Ha' & Hf').
  unfold evolves. split_and!; try congruence; try lia; try tauto.
  intros Hna. rewrite (Hf Hna) in *. by apply Hf'.
Qed.

Lemma sweptDoc_fields clock id t :
  book (sweptDoc clock id t) = book t ∧ student (sweptDoc clock id t) = student t
  ∧ issueDate (sweptDoc clock id t) = issueDate t
  ∧ processedBy (sweptDoc clock id t) = processedBy t
  ∧ renewalCount (sweptDoc clock id t) = renewalCount t
  ∧ (status t = Active →
     status (sweptDoc clock id t) = Active ∨ status (sweptDoc clock id t) = Overdue).
Proof.
  unfold sweptDoc.
  pose proof (calculateFine_fields (clock id).2 (checkOverdue (clock id).1 t).1) as Hf.
  cbv zeta in Hf. destruct Hf as (-> & -> & _ & -> & _ & _ & -> & -> & _ & ->).
  unfold checkOverdue. destruct (_ && _); simpl; split_and!; auto.
Qed.

Lemma sweptDoc_evolves clock id t : status t = Active → evolves t (sweptDoc clock id t).
Proof.
  intros Hact. destruct (sweptDoc_fields clock id t) as (Hb & Hs & Hi & Hp & Hr & _).
  unfold evolves. split_and!; first [done | lia].
Qed.

(** The loop, whether it ends or leaves early: each document is as it was
    or is the swept version of a listed one. *)
Lemma sweep_loop_lookup clock l db :
  NoDup l.*1 →
  (∀ id t, (id, t) ∈ l → transactions db !! id = Some t) →
  ∀ id, transactions (sweep_loop clock l db).1 !! id = transactions db !! id
        ∨ ∃ t, (id, t) ∈ l
               ∧ transactions (sweep_loop clock l db).1 !! id
                 = Some (sweptDoc clock id t).
Proof.
  revert db. induction l as [|[id0 t0] l IH]; intros db Hnd Hsnap id; [by left |].
  rewrite sweep_loop_cons.
  destruct (Transaction_save id0 _ db) as [db1|] eqn:Hs; [| by left].
  apply Transaction_save_Some in Hs as ->.
  simpl in Hnd. apply NoDup_cons in Hnd as [Hhd Hnd].
  destruct (IH (with_transactions (<[id0 := sweptDoc clock id0 t0]> (transactions db)) db)
              Hnd) with (id := id) as [Hsame | (t & Hin & Hl)].
  - intros id' t' Hin. simpl. rewrite lookup_insert_ne.
    + apply Hsnap. by right.
    + intros <-. apply Hhd. apply list_elem_of_fmap. by exists (id0, t').
  - simpl in Hsame. rewrite lookup_insert in Hsame. case_decide as Hid.
    + subst id0. right. exists t0. split; [by left | exact Hsame].
    + by left.
  - right. exists t. split; [by right | exact Hl].
Qed.

(** One request, seen from a loan. *)
Lemma handle_evolves r db id t :
  transactions db !! id = Some t →
  ∃ t', transactions (handle r db).1 !! id = Some t' ∧ evolves t t'.
Proof.
  intros Hid.
  assert (Hrefl : ∃ t', transactions db !! id = Some t' ∧ evolves t t')
    by (exists t; split; [exact Hid | apply evolves_refl]).
  destruct r as [tz now b s n u | now i n | tz now i | now clock]; simpl.
  - unfold post_issue.
    destruct (books db !! b) as [bk|]; [| exact Hrefl].
    destruct (negb (isActive bk)); [exact Hrefl |].
    destruct (availableCopies bk <=? 0); [exact Hrefl |].
    destruct (findActiveStudent s (students db)) as [st|]; [| exact Hrefl].
    destruct (existsOne _ _); [exact Hrefl |].
    destruct (maxBooksAllowed st <=? _); [exact Hrefl |].
    cbv zeta.
    assert (Hne : newObjectId (transactions db) ≠ id).
    { intros Heq. pose proof (newObjectId_fresh (transactions db)). congruence. }
    destruct (Transaction_save _ _ db) as [db1|] eqn:Hs1; [| exact Hrefl].
    apply Transaction_save_Some in Hs1 as ->.
    assert (Hnew : ∃ t', <[newObjectId (transactions db) :=
                             mkTransaction b s TIssue now (addDays tz now 14) None Active
                               (mkFine 0 RNone false None) 0 n u]> (transactions db) !! id
                         = Some t' ∧ evolves t t').
    { exists t. rewrite lookup_insert_ne by exact Hne. split; [exact Hid | apply evolves_refl]. }
    destruct (Book_save b _ _) as [db2|] eqn:Hs2; [| exact Hnew].
    apply Book_save_Some in Hs2 as [_ ->]. exact Hnew.
  - assert (Hstep : ∀ t0, findActiveById i (transactions db) = Some t0 →
              ∃ t', <[i := returnedDoc now n t0]> (transactions db) !! id = Some t'
                    ∧ evolves t t').
    { intros t0 Hf. apply findActiveById_Some in Hf as [Hi Hact].
      rewrite lookup_insert. case_decide as Heq.
      - subst i. assert (t0 = t) as -> by congruence.
        exists (returnedDoc now n t). split; [reflexivity |].
        pose proof (returnedDoc_fields now n t)
          as (Hb & Hs & _ & Hi' & _ & _ & Hst & Hr & _ & Hp).
        unfold evolves. split_and!; first [done | lia | congruence].
      - exists t. split; [exact Hid | apply evolves_refl]. }
    rewrite post_return_unfold.
    destruct (findActiveById i (transactions db)) as [t0|] eqn:Hf; [| exact Hrefl].
    destruct (Transaction_save _ _ db) as [db1|] eqn:Hs1; [| exact Hrefl].
    apply Transaction_save_Some in Hs1 as ->. simpl.
    destruct (books db !! book t0) as [bk|]; [| by apply Hstep].
    destruct (Book_save _ _ _) as [db2|] eqn:Hs2; [| by apply Hstep].
    apply Book_save_Some in Hs2 as [_ ->]. by apply Hstep.
  - unfold post_renew.
    destruct (findActiveById i (transactions db)) as [t0|] eqn:Hf; [| exact Hrefl].
    destruct (3 <=? renewalCount t0); [exact Hrefl |].
    cbv zeta.
    destruct (Transaction_save _ _ db) as [db1|] eqn:Hs1; [| exact Hrefl].
    apply Transaction_save_Some in Hs1 as ->. simpl.
    apply findActiveById_Some in Hf as [Hi Hact].
    rewrite lookup_insert. case_decide as Heq.
    + subst i. assert (t0 = t) as -> by congruence.
      eexists. split; [reflexivity |].
      unfold evolves. simpl. split_and!; first [done | lia | congruence].
    + exact Hrefl.
  - assert (Hloop : transactions (get_meta_overdue now clock db).1
                    = transactions (sweep_loop clock
                                      (overdueTransactions now (transactions db)) db).1).
    { unfold get_meta_overdue. by destruct (sweep_loop _ _ db) as [db1 [e|]]. }
    rewrite Hloop.
    destruct (sweep_loop_lookup clock (overdueTransactions now (transactions db)) db)
      with (id := id) as [Hsame | (t0 & Hin & Hl)].
    + apply overdueTransactions_NoDup.
    + intros id' t' Hin. by apply overdueTransactions_elem in Hin as [? _].
    + rewrite Hsame. exact Hrefl.
    + apply overdueTransactions_elem in Hin as [Hid0 Hpd].
      assert (t0 = t) as -> by congruence.
      exists (sweptDoc clock id t). split; [exact Hl |].
      apply sweptDoc_evolves. by apply pastDue_true in Hpd as [? _].
Qed.

Lemma run_evolves rs db id t :
  transactions db !! id = Some t →
  ∃ t', transactions (run rs db) !! id = Some t' ∧ evolves t t'.
Proof.
  revert db t. induction rs as [|r rs IH]; intros db t Hid.
  - exists t. split; [exact Hid | apply evolves_refl].
  - rewrite run_cons.
    destruct (handle_evolves r db id t Hid) as (t1 & Hid1 & He1).
    destruct (IH _ _ Hid1) as (t2 & Hid2 & He2).
    exists t2. split; [exact Hid2 | by eapply evolves_trans].
Qed.

(** X9.  A loan that is no longer [active] is never changed again by any
    sequence of issue, return, renew and sweep requests: a returned loan
    keeps its return date and fine, and a loan marked [overdue] is never
    returned, renewed or fined further. *)
Theorem settled_loans_are_frozen (rs : list Request) (db : Db)
    (id : ObjectId) (t : Transaction) :
  transactions db !! id = Some t → status t ≠ Active →
  transactions (run rs db) !! id = Some t.
Proof.
  intros Hid Hna.
  destruct (run_evolves rs db id t Hid) as (t' & Hid' & He).
  destruct He as (_ & _ & _ & _ & _ & _ & Hfrozen).
  by rewrite Hid', (Hfrozen Hna).
Qed.

Lemma settled_loans_are_frozen_witness :
  transactions
    (run [Return (addDays zoneUTC 0 20) 1%positive None;
          Renew zoneUTC (addDays zoneUTC 0 20) 1%positive;
          Sweep (addDays zoneUTC 0 30) (frozenAt (addDays zoneUTC 0 30))]
       libraryDbOverdue) !! 1%positive
  = Some overdueLoan.
Proof.
  apply settled_loans_are_frozen; [reflexivity | discriminate].
Defined.

(** X10.  No sequence of requests deletes a loan or changes its title, its
    borrower, its issue date or the staff member who issued it; its
    [renewalCount] never goes down and its status never goes back to
    [active]. *)
Theorem loans_keep_their_record (rs : list Request) (db : Db)
    (id : ObjectId) (t : Transaction) :
  transactions db !! id = Some t →
  ∃ t', transactions (run rs db) !! id = Some t'
        ∧ book t' = book t ∧ student t' = student t
        ∧ issueDate t' = issueDate t ∧ processedBy t' = processedBy t
        ∧ renewalCount t ≤ renewalCount t'
        ∧ (status t' = Active → status t = Active).
Proof.
  intros Hid.
  destruct (run_evolves rs db id t Hid) as (t' & Hid' & He).
  destruct He as (Hb & Hs & Hi & Hp & Hr & Ha & _).
  exists t'. split_and!; done.
Qed.

Lemma loans_keep_their_record_witness :
  ∃ t', transactions
          (run [Renew zoneUTC 2 1%positive; Return 5 1%positive None;
                Issue zoneUTC 6 1%positive 1%positive None 9%positive] libraryDb) !! 1%positive
        = Some t'
        ∧ book t' = 1%positive ∧ student t' = 1%positive ∧ issueDate t' = 0
        ∧ 0 ≤ renewalCount t'.
Proof.
  destruct (loans_keep_their_record
              [Renew zoneUTC 2 1%positive; Return 5 1%positive None;
               Issue zoneUTC 6 1%positive 1%positive None 9%positive]
              libraryDb 1%positive sampleLoan)
    as (t' & Hid & Hb & Hs & Hi & _ & Hr & _); [reflexivity |].
  exists t'. split_and!; done.
Defined.

Lemma sweep_loop_all_valid clock l db :
  all_valid db → all_valid (sweep_loop clock l db).1.
Proof.
  revert db. induction l as [|[id t] l IH]; intros db Hv; [exact Hv |].
  rewrite sweep_loop_cons.
  destruct (Transaction_save id _ db) as [db1|] eqn:Hs; [| exact Hv].
  apply IH. pose proof (Transaction_save_valid _ _ _ _ Hs) as Hval.
  apply Transaction_save_Some in Hs as ->.
  intros id' t'. simpl. rewrite lookup_insert.
  case_decide; [by intros [= <-] | apply Hv].
Qed.

Lemma handle_all_valid r db : all_valid db → all_valid (handle r db).1.
Proof.
  intros Hv.
  assert (Hins : ∀ id t db1, Transaction_save id t db = Some db1 → all_valid db1).
  { intros id t db1 Hs. pose proof (Transaction_save_valid _ _ _ _ Hs) as Hval.
    apply Transaction_save_Some in Hs as ->.
    intros id' t'. simpl. rewrite lookup_insert.
    case_decide; [by intros [= <-] | apply Hv]. }
  assert (Hsame : ∀ db1 db2, transactions db2 = transactions db1 →
                             all_valid db1 → all_valid db2).
  { intros db1 db2 Heq H1 id t. rewrite Heq. apply H1. }
  destruct r as [tz now b s n u | now i n | tz now i | now clock]; simpl.
  - unfold post_issue.
    destruct (books db !! b) as [bk|]; [| exact Hv].
    destruct (negb (isActive bk)); [exact Hv |].
    destruct (availableCopies bk <=? 0); [exact Hv |].
    destruct (findActiveStudent s (students db)) as [st|]; [| exact Hv].
    destruct (existsOne _ _); [exact Hv |].
    destruct (maxBooksAllowed st <=? _); [exact Hv |].
    cbv zeta.
    destruct (Transaction_save _ _ db) as [db1|] eqn:Hs1; [| exact Hv].
    apply Hins in Hs1.
    destruct (Book_save b _ _) as [db2|] eqn:Hs2; [| exact Hs1].
    apply Book_save_Some in Hs2 as [_ ->]. simpl.
    by apply (Hsame db1).
  - rewrite post_return_unfold.
    destruct (findActiveById i (transactions db)) as [t0|]; [| exact Hv].
    destruct (Transaction_save _ _ db) as [db1|] eqn:Hs1; [| exact Hv].
    apply Hins in Hs1.
    destruct (books db1 !! book t0) as [bk|]; [| exact Hs1].
    destruct (Book_save _ _ _) as [db2|] eqn:Hs2; [| exact Hs1].
    apply Book_save_Some in Hs2 as [_ ->]. simpl.
    by apply (Hsame db1).
  - unfold post_renew.
    destruct (findActiveById i (transactions db)) as [t0|]; [| exact Hv].
    destruct (3 <=? renewalCount t0); [exact Hv |].
    cbv zeta.
    destruct (Transaction_save _ _ db) as [db1|] eqn:Hs1; [| exact Hv].
    by apply Hins in Hs1.
  - unfold get_meta_overdue.
    pose proof (sweep_loop_all_valid clock (overdueTransactions now (transactions db)) db Hv).
    by destruct (sweep_loop clock _ db) as [db1 [e|]].
Qed.

(** X11.  Every write of a loan passes the schema's validators, so starting from
    valid loans, after any sequence of requests every stored loan has a
    fine that is not negative, at most three renewals and a note of at most
    200 characters. *)
Theorem stored_loans_stay_valid (rs : list Request) (db : Db) :
  all_valid db →
  ∀ id t, transactions (run rs db) !! id = Some t →
          0 ≤ amount (fine t) ∧ renewalCount t ≤ maxRenewals
          ∧ notes_ok (notes t) = true.
Proof.
  intros Hv.
  assert (Hrun : all_valid (run rs db)).
  { revert db Hv. induction rs as [|r rs IH]; intros db Hv; [exact Hv |].
    rewrite run_cons. apply IH, handle_all_valid, Hv. }
  intros id t Hid. apply Hrun in Hid.
  apply Transaction_validate_true in Hid as (? & ? & ? & _). done.
Qed.

Lemma stored_loans_stay_valid_witness :
  ∃ t, transactions
         (run [Renew zoneUTC 1 1%positive; Renew zoneUTC 2 1%positive; Renew zoneUTC 3 1%positive;
               Renew zoneUTC 4 1%positive;
               Sweep (addDays zoneUTC 0 40) (frozenAt (addDays zoneUTC 0 40))]
            libraryDb) !! 1%positive = Some t
       ∧ renewalCount t = 3
       ∧ 0 ≤ amount (fine t) ∧ renewalCount t ≤ maxRenewals ∧ notes_ok (notes t) = true.
Proof.
  assert (Hv : all_valid libraryDb).
  { intros id t' Hid.
    destruct (decide (id = 1%positive)) as [-> | Hne].
    - vm_compute in Hid. by injection Hid as <-.
    - unfold libraryDb in Hid. simpl in Hid.
      rewrite lookup_singleton_ne in Hid by done. discriminate. }
  eexists. split; [vm_compute; reflexivity |].
  split; [reflexivity |].
  apply (stored_loans_stay_valid
           [Renew zoneUTC 1 1%positive; Renew zoneUTC 2 1%positive; Renew zoneUTC 3 1%positive;
            Renew zoneUTC 4 1%positive;
            Sweep (addDays zoneUTC 0 40) (frozenAt (addDays zoneUTC 0 40))]
           libraryDb Hv 1%positive).
  vm_compute. reflexivity.
Defined.

End History.

(** ** Sweeping twice, and the copies of a title *)

Section Stock.

Lemma find_empty q (ts : gmap ObjectId Transaction) :
  (∀ id t, ts !! id = Some t → q t = false) → find q ts = ∅.
Proof.
  intros Hall. apply map_empty. intros id. apply map_lookup_filter_None.
  right. intros t Hid Hq. simpl in Hq. rewrite (Hall id t Hid) in Hq. discriminate.
Qed.

(** X12.  A sweep leaves nothing for a second sweep: after [GET /meta/overdue]
    at some instant (clock not running backwards, matched loans valid), the
    same request at that instant or an earlier one finds no loan, reports a
    count of 0 and changes nothing. *)
Theorem sweep_again_finds_nothing (now now' : Z) (clock clock' : ObjectId → Z * Z)
    (db : Db) :
  (∀ id t, transactions db !! id = Some t → pastDue now t = true →
           Transaction_validate t = true) →
  (∀ id, now ≤ (clock id).1) →
  now' ≤ now →
  get_meta_overdue now' clock' (get_meta_overdue now clock db).1
  = ((get_meta_overdue now clock db).1, OkCount 0).
Proof.
  intros Hval Hclk Hle.
  set (l := overdueTransactions now (transactions db)).
  assert (Hdb1 : (get_meta_overdue now clock db).1
                 = with_transactions
                     (foldl (λ m it, <[it.1 := sweptDoc clock it.1 it.2]> m)
                        (transactions db) l) db).
  { unfold get_meta_overdue. fold l.
    rewrite sweep_loop_ok; [reflexivity |].
    intros id t Hin. apply overdueTransactions_elem in Hin as [? ?]. eauto. }
  rewrite Hdb1. set (ts1 := foldl _ _ l).
  assert (Hnone : ∀ id t1, ts1 !! id = Some t1 → pastDue now' t1 = false).
  { intros id t1 Hid. unfold ts1 in Hid.
    destruct (decide (id ∈ l.*1)) as [Hin | Hnotin].
    - apply list_elem_of_fmap in Hin as ([id' t] & -> & Hin). simpl in Hid.
      rewrite (sweep_fold_lookup_in clock l _ id' t) in Hid;
        [| apply overdueTransactions_NoDup | exact Hin].
      injection Hid as <-.
      apply overdueTransactions_elem in Hin as [_ Hpd].
      rewrite (sweptDoc_pastDue clock now) by (exact Hpd || apply Hclk).
      apply not_true_iff_false. rewrite pastDue_true.
      pose proof (calculateFine_fields (clock id').2 (set_status Overdue t)) as Hf.
      cbv zeta in Hf. destruct Hf as (_ & _ & _ & _ & _ & _ & -> & _).
      simpl. intros [? _]. discriminate.
    - rewrite sweep_fold_lookup_notin in Hid by exact Hnotin.
      apply not_true_iff_false. intros Hpd. apply Hnotin.
      apply list_elem_of_fmap. exists (id, t1). split; [reflexivity |].
      apply overdueTransactions_elem. split; [exact Hid |].
      apply pastDue_true in Hpd as [? ?]. apply pastDue_true. split; [done | lia]. }
  unfold get_meta_overdue, overdueTransactions. simpl.
  rewrite (find_empty _ _ Hnone), map_to_list_empty. reflexivity.
Qed.

Lemma sweep_again_finds_nothing_witness :
  (get_meta_overdue 0 (frozenAt 0) sweepDb).2 = OkCount 1
  ∧ get_meta_overdue 0 (frozenAt 0) (get_meta_overdue 0 (frozenAt 0) sweepDb).1
    = ((get_meta_overdue 0 (frozenAt 0) sweepDb).1, OkCount 0).
Proof.
  split; [reflexivity |].
  apply sweep_again_finds_nothing.
  - intros id t Hid _.
    destruct (decide (id = 2%positive)) as [-> | Hne2]; [by inversion Hid |].
    destruct (decide (id = 1%positive)) as [-> | Hne1]; [by inversion Hid |].
    unfold sweepDb in Hid. simpl in Hid.
    rewrite lookup_insert_ne, lookup_singleton_ne in Hid by done. discriminate.
  - intros id. reflexivity.
  - reflexivity.
Defined.

Lemma conserved_refl db : conserved db db.
Proof. intros bid bk Hb. exists bk. done. Qed.

Lemma conserved_trans db0 db1 db2 :
  conserved db0 db1 → conserved db1 db2 → conserved db0 db2.
Proof.
  intros H01 H12 bid bk Hb.
  destruct (H01 bid bk Hb) as (bk1 & Hb1 & Ht1 & Ha1 & Hc1).
  destruct (H12 bid bk1 Hb1) as (bk2 & Hb2 & Ht2 & Ha2 & Hc2).
  exists bk2. split_and!; [done | congruence | congruence | lia].
Qed.

(** Replacing an active loan by one of the same title that is active or
    overdue keeps the inventory consistent and the copies conserved. *)
Lemma stock_replace db id t t' :
  transactions db !! id = Some t → status t = Active →
  book t' = book t → status t' = Active ∨ status t' = Overdue →
  stock_consistent db →
  stock_consistent (with_transactions (<[id := t']> (transactions db)) db)
  ∧ conserved db (with_transactions (<[id := t']> (transactions db)) db).
Proof.
  intros Hid Hact Hbk Hst (I1 & I2).
  assert (Hon : ∀ bid, (countDocuments (activeOn bid) (<[id := t']> (transactions db))
                        ≤ countDocuments (activeOn bid) (transactions db))%nat).
  { intros bid. pose proof (countDocuments_replace (activeOn bid) _ id t t' Hid) as H.
    assert (indicator (activeOn bid t') ≤ indicator (activeOn bid t))%nat.
    { unfold activeOn. rewrite Hbk, Hact.
      destruct (bool_decide (book t = bid)); simpl; [| lia].
      destruct (bool_decide (status t' = Active)); simpl; lia. }
    lia. }
  assert (Hout : ∀ bid, countDocuments (outstandingOn bid) (<[id := t']> (transactions db))
                        = countDocuments (outstandingOn bid) (transactions db)).
  { intros bid. pose proof (countDocuments_replace (outstandingOn bid) _ id t t' Hid) as H.
    replace (outstandingOn bid t') with (outstandingOn bid t) in H; [lia |].
    unfold outstandingOn. rewrite Hbk, Hact. f_equal.
    destruct Hst as [-> | ->]; reflexivity. }
  split; [split |].
  - intros bid b Hb. simpl in *. destruct (I1 bid b Hb) as [? ?].
    pose proof (Hon bid). split; [done | lia].
  - intros id' t'' Hid' Hact'. simpl in *. rewrite lookup_insert in Hid'.
    case_decide; [| by eapply I2].
    injection Hid' as <-. rewrite Hbk. by eapply (I2 id t).
  - intros bid bk Hb. exists bk. simpl. rewrite Hout. done.
Qed.

(** A property kept by every replacement the loop can make is kept by the
    loop, however far it gets. *)
Lemma sweep_loop_keeps (P : Db → Prop) clock l db :
  (∀ db id t, transactions db !! id = Some t → status t = Active → P db →
     P (with_transactions (<[id := sweptDoc clock id t]> (transactions db)) db)) →
  NoDup l.*1 →
  (∀ id t, (id, t) ∈ l → transactions db !! id = Some t ∧ status t = Active) →
  P db → P (sweep_loop clock l db).1.
Proof.
  intros Hstep. revert db. induction l as [|[id0 t0] l IH]; intros db Hnd Hsnap HP;
    [exact HP |].
  rewrite sweep_loop_cons.
  destruct (Transaction_save id0 _ db) as [db1|] eqn:Hs; [| exact HP].
  apply Transaction_save_Some in Hs as ->.
  simpl in Hnd. apply NoDup_cons in Hnd as [Hhd Hnd].
  destruct (Hsnap id0 t0) as [Hid0 Hact0]; [by left |].
  apply IH; [exact Hnd | | by apply Hstep].
  intros id t Hin. simpl. rewrite lookup_insert_ne.
  - apply Hsnap. by right.
  - intros <-. apply Hhd. apply list_elem_of_fmap. by exists (id0, t).
Qed.

Lemma handle_stock r db :
  stock_consistent db → stock_consistent (handle r db).1 ∧ conserved db (handle r db).1.
Proof.
  intros Hinv.
  assert (Hsame : stock_consistent db ∧ conserved db db)
    by (split; [exact Hinv | apply conserved_refl]).
  destruct r as [tz now b s n u | now i n | tz now i | now clock]; simpl.
  - (* issue *)
    unfold post_issue.
    destruct (books db !! b) as [bk|] eqn:Hbk; [| exact Hsame].
    destruct (negb (isActive bk)); [exact Hsame |].
    destruct (availableCopies bk <=? 0) eqn:Hav; [exact Hsame |].
    apply Z.leb_gt in Hav.
    destruct (findActiveStudent s (students db)) as [st|]; [| exact Hsame].
    destruct (existsOne _ _); [exact Hsame |].
    destruct (maxBooksAllowed st <=? _); [exact Hsame |].
    cbv zeta.
    set (id := newObjectId (transactions db)).
    set (t := mkTransaction b s TIssue now (addDays tz now 14) None Active
                (mkFine 0 RNone false None) 0 n u).
    pose proof (newObjectId_fresh (transactions db)) as Hfresh. fold id in Hfresh.
    destruct (Transaction_save id t db) as [db1|] eqn:Hs1; [| exact Hsame].
    apply Transaction_save_Some in Hs1 as ->.
    destruct Hinv as (I1 & I2).
    destruct (I1 _ _ Hbk) as [_ Hroom].
    assert (Hon : ∀ bid, countDocuments (activeOn bid) (<[id := t]> (transactions db))
                         = (countDocuments (activeOn bid) (transactions db)
                            + indicator (bool_decide (b = bid)))%nat).
    { intros bid. rewrite countDocuments_insert_fresh by exact Hfresh.
      do 2 f_equal. unfold activeOn, t. simpl. by destruct (bool_decide (b = bid)). }
    assert (Hout : ∀ bid, countDocuments (outstandingOn bid) (<[id := t]> (transactions db))
                          = (countDocuments (outstandingOn bid) (transactions db)
                             + indicator (bool_decide (b = bid)))%nat).
    { intros bid. rewrite countDocuments_insert_fresh by exact Hfresh.
      do 2 f_equal. unfold outstandingOn, t. simpl. by destruct (bool_decide (b = bid)). }
    destruct (Book_save _ _ _) as [db2|] eqn:Hs2.
    2:{ exfalso. assert (is_Some (Book_save b
                 (set_availableCopies (availableCopies bk - 1) bk)
                 (with_transactions (<[id := t]> (transactions db)) db))) as [? Hsome].
        { eexists. apply Book_save_Some. split; [simpl; lia | reflexivity]. }
        congruence. }
    apply Book_save_Some in Hs2 as [_ ->]. simpl.
    split; [split |]; simpl.
    + intros bid b'. rewrite lookup_insert, Hon. case_decide as Hb.
      * intros [= <-]. subst bid. rewrite bool_decide_true by done. simpl. lia.
      * intros Hb'. destruct (I1 _ _ Hb') as [? ?].
        rewrite bool_decide_false by done. simpl. split; [done | lia].
    + intros id' t' Hid' Hact'. rewrite lookup_insert in Hid'.
      rewrite lookup_insert.
      case_decide as Hi.
      * injection Hid' as <-. simpl. rewrite decide_True by done. eauto.
      * case_decide; [eauto | by eapply I2].
    + intros bid b' Hb'. simpl. rewrite lookup_insert, Hout. case_decide as Hb.
      * subst bid. assert (b' = bk) as -> by congruence.
        eexists. split; [reflexivity |]. rewrite bool_decide_true by done. simpl.
        split_and!; [done | done | lia].
      * exists b'. rewrite bool_decide_false by done. simpl.
        split_and!; [done | done | done | lia].
  - (* return *)
    rewrite post_return_unfold.
    destruct (findActiveById i (transactions db)) as [t|] eqn:Hfind; [| exact Hsame].
    apply findActiveById_Some in Hfind as [Hid Hact].
    destruct (Transaction_save _ _ db) as [db1|] eqn:Hs1; [| exact Hsame].
    apply Transaction_save_Some in Hs1 as ->.
    destruct Hinv as (I1 & I2).
    pose proof (returnedDoc_fields now n t) as (Hbk & _ & _ & _ & _ & _ & Hst & _).
    set (t' := returnedDoc now n t) in *.
    assert (Hon : ∀ bid, (countDocuments (activeOn bid) (<[i := t']> (transactions db))
                          + indicator (bool_decide (book t = bid))
                          = countDocuments (activeOn bid) (transactions db))%nat).
    { intros bid. pose proof (countDocuments_replace (activeOn bid) _ i t t' Hid) as H.
      replace (activeOn bid t') with false in H
        by (unfold activeOn; rewrite Hst; by rewrite andb_false_r).
      replace (activeOn bid t) with (bool_decide (book t = bid)) in H
        by (unfold activeOn; rewrite Hact; by rewrite andb_true_r).
      simpl in H. lia. }
    assert (Hout : ∀ bid, (countDocuments (outstandingOn bid) (<[i := t']> (transactions db))
                           + indicator (bool_decide (book t = bid))
                           = countDocuments (outstandingOn bid) (transactions db))%nat).
    { intros bid. pose proof (countDocuments_replace (outstandingOn bid) _ i t t' Hid) as H.
      replace (outstandingOn bid t') with false in H
        by (unfold outstandingOn; rewrite Hst; by rewrite andb_false_r).
      replace (outstandingOn bid t) with (bool_decide (book t = bid)) in H
        by (unfold outstandingOn; rewrite Hact; by rewrite andb_true_r).
      simpl in H. lia. }
    simpl.
    destruct (I2 i t Hid Hact) as [bk Hbk0]. rewrite Hbk0.
    destruct (I1 _ _ Hbk0) as [Hav0 Hav1].
    pose proof (Hon (book t)) as Hon0. rewrite bool_decide_true in Hon0 by done.
    simpl in Hon0.
    destruct (Book_save _ _ _) as [db2|] eqn:Hs2.
    2:{ exfalso. assert (is_Some (Book_save (book t)
                 (set_availableCopies (availableCopies bk + 1) bk)
                 (with_transactions (<[i := t']> (transactions db)) db))) as [? Hsome].
        { eexists. apply Book_save_Some. split; [simpl; lia | reflexivity]. }
        congruence. }
    apply Book_save_Some in Hs2 as [_ ->]. simpl.
    split; [split |]; simpl.
    + intros bid b. rewrite lookup_insert. case_decide as Hb.
      * intros [= <-]. subst bid. simpl. lia.
      * intros Hb'. destruct (I1 _ _ Hb') as [? ?].
        pose proof (Hon bid) as Hon1. rewrite bool_decide_false in Hon1 by done.
        simpl in Hon1. split; [done | lia].
    + intros id' t'' Hid' Hact'. rewrite lookup_insert in Hid'.
      case_decide; [injection Hid' as <-; congruence |].
      rewrite lookup_insert. case_decide; [eauto | by eapply I2].
    + intros bid b' Hb'. simpl. rewrite lookup_insert.
      pose proof (Hout bid) as Hout1. case_decide as Hb.
      * subst bid. assert (b' = bk) as -> by congruence.
        eexists. split; [reflexivity |]. rewrite bool_decide_true in Hout1 by done.
        simpl in *. split_and!; [done | done | lia].
      * exists b'. rewrite bool_decide_false in Hout1 by done. simpl in Hout1.
        split_and!; [done | done | done | lia].
  - (* renew *)
    unfold post_renew.
    destruct (findActiveById i (transactions db)) as [t|] eqn:Hfind; [| exact Hsame].
    apply findActiveById_Some in Hfind as [Hid Hact].
    destruct (3 <=? renewalCount t); [exact Hsame |].
    cbv zeta.
    destruct (Transaction_save _ _ db) as [db1|] eqn:Hs1; [| exact Hsame].
    apply Transaction_save_Some in Hs1 as ->. simpl.
    apply (stock_replace db i t); [done | done | done | by left | done].
  - (* sweep *)
    assert (Hloop : (get_meta_overdue now clock db).1
                    = (sweep_loop clock (overdueTransactions now (transactions db)) db).1).
    { unfold get_meta_overdue. by destruct (sweep_loop _ _ db) as [db1 [e|]]. }
    rewrite Hloop.
    apply (sweep_loop_keeps (λ d, stock_consistent d ∧ conserved db d)).
    + intros d id t Hid Hact [Hd Hc].
      destruct (sweptDoc_fields clock id t) as (Hb & _ & _ & _ & _ & Hst).
      destruct (stock_replace d id t (sweptDoc clock id t) Hid Hact Hb (Hst Hact) Hd)
        as [Hd' Hc'].
      split; [exact Hd' | by eapply conserved_trans].
    + apply overdueTransactions_NoDup.
    + intros id t Hin. apply overdueTransactions_elem in Hin as [Hid Hpd].
      apply pastDue_true in Hpd as [? _]. done.
    + exact Hsame.
Qed.

Lemma run_stock rs db :
  stock_consistent db → stock_consistent (run rs db) ∧ conserved db (run rs db).
Proof.
  revert db. induction rs as [|r rs IH]; intros db Hinv.
  - split; [exact Hinv | apply conserved_refl].
  - rewrite run_cons. destruct (handle_stock r db Hinv) as [H1 Hc1].
    destruct (IH _ H1) as [H2 Hc2].
    split; [exact H2 | by eapply conserved_trans].
Qed.

(** X13.  Copies are conserved.  Starting from a consistent inventory, after any
    sequence of issue, return, renew and sweep requests every title still
    exists with the same [totalCopies], and its copies on the shelf plus its
    copies out on [active] or [overdue] loans add up to what they did at the
    start; the copies on the shelf plus the [active] loans never exceed
    [totalCopies]. *)
Theorem copies_are_conserved (rs : list Request) (db : Db) :
  stock_consistent db →
  ∀ bid bk, books db !! bid = Some bk →
    ∃ bk', books (run rs db) !! bid = Some bk'
           ∧ totalCopies bk' = totalCopies bk
           ∧ availableCopies bk'
               + Z.of_nat (countDocuments (outstandingOn bid) (transactions (run rs db)))
             = availableCopies bk
               + Z.of_nat (countDocuments (outstandingOn bid) (transactions db))
           ∧ 0 ≤ availableCopies bk'
           ∧ availableCopies bk'
               + Z.of_nat (countDocuments (activeOn bid) (transactions (run rs db)))
             ≤ totalCopies bk'.
Proof.
  intros Hinv bid bk Hb.
  destruct (run_stock rs db Hinv) as [[I1 _] Hc].
  destruct (Hc bid bk Hb) as (bk' & Hb' & Ht & _ & Hsum).
  exists bk'. destruct (I1 bid bk' Hb') as [? ?]. split_and!; done.
Qed.

Lemma copies_are_conserved_witness :
  ∃ bk', books (run quotaRequests quotaDb) !! 1%positive = Some bk'
         ∧ totalCopies bk' = 2
         ∧ availableCopies bk'
             + Z.of_nat (countDocuments (outstandingOn 1%positive)
                           (transactions (run quotaRequests quotaDb)))
           = 2.
Proof.
  assert (Hinv : stock_consistent quotaDb).
  { destruct quotaDb_consistent as (I1 & I2 & _). split; assumption. }
  destruct (copies_are_conserved quotaRequests quotaDb Hinv 1%positive (mkBook true 2 2))
    as (bk' & Hb & Ht & Hsum & _); [reflexivity |].
  exists bk'. split_and!; [exact Hb | exact Ht |].
  rewrite Hsum. reflexivity.
Defined.

End Stock.

(** ** Reading loans *)

Section Reading.

(** X14.  [GET /:id] answers with the stored loan or not at all, and a user of
    role ['student'] only ever receives a loan whose borrower is the user;
    staff receive every loan that exists. *)
Theorem get_transaction_access (user : User) (id : ObjectId) (db : Db) :
  (∀ t, get_transaction user id db = Data t →
        transactions db !! id = Some t
        ∧ (role user = RStudent → student t = user_id user))
  ∧ (role user ≠ RStudent →
     ∀ t, transactions db !! id = Some t → get_transaction user id db = Data t)
  ∧ (get_transaction user id db = TransactionNotFound ↔ transactions db !! id = None).
Proof.
  unfold get_transaction.
  destruct (transactions db !! id) as [t0|] eqn:Hid.
  - case_bool_decide as Hrole.
    + destruct (students db !! student t0) as [st|].
      * case_bool_decide as Hown; split_and!; try done.
        intros t [= <-]. split; [done |]. intros _.
        by destruct (decide (student t0 = user_id user)).
      * split_and!; done.
    + split_and!; try done.
      * intros t [= <-]. done.
      * intros _ t [= <-]. done.
  - split_and!; done.
Qed.

Lemma get_transaction_access_witness :
  get_transaction (mkUser RLibrarian 9%positive) 1%positive libraryDb = Data sampleLoan
  ∧ get_transaction (mkUser RStudent 2%positive) 1%positive libraryDb = NotAuthorized.
Proof.
  split; [| reflexivity].
  apply (proj1 (proj2 (get_transaction_access (mkUser RLibrarian 9%positive) 1%positive
                         libraryDb))); [discriminate | reflexivity].
Defined.

(** X15.  [GET /student/:studentId] refuses a user of role ['student'] who asks
    for another borrower; every other request is answered with the listing
    of exactly the loans of the borrower asked for, [count] being their
    number. *)
Theorem get_student_transactions_lists (user : User) (studentId : ObjectId) (db : Db) :
  (role user = RStudent → studentId ≠ user_id user →
   get_student_transactions user studentId db = NotAuthorized)
  ∧ (role user ≠ RStudent ∨ studentId = user_id user →
     get_student_transactions user studentId db
     = DataList (size (find (ofStudent studentId) (transactions db)))
                (find (ofStudent studentId) (transactions db)))
  ∧ (∀ id t, find (ofStudent studentId) (transactions db) !! id = Some t
             ↔ transactions db !! id = Some t ∧ student t = studentId)
  ∧ (∀ n m, get_student_transactions user studentId db = DataList n m →
       n = size m
       ∧ (role user = RStudent → studentId = user_id user)
       ∧ ∀ id t, m !! id = Some t
                 ↔ transactions db !! id = Some t ∧ student t = studentId).
Proof.
  assert (Hfind : ∀ id t, find (ofStudent studentId) (transactions db) !! id = Some t
                          ↔ transactions db !! id = Some t ∧ student t = studentId).
  { intros id t. unfold find. rewrite map_lookup_filter_Some. simpl.
    unfold ofStudent. by rewrite bool_decide_eq_true. }
  unfold get_student_transactions. split_and!.
  - intros Hrole Hne. by rewrite !bool_decide_true.
  - intros [Hrole | Hown].
    + by rewrite (bool_decide_false (role user = RStudent)).
    + rewrite (bool_decide_false (studentId ≠ user_id user)) by tauto.
      by rewrite andb_false_r.
  - exact Hfind.
  - intros n m. destruct (_ && _) eqn:Hguard; [discriminate |].
    intros [= <- <-]. split_and!; [reflexivity | | exact Hfind].
    intros Hrole. rewrite bool_decide_true in Hguard by done. simpl in Hguard.
    apply bool_decide_eq_false in Hguard.
    by destruct (decide (studentId = user_id user)).
Qed.

Lemma get_student_transactions_lists_witness :
  get_student_transactions (mkUser RStudent 2%positive) 1%positive libraryDb = NotAuthorized
  ∧ get_student_transactions (mkUser RStudent 1%positive) 1%positive libraryDb
    = DataList 1 {[ 1%positive := sampleLoan ]}
  ∧ ∃ m, get_student_transactions (mkUser RLibrarian 9%positive) 1%positive libraryDb
         = DataList 1 m ∧ m !! 1%positive = Some sampleLoan.
Proof.
  split_and!.
  - apply (proj1 (get_student_transactions_lists (mkUser RStudent 2%positive) 1%positive
                    libraryDb)); [reflexivity | discriminate].
  - rewrite (proj1 (proj2 (get_student_transactions_lists (mkUser RStudent 1%positive)
                             1%positive libraryDb))); [reflexivity | right; reflexivity].
  - eexists. split.
    + apply (proj1 (proj2 (get_student_transactions_lists (mkUser RLibrarian 9%positive)
                             1%positive libraryDb))). left. discriminate.
    + reflexivity.
Defined.

(** X16.  A borrower's listing only grows: a loan listed for a borrower is still
    listed for that borrower after any sequence of issue, return, renew and
    sweep requests. *)
Theorem listing_only_grows (rs : list Request) (user : User) (studentId : ObjectId)
    (db : Db) (n : nat) (m : gmap ObjectId Transaction) :
  get_student_transactions user studentId db = DataList n m →
  ∃ n' m', get_student_transactions user studentId (run rs db) = DataList n' m'
           ∧ (n ≤ n')%nat
           ∧ ∀ id, is_Some (m !! id) → is_Some (m' !! id).
Proof.
  unfold get_student_transactions.
  destruct (_ && _); [discriminate |]. intros [= <- <-].
  eexists _, _. split; [reflexivity |].
  assert (Hsub : ∀ id, is_Some (find (ofStudent studentId) (transactions db) !! id) →
                       is_Some (find (ofStudent studentId) (transactions (run rs db)) !! id)).
  { intros id [t Hl]. unfold find in *.
    apply map_lookup_filter_Some in Hl as [Hid Hq]. simpl in Hq.
    destruct (run_evolves rs db id t Hid) as (t' & Hid' & He).
    exists t'. apply map_lookup_filter_Some. split; [exact Hid' |]. simpl.
    destruct He as (_ & Hs & _). unfold ofStudent in *.
    apply bool_decide_eq_true in Hq. apply bool_decide_eq_true. congruence. }
  split; [| exact Hsub].
  rewrite <- !size_dom. apply subseteq_size.
  intros id. rewrite !elem_of_dom. apply Hsub.
Qed.

Lemma listing_only_grows_witness :
  ∃ n' m', get_student_transactions (mkUser RLibrarian 9%positive) 1%positive
             (run [Return 5 1%positive None;
                   Issue zoneUTC 6 1%positive 1%positive None 9%positive] libraryDb)
           = DataList n' m'
           ∧ (1 ≤ n')%nat ∧ is_Some (m' !! 1%positive).
Proof.
  destruct (listing_only_grows
              [Return 5 1%positive None; Issue zoneUTC 6 1%positive 1%positive None 9%positive]
              (mkUser RLibrarian 9%positive) 1%positive libraryDb 1
              (find (ofStudent 1%positive) (transactions libraryDb)))
    as (n' & m' & Hl & Hn & Hsub); [vm_compute; reflexivity |].
  exists n', m'. split_and!; [exact Hl | exact Hn |].
  apply Hsub. exists sampleLoan. reflexivity.
Defined.

End Reading.

(** ** Withdrawing titles and borrowers *)

Section Admin.

Lemma delete_book_saved id db b :
  books db !! id = Some b → isActive b = true →
  1 ≤ totalCopies b → 0 ≤ availableCopies b ≤ totalCopies b →
  delete_book id db
  = (with_books (<[id := set_isActive false b]> (books db)) db, BookDeleted).
Proof.
  intros Hb Hact Htot Hav.
  unfold delete_book. rewrite Hb, Hact. simpl.
  unfold Book_save, Book_validate, Book_preSave. simpl.
  replace (1 <=? totalCopies b) with true by (symmetry; apply Z.leb_le; lia).
  replace (0 <=? availableCopies b) with true by (symmetry; apply Z.leb_le; lia).
  replace (totalCopies b <? availableCopies b) with false
    by (symmetry; apply Z.ltb_ge; lia).
  reflexivity.
Qed.

(** X17.  [DELETE /api/books/:id] on a title that is in circulation and within
    its bounds only clears [isActive].  From then on the title is not found
    by [GET /api/books/:id], cannot be deleted a second time, and every
    [POST /issue] of it is answered 'Book not found' without any change. *)
Theorem delete_book_withdraws (id : ObjectId) (db : Db) (b : Book) :
  books db !! id = Some b → isActive b = true →
  1 ≤ totalCopies b → 0 ≤ availableCopies b ≤ totalCopies b →
  delete_book id db
  = (with_books (<[id := set_isActive false b]> (books db)) db, BookDeleted)
  ∧ get_book id (delete_book id db).1 = BookMissing
  ∧ delete_book id (delete_book id db).1 = ((delete_book id db).1, BookMissing)
  ∧ ∀ tz now s n u,
      post_issue tz now id s n u (delete_book id db).1
      = ((delete_book id db).1, BookNotFound).
Proof.
  intros Hb Hact Htot Hav.
  pose proof (delete_book_saved id db b Hb Hact Htot Hav) as Hdel.
  rewrite Hdel. simpl. split_and!.
  - reflexivity.
  - unfold get_book. simpl. by rewrite lookup_insert_eq.
  - unfold delete_book. simpl. by rewrite lookup_insert_eq.
  - intros tz now s n u. unfold post_issue. simpl. by rewrite lookup_insert_eq.
Qed.

Lemma delete_book_withdraws_witness :
  delete_book 1%positive quotaDb
  = (with_books (<[1%positive := mkBook false 2 2]> (books quotaDb)) quotaDb, BookDeleted)
  ∧ post_issue zoneUTC 0 1%positive 1%positive None 9%positive (delete_book 1%positive quotaDb).1
    = ((delete_book 1%positive quotaDb).1, BookNotFound).
Proof.
  destruct (delete_book_withdraws 1%positive quotaDb (mkBook true 2 2))
    as (Hdel & _ & _ & Hissue);
    [reflexivity | reflexivity | simpl; lia | simpl; lia |].
  split; [exact Hdel | apply Hissue].
Defined.

(** X18.  A copy of a withdrawn title can still come back: [POST /return] finds
    the book whatever its [isActive], and the return of an active loan of a
    title deleted in between succeeds as it would have. *)
Theorem return_of_withdrawn_title (now : Z) (id : ObjectId) (n : option string)
    (db : Db) (t : Transaction) (b : Book) :
  transactions db !! id = Some t → status t = Active →
  Transaction_validate t = true → notes_ok n = true →
  books db !! book t = Some b → isActive b = true →
  0 ≤ availableCopies b < totalCopies b →
  post_return now id n (delete_book (book t) db).1
  = (mkDb (<[book t := set_isActive false (set_availableCopies (availableCopies b + 1) b)]>
             (books db))
          (releaseSlot (student t) (students db))
          (<[id := returnedDoc now n t]> (transactions db)),
     Ok id).
Proof.
  intros Hid Hact Hval Hn Hb Hba Hcopies.
  rewrite (delete_book_saved (book t) db b) by (done || lia).
  rewrite post_return_unfold. simpl.
  replace (findActiveById id (transactions db)) with (Some t)
    by (symmetry; apply findActiveById_Some; done).
  unfold Transaction_save. rewrite (returnedDoc_valid now n t Hval Hn).
  simpl. rewrite lookup_insert_eq.
  unfold Book_save, Book_validate, Book_preSave. simpl.
  replace (1 <=? totalCopies b) with true by (symmetry; apply Z.leb_le; lia).
  replace (0 <=? availableCopies b + 1) with true by (symmetry; apply Z.leb_le; lia).
  replace (totalCopies b <? availableCopies b + 1) with false
    by (symmetry; apply Z.ltb_ge; lia).
  simpl. unfold with_students. simpl. by rewrite insert_insert_eq.
Qed.

Lemma return_of_withdrawn_title_witness :
  (post_return 5 1%positive None (delete_book 1%positive libraryDb).1).2 = Ok 1%positive
  ∧ books (post_return 5 1%positive None (delete_book 1%positive libraryDb).1).1
      !! 1%positive
    = Some (mkBook false 2 2).
Proof.
  pose proof (return_of_withdrawn_title 5 1%positive None libraryDb sampleLoan
                (mkBook true 2 1)) as H.
  simpl in H. rewrite H; [| reflexivity | reflexivity | reflexivity | reflexivity
                           | reflexivity | reflexivity | lia].
  split; reflexivity.
Defined.

Lemma optional_isInt_min_false m f :
  optional_isInt_min m f = false ↔ f = NotInt ∨ ∃ z, f = Int z ∧ z < m.
Proof.
  destruct f as [| |z]; simpl.
  - split; [discriminate | intros [? | (? & ? & _)]; discriminate].
  - split; [auto | done].
  - rewrite Z.leb_gt. split; [eauto |].
    intros [? | (? & [= <-] & ?)]; [discriminate | done].
Qed.

Lemma put_book_rejected id body db :
  (put_book id body db).2 = BookRejected
  ↔ optional_isInt_min 1 (body_totalCopies body)
    && optional_isInt_min 0 (body_availableCopies body) = false.
Proof.
  unfold put_book. destruct (_ && _); simpl; [| done].
  split; [| discriminate].
  destruct (books db !! id) as [bk|]; [| discriminate].
  destruct (negb (isActive bk)); [discriminate |].
  destruct (Book_update body bk); discriminate.
Qed.

(** X19.  [PUT /api/books/:id] checks each copy count on its own: it answers
    'Validation failed', and changes nothing, exactly when [totalCopies] is
    given and is not an integer of at least 1, or [availableCopies] is given
    and is not an integer of at least 0.  Any other pair it stores as given
    on a title in circulation, also with more available copies than copies
    in total.  The title then fails the pre-save hook, so a later [DELETE]
    of it throws and changes nothing. *)
Theorem put_book_ignores_the_bound (id : ObjectId) (db : Db) :
  (∀ body,
     ((put_book id body db).2 = BookRejected
      ↔ (body_totalCopies body = NotInt
         ∨ ∃ z, body_totalCopies body = Int z ∧ z < 1)
        ∨ (body_availableCopies body = NotInt
           ∨ ∃ z, body_availableCopies body = Int z ∧ z < 0))
     ∧ ((put_book id body db).2 = BookRejected → (put_book id body db).1 = db))
  ∧ (∀ b total available,
       books db !! id = Some b → isActive b = true →
       1 ≤ total → 0 ≤ available →
       let body := mkBookBody None (Int total) (Int available) in
       put_book id body db
       = (with_books (<[id := mkBook true total available]> (books db)) db,
          BookData (mkBook true total available))
       ∧ (total < available →
          delete_book id (put_book id body db).1
          = ((put_book id body db).1, BookThrown ValidationError))).
Proof.
  split.
  - intros body. split.
    + by rewrite put_book_rejected, andb_false_iff, !optional_isInt_min_false.
    + rewrite put_book_rejected. unfold put_book. by intros ->.
  - intros b total available Hb Hact Htot Hav body.
    assert (Hput : put_book id body db
                   = (with_books (<[id := mkBook true total available]> (books db)) db,
                      BookData (mkBook true total available))).
    { unfold put_book, Book_update, body. simpl.
      replace (1 <=? total) with true by (symmetry; apply Z.leb_le; lia).
      replace (0 <=? available) with true by (symmetry; apply Z.leb_le; lia).
      simpl. rewrite Hb, Hact. simpl.
      unfold set_availableCopies, set_totalCopies. simpl. by rewrite Hact. }
    split; [exact Hput |].
    intros Hover. rewrite Hput. unfold delete_book. simpl. rewrite lookup_insert_eq. simpl.
    unfold Book_save, Book_validate, Book_preSave. simpl.
    replace (total <? available) with true by (symmetry; apply Z.ltb_lt; lia).
    by rewrite andb_false_r.
Qed.

Lemma put_book_ignores_the_bound_witness :
  put_book 1%positive (mkBookBody None (Int 2) (Int 5)) quotaDb
  = (with_books (<[1%positive := mkBook true 2 5]> (books quotaDb)) quotaDb,
     BookData (mkBook true 2 5))
  ∧ (delete_book 1%positive
       (put_book 1%positive (mkBookBody None (Int 2) (Int 5)) quotaDb).1).2
    = BookThrown ValidationError
  ∧ put_book 1%positive (mkBookBody None (Int 0) (Int 0)) quotaDb = (quotaDb, BookRejected)
  ∧ put_book 1%positive (mkBookBody None Absent (Int (-1))) quotaDb = (quotaDb, BookRejected).
Proof.
  destruct (put_book_ignores_the_bound 1%positive quotaDb) as (Hrej & Hok).
  destruct (Hok (mkBook true 2 2) 2 5) as (Hput & Hdel);
    [reflexivity | reflexivity | lia | lia |].
  split_and!.
  - exact Hput.
  - rewrite Hdel by lia. reflexivity.
  - destruct (Hrej (mkBookBody None (Int 0) (Int 0))) as [Hiff Hsame].
    assert (Hr : (put_book 1%positive (mkBookBody None (Int 0) (Int 0)) quotaDb).2
                 = BookRejected)
      by (apply Hiff; left; right; exists 0; split; [reflexivity | lia]).
    rewrite (surjective_pairing (put_book _ _ _)), Hr, (Hsame Hr). reflexivity.
  - destruct (Hrej (mkBookBody None Absent (Int (-1)))) as [Hiff Hsame].
    assert (Hr : (put_book 1%positive (mkBookBody None Absent (Int (-1))) quotaDb).2
                 = BookRejected)
      by (apply Hiff; right; right; exists (-1); split; [reflexivity | lia]).
    rewrite (surjective_pairing (put_book _ _ _)), Hr, (Hsame Hr). reflexivity.
Defined.

(** X20.  [DELETE /api/students/:id] keeps the record and its counters and only
    sets the status to ['inactive']; repeating it changes nothing and is
    answered as the first time.  Afterwards [GET /api/students/:id] still
    shows the borrower, and every [POST /issue] for the borrower is rejected
    without any change. *)
Theorem delete_student_deactivates (id : ObjectId) (db : Db) (s : Student) :
  students db !! id = Some s →
  let db1 := (delete_student id db).1 in
  students db1 = <[id := set_studentStatus SInactive s]> (students db)
  ∧ books db1 = books db ∧ transactions db1 = transactions db
  ∧ delete_student id db1 = (db1, StudentDeleted)
  ∧ get_student id db1 = StudentData (set_studentStatus SInactive s)
  ∧ ∀ tz now b n u,
      (post_issue tz now b id n u db1).1 = db1
      ∧ rejection (post_issue tz now b id n u db1).2 = true.
Proof.
  intros Hs db1. unfold db1, delete_student. rewrite Hs. simpl.
  split_and!; try reflexivity.
  - rewrite lookup_insert_eq. unfold with_students. simpl.
    by rewrite insert_insert_eq.
  - unfold get_student. simpl. by rewrite lookup_insert_eq.
  - intros tz now b n u. unfold post_issue. simpl.
    destruct (books db !! b) as [bk|]; [| done].
    destruct (negb (isActive bk)); [done |].
    destruct (availableCopies bk <=? 0); [done |].
    rewrite findActiveStudent_spec, lookup_insert_eq. simpl. done.
Qed.

Lemma delete_student_deactivates_witness :
  get_student 1%positive (delete_student 1%positive libraryDb).1
  = StudentData (mkStudent SInactive 1 1)
  ∧ post_issue zoneUTC 9 1%positive 1%positive None 9%positive
      (delete_student 1%positive libraryDb).1
    = ((delete_student 1%positive libraryDb).1, StudentNotFound).
Proof.
  destruct (delete_student_deactivates 1%positive libraryDb (mkStudent SActive 1 1))
    as (_ & _ & _ & _ & Hget & _); [reflexivity |].
  split; [exact Hget | reflexivity].
Defined.

Lemma set_status_counter c s :
  set_currentBooksIssued c (set_studentStatus SInactive s)
  = set_studentStatus SInactive (set_currentBooksIssued c s).
Proof. reflexivity. Qed.

Lemma releaseSlot_delete_student sid s ss :
  releaseSlot sid (students (delete_student s (mkDb ∅ ss ∅)).1)
  = students (delete_student s (mkDb ∅ (releaseSlot sid ss) ∅)).1.
Proof.
  unfold delete_student. simpl.
  destruct (ss !! s) as [s0|] eqn:Hs0; simpl.
  - unfold releaseSlot.
    destruct (decide (sid = s)) as [-> | Hne].
    + rewrite lookup_insert_eq, Hs0. simpl.
      destruct (0 <? currentBooksIssued s0); simpl.
      * rewrite lookup_insert_eq. simpl. by rewrite !insert_insert_eq.
      * by rewrite Hs0.
    + rewrite lookup_insert_ne by done.
      destruct (ss !! sid) as [st|] eqn:Hst; [| by rewrite Hs0].
      destruct (0 <? currentBooksIssued st).
      * rewrite lookup_insert_ne, Hs0 by done. simpl. by apply insert_insert_ne.
      * by rewrite Hs0.
  - unfold releaseSlot.
    destruct (ss !! sid) as [st|] eqn:Hst; [| by rewrite Hs0].
    destruct (0 <? currentBooksIssued st); [| by rewrite Hs0].
    destruct (decide (sid = s)) as [-> | Hne]; [congruence |].
    by rewrite lookup_insert_ne, Hs0.
Qed.

(** X21.  Deactivating a borrower does not stand in the way of a return: a
    [POST /return] served after [DELETE /api/students/:id] gets the same
    reply and leaves the same data base as the two requests served in the
    other order. *)
Theorem return_commutes_with_delete_student (now : Z) (i : ObjectId)
    (n : option string) (s : ObjectId) (db : Db) :
  post_return now i n (delete_student s db).1
  = ((delete_student s (post_return now i n db).1).1, (post_return now i n db).2).
Proof.
  assert (Hdel : ∀ d, (delete_student s d).1
                      = mkDb (books d)
                          (students (delete_student s (mkDb ∅ (students d) ∅)).1)
                          (transactions d)).
  { intros d. unfold delete_student. simpl. destruct (students d !! s); by destruct d. }
  assert (Hshape : ∃ bs ts reply (upd : bool) sid,
            ∀ ss, post_return now i n (mkDb (books db) ss (transactions db))
                  = (mkDb bs (if upd then releaseSlot sid ss else ss) ts, reply)).
  { destruct (findActiveById i (transactions db)) as [t|] eqn:Hf.
    2:{ exists (books db), (transactions db), ActiveTransactionNotFound, false, i.
        intros ss. rewrite post_return_unfold. simpl. by rewrite Hf. }
    destruct (Transaction_validate (returnedDoc now n t)) eqn:Hv.
    2:{ exists (books db), (transactions db), (Thrown ValidationError), false, i.
        intros ss. rewrite post_return_unfold. simpl. rewrite Hf.
        unfold Transaction_save. by rewrite Hv. }
    destruct (books db !! book t) as [bk|] eqn:Hb.
    2:{ exists (books db), (<[i := returnedDoc now n t]> (transactions db)),
          (Thrown TypeError), false, i.
        intros ss. rewrite post_return_unfold. simpl. rewrite Hf.
        unfold Transaction_save. rewrite Hv. simpl. by rewrite Hb. }
    destruct (Book_validate (set_availableCopies (availableCopies bk + 1) bk)
              && Book_preSave (set_availableCopies (availableCopies bk + 1) bk)) eqn:Hbv.
    2:{ exists (books db), (<[i := returnedDoc now n t]> (transactions db)),
          (Thrown ValidationError), false, i.
        intros ss. rewrite post_return_unfold. simpl. rewrite Hf.
        unfold Transaction_save. rewrite Hv. simpl. rewrite Hb.
        unfold Book_save. by rewrite Hbv. }
    exists (<[book t := set_availableCopies (availableCopies bk + 1) bk]> (books db)),
      (<[i := returnedDoc now n t]> (transactions db)), (Ok i), true, (student t).
    intros ss. rewrite post_return_unfold. simpl. rewrite Hf.
    unfold Transaction_save. rewrite Hv. simpl. rewrite Hb.
    unfold Book_save. rewrite Hbv. reflexivity. }
  destruct Hshape as (bs & ts & reply & upd & sid & Hshape).
  rewrite (Hdel db), Hshape.
  assert (Hdb : post_return now i n db
                = (mkDb bs (if upd then releaseSlot sid (students db) else students db) ts,
                   reply)).
  { rewrite <- Hshape. by destruct db. }
  rewrite Hdb. cbn [fst snd]. rewrite (Hdel (mkDb bs _ ts)).
  cbn [books students transactions].
  destruct upd; [| reflexivity].
  by rewrite releaseSlot_delete_student.
Qed.

Lemma return_commutes_with_delete_student_witness :
  post_return 5 1%positive None (delete_student 1%positive libraryDb).1
  = (mkDb {[ 1%positive := mkBook true 2 2 ]}
          {[ 1%positive := mkStudent SInactive 1 0 ]}
          {[ 1%positive := returnedDoc 5 None sampleLoan ]},
     Ok 1%positive).
Proof.
  rewrite return_commutes_with_delete_student. reflexivity.
Defined.

End Admin.

(** ** Pagination and the dashboard *)

Section Pages.

(** X22.  The [pagination] object of the listing routes, for a page and a limit
    of at least 1: [next] is missing exactly on the page that reaches
    [total] and [prev] exactly on page 1; the page a link names keeps the
    limit, and its window starts where this one ends (respectively ends
    where this one starts), so following the links neither skips nor repeats
    a position. *)
Theorem pagination_links (pageParam limitParam : option Z) (total : Z) :
  let page := orDefault pageParam 1 in
  let limit := orDefault limitParam 10 in
  1 ≤ page → 1 ≤ limit →
  (next (pagination pageParam limitParam total) = None ↔ total ≤ endIndex page limit)
  ∧ (∀ l, next (pagination pageParam limitParam total) = Some l →
       link_limit l = limit
       ∧ startIndex (link_page l) (link_limit l) = endIndex page limit)
  ∧ (prev (pagination pageParam limitParam total) = None ↔ page = 1)
  ∧ (∀ l, prev (pagination pageParam limitParam total) = Some l →
       link_limit l = limit ∧ 1 ≤ link_page l
       ∧ endIndex (link_page l) (link_limit l) = startIndex page limit).
Proof.
  intros page limit Hpage Hlimit. unfold pagination. fold page limit. simpl.
  unfold startIndex, endIndex in *.
  split_and!.
  - destruct (page * limit <? total) eqn:Hlt.
    + apply Z.ltb_lt in Hlt. split; [discriminate | lia].
    + apply Z.ltb_ge in Hlt. done.
  - intros l. destruct (page * limit <? total); [| discriminate].
    intros [= <-]. simpl. split; [reflexivity | lia].
  - destruct (0 <? (page - 1) * limit) eqn:Hlt.
    + apply Z.ltb_lt in Hlt. split; [discriminate | nia].
    + apply Z.ltb_ge in Hlt. split; [nia | done].
  - intros l. destruct (0 <? (page - 1) * limit) eqn:Hlt; [| discriminate].
    apply Z.ltb_lt in Hlt. intros [= <-]. simpl. split_and!; [reflexivity | nia | lia].
Qed.

Lemma pagination_links_witness :
  next (pagination (Some 3) None 25) = None
  ∧ prev (pagination (Some 3) None 25) = Some (mkPageLink 2 10)
  ∧ prev (pagination (Some 0) (Some 0) 25) = None.
Proof.
  destruct (pagination_links (Some 3) None 25) as (Hnext & _ & _ & _);
    [simpl; lia | simpl; lia |].
  destruct (pagination_links (Some 0) (Some 0) 25) as (_ & _ & Hprev & _);
    [simpl; lia | simpl; lia |].
  split_and!.
  - apply Hnext. vm_compute. discriminate.
  - reflexivity.
  - apply Hprev. reflexivity.
Defined.

(** What a completed sweep leaves of each loan. *)
Lemma swept_lookup now clock db :
  (∀ id t, transactions db !! id = Some t → pastDue now t = true →
           Transaction_validate t = true) →
  (∀ id, now ≤ (clock id).1) →
  ∀ id, transactions (get_meta_overdue now clock db).1 !! id
        = (λ t, if pastDue now t
                then (calculateFine (clock id).2 (set_status Overdue t)).1
                else t) <$> transactions db !! id.
Proof.
  intros Hval Hclk id.
  set (l := overdueTransactions now (transactions db)).
  unfold get_meta_overdue. fold l.
  rewrite sweep_loop_ok
    by (intros id' t Hin; apply overdueTransactions_elem in Hin as [? ?]; eauto).
  cbn [fst transactions with_transactions].
  destruct (transactions db !! id) as [t|] eqn:Hid; simpl.
  - destruct (pastDue now t) eqn:Hpd.
    + rewrite (sweep_fold_lookup_in clock l _ id t);
        [| apply overdueTransactions_NoDup | by apply overdueTransactions_elem].
      by rewrite (sweptDoc_pastDue clock now).
    + rewrite sweep_fold_lookup_notin; [exact Hid |].
      intros Hin. apply list_elem_of_fmap in Hin as ([id' t'] & -> & Hin).
      apply overdueTransactions_elem in Hin as [Hid' Hpd']. simpl in *. congruence.
  - rewrite sweep_fold_lookup_notin; [exact Hid |].
    intros Hin. apply list_elem_of_fmap in Hin as ([id' t'] & -> & Hin).
    apply overdueTransactions_elem in Hin as [Hid' _]. simpl in *. congruence.
Qed.

(** X23.  The dashboard never counts more overdue loans than active ones, both
    figures being taken over the loans with status [active].  Once a sweep
    has run, the loans it reported have left both: the dashboard's overdue
    count at the instant of the sweep is 0, and its active count has dropped
    by the number of loans the sweep moved. *)
Theorem dashboard_after_sweep (now : Z) (clock : ObjectId → Z * Z) (db : Db) :
  (∀ id t, transactions db !! id = Some t → pastDue now t = true →
           Transaction_validate t = true) →
  (∀ id, now ≤ (clock id).1) →
  (dashboard_overdueTransactions now db ≤ activeTransactions db)%nat
  ∧ (get_meta_overdue now clock db).2 = OkCount (dashboard_overdueTransactions now db)
  ∧ dashboard_overdueTransactions now (get_meta_overdue now clock db).1 = 0%nat
  ∧ (activeTransactions (get_meta_overdue now clock db).1
     + dashboard_overdueTransactions now db
     = activeTransactions db)%nat.
Proof.
  intros Hval Hclk.
  pose proof (swept_lookup now clock db Hval Hclk) as Hlook.
  set (db1 := (get_meta_overdue now clock db).1) in *.
  set (isAct := λ t : Transaction, bool_decide (status t = Active)).
  (* the overdue loans are among the active ones *)
  assert (Hsplit : find (pastDue now) (transactions db)
                   = filter (λ kt, pastDue now kt.2 = true) (find isAct (transactions db))).
  { unfold find. rewrite map_filter_filter. apply map_filter_ext.
    intros id t _. simpl. unfold pastDue, isAct.
    rewrite !andb_true_iff. tauto. }
  (* the loans active after the sweep are the active ones it did not match *)
  assert (Hrest : find isAct (transactions db1)
                  = filter (λ kt, ¬ pastDue now kt.2 = true)
                      (find isAct (transactions db))).
  { unfold find. rewrite map_filter_filter. apply map_eq. intros id.
    apply option_eq. intros t. rewrite !map_lookup_filter_Some. cbn [snd].
    pose proof (Hlook id) as Hl.
    destruct (transactions db !! id) as [t0|];
      cbn [fmap option_fmap option_map] in Hl; rewrite Hl;
      [| split; intros [? _]; discriminate].
    destruct (pastDue now t0) eqn:Hpd.
    - pose proof (calculateFine_fields (clock id).2 (set_status Overdue t0)) as Hf.
      cbv zeta in Hf. destruct Hf as (_ & _ & _ & _ & _ & _ & Hst & _).
      split.
      + intros [Heq Hact]. unfold isAct in Hact.
        apply bool_decide_eq_true in Hact.
        assert (Ht : t = (calculateFine (clock id).2 (set_status Overdue t0)).1)
          by congruence.
        rewrite Ht, Hst in Hact. discriminate.
      + intros [[= <-] [Hn _]]. by destruct Hn.
    - split.
      + intros [[= <-] Hact]. split; [done |]. split; [congruence | done].
      + intros [[= <-] [_ Hact]]. done. }
  split_and!.
  - unfold dashboard_overdueTransactions, activeTransactions, countDocuments.
    fold isAct. rewrite Hsplit. apply map_size_filter.
  - unfold get_meta_overdue.
    rewrite sweep_loop_ok
      by (intros id' t Hin; apply overdueTransactions_elem in Hin as [? ?]; eauto).
    simpl. by rewrite overdueTransactions_length.
  - unfold dashboard_overdueTransactions, countDocuments.
    rewrite find_empty; [apply map_size_empty |].
    intros id t1 Hid. rewrite Hlook in Hid.
    destruct (transactions db !! id) as [t0|];
      cbn [fmap option_fmap option_map] in Hid; [| discriminate].
    destruct (pastDue now t0) eqn:Hpd.
    + assert (Ht : t1 = (calculateFine (clock id).2 (set_status Overdue t0)).1)
        by congruence.
      pose proof (calculateFine_fields (clock id).2 (set_status Overdue t0)) as Hf.
      cbv zeta in Hf. destruct Hf as (_ & _ & _ & _ & _ & _ & Hst & _).
      apply not_true_iff_false. rewrite pastDue_true, Ht, Hst.
      simpl. intros [? _]. discriminate.
    + assert (t1 = t0) as -> by congruence. exact Hpd.
  - unfold dashboard_overdueTransactions, activeTransactions, countDocuments.
    fold isAct. rewrite Hsplit, Hrest.
    rewrite <- (map_filter_union_complement (λ kt, pastDue now kt.2 = true)
                  (find isAct (transactions db))) at 3.
    rewrite map_size_disj_union by apply map_disjoint_filter_complement.
    lia.
Qed.

Lemma dashboard_after_sweep_witness :
  activeTransactions sweepDb = 2%nat
  ∧ dashboard_overdueTransactions 0 sweepDb = 1%nat
  ∧ activeTransactions (get_meta_overdue 0 (frozenAt 0) sweepDb).1 = 1%nat
  ∧ dashboard_overdueTransactions 0 (get_meta_overdue 0 (frozenAt 0) sweepDb).1 = 0%nat.
Proof.
  destruct (dashboard_after_sweep 0 (frozenAt 0) sweepDb) as (_ & _ & Hzero & Hsum).
  - intros id t Hid _.
    destruct (decide (id = 2%positive)) as [-> | Hne2]; [by inversion Hid |].
    destruct (decide (id = 1%positive)) as [-> | Hne1]; [by inversion Hid |].
    unfold sweepDb in Hid. simpl in Hid.
    rewrite lookup_insert_ne, lookup_singleton_ne in Hid by done. discriminate.
  - intros id. reflexivity.
  - assert (H2 : activeTransactions sweepDb = 2%nat) by (vm_compute; reflexivity).
    assert (H1 : dashboard_overdueTransactions 0 sweepDb = 1%nat) by (vm_compute; reflexivity).
    split_and!; [exact H2 | exact H1 | | exact Hzero].
    rewrite H1, H2 in Hsum. lia.
Defined.

End Pages.

(** ** Fines on the record *)

Section FinesOnRecord.



Lemma fineAt_ext e t t' :
  returnDate t' = returnDate t → dueDate t' = dueDate t → fineAt e t' = fineAt e t.
Proof. unfold fineAt, settlementDate. by intros -> ->. Qed.

(** The fine on a loan returned on or before its due date, and on one
    returned a whole number of days after it. *)
Lemma fineAt_returned r t e :
  returnDate t = Some r →
  fineAt e t = Z.max 0 (ceil_div (r - dueDate t) msPerDay) * ratePerDay
  ∧ (r ≤ dueDate t → fineAt e t = 0)
  ∧ (∀ k, 0 ≤ k → r = dueDate t + k * msPerDay → fineAt e t = k * ratePerDay).
Proof.
  intros Hr. unfold fineAt, settlementDate. rewrite Hr.
  pose proof msPerDay_pos as Hday. split_and!.
  - reflexivity.
  - intros Hle.
    pose proof (ceil_div_pos_iff (r - dueDate t) msPerDay Hday). unfold ratePerDay. lia.
  - intros k Hk ->.
    replace (dueDate t + k * msPerDay - dueDate t) with (k * msPerDay) by lia.
    rewrite ceil_div_days. unfold ratePerDay. lia.
Qed.

(** What [calculateFine] leaves on a loan that carried no fine. *)
Lemma calculateFine_fineAt e t :
  status t = Overdue ∨ status t = Returned → amount (fine t) = 0 →
  amount (fine (calculateFine e t).1) = fineAt e t.
Proof.
  intros Hst H0. rewrite calculateFine_unfold. unfold fineAt.
  fold (overdueDays e t).
  destruct (accrues e t) eqn:Hacc.
  - apply accrues_true in Hacc as [_ Hlt]. apply overdueDays_pos_iff in Hlt.
    simpl. unfold ratePerDay. lia.
  - apply accrues_false in Hacc as [Hn | Hle]; [tauto |].
    assert (¬ 0 < overdueDays e t) by (rewrite overdueDays_pos_iff; lia).
    rewrite H0. lia.
Qed.

Lemma returnedDoc_fineAt now n t e :
  amount (fine t) = 0 →
  amount (fine (returnedDoc now n t)) = fineAt e (returnedDoc now n t).
Proof.
  intros H0.
  pose proof (returnedDoc_fields now n t) as (_ & _ & _ & _ & Hdue & Hret & _).
  transitivity (fineAt now
                  (set_notes (or_notes n (notes t))
                     (set_status Returned (set_returnDate now (set_type TReturn t))))).
  - unfold returnedDoc. apply calculateFine_fineAt; [by right | exact H0].
  - unfold fineAt, settlementDate. rewrite Hret, Hdue. reflexivity.
Qed.

(** The sweep leaves an [active] loan alone or marks it [overdue] and
    computes its fine. *)
Lemma sweptDoc_cases clock id t :
  status t = Active →
  sweptDoc clock id t = t
  ∨ (status (sweptDoc clock id t) = Overdue
     ∧ returnDate (sweptDoc clock id t) = returnDate t
     ∧ dueDate (sweptDoc clock id t) = dueDate t
     ∧ (amount (fine t) = 0 → returnDate t = None →
        amount (fine (sweptDoc clock id t)) = fineAt (clock id).2 (sweptDoc clock id t))).
Proof.
  intros Hact. unfold sweptDoc, checkOverdue.
  destruct (bool_decide (status t = Active) && (dueDate t <? (clock id).1)); cbn [fst].
  - right.
    pose proof (calculateFine_fields (clock id).2 (set_status Overdue t)) as Hf.
    cbv zeta in Hf. destruct Hf as (_ & _ & _ & _ & Hdue & Hret & Hst & _).
    split_and!; [by rewrite Hst | by rewrite Hret | by rewrite Hdue |].
    intros H0 Hnone.
    rewrite (fineAt_ext _ (set_status Overdue t)) by assumption.
    apply calculateFine_fineAt; [by left | exact H0].
  - left. rewrite calculateFine_unfold.
    replace (accrues (clock id).2 t) with false; [reflexivity |].
    symmetry. apply accrues_false. left. rewrite Hact. intros [? | ?]; discriminate.
Qed.

(** One request, seen from the loan it leaves under an id: the loan was
    there already, or the request has issued it, or it is the returned,
    renewed or swept version of an [active] loan. *)
Lemma handle_lookup r db id t' :
  transactions (handle r db).1 !! id = Some t' →
  transactions db !! id = Some t'
  ∨ (transactions db !! id = None
     ∧ ∃ tz now b s n u, r = Issue tz now b s n u ∧ t' = issuedDoc tz now b s n u)
  ∨ (∃ t, transactions db !! id = Some t ∧ status t = Active
          ∧ ((∃ now n, r = Return now id n ∧ t' = returnedDoc now n t)
             ∨ (∃ tz now, r = Renew tz now id ∧ t' = renewedDoc tz now t)
             ∨ (∃ now clock, r = Sweep now clock ∧ t' = sweptDoc clock id t))).
Proof.
  destruct r as [tz now b s n u | now i n | tz now i | now clock]; simpl.
  - unfold post_issue.
    destruct (books db !! b) as [bk|]; [| by left].
    destruct (negb (isActive bk)); [by left |].
    destruct (availableCopies bk <=? 0); [by left |].
    destruct (findActiveStudent s (students db)) as [st|]; [| by left].
    destruct (existsOne _ _); [by left |].
    destruct (maxBooksAllowed st <=? _); [by left |].
    cbv zeta.
    destruct (Transaction_save _ _ db) as [db1|] eqn:Hs1; [| by left].
    apply Transaction_save_Some in Hs1 as ->.
    assert (Hnew : <[newObjectId (transactions db) := issuedDoc tz now b s n u]>
                     (transactions db) !! id = Some t' →
                   transactions db !! id = Some t'
                   ∨ (transactions db !! id = None
                      ∧ ∃ tz0 now0 b0 s0 n0 u0,
                          Issue tz now b s n u = Issue tz0 now0 b0 s0 n0 u0
                          ∧ t' = issuedDoc tz0 now0 b0 s0 n0 u0)
                   ∨ (∃ t, transactions db !! id = Some t ∧ status t = Active
                           ∧ ((∃ now0 n0, Issue tz now b s n u = Return now0 id n0
                                          ∧ t' = returnedDoc now0 n0 t)
                              ∨ (∃ tz0 now0, Issue tz now b s n u = Renew tz0 now0 id
                                             ∧ t' = renewedDoc tz0 now0 t)
                              ∨ (∃ now0 clock, Issue tz now b s n u = Sweep now0 clock
                                               ∧ t' = sweptDoc clock id t)))).
    { rewrite lookup_insert. case_decide as Heq.
      - intros [= <-]. subst id. right. left.
        split; [apply newObjectId_fresh |]. by exists tz, now, b, s, n, u.
      - by left. }
    destruct (Book_save b _ _) as [db2|] eqn:Hs2; [| exact Hnew].
    apply Book_save_Some in Hs2 as [_ ->]. exact Hnew.
  - rewrite post_return_unfold.
    destruct (findActiveById i (transactions db)) as [t0|] eqn:Hf; [| by left].
    apply findActiveById_Some in Hf as [Hi Hact].
    destruct (Transaction_save _ _ db) as [db1|] eqn:Hs1; [| by left].
    apply Transaction_save_Some in Hs1 as ->. simpl.
    assert (Hstep : <[i := returnedDoc now n t0]> (transactions db) !! id = Some t' →
                    transactions db !! id = Some t'
                    ∨ (transactions db !! id = None
                       ∧ ∃ tz0 now0 b0 s0 n0 u0,
                           Return now i n = Issue tz0 now0 b0 s0 n0 u0
                           ∧ t' = issuedDoc tz0 now0 b0 s0 n0 u0)
                    ∨ (∃ t, transactions db !! id = Some t ∧ status t = Active
                            ∧ ((∃ now0 n0, Return now i n = Return now0 id n0
                                           ∧ t' = returnedDoc now0 n0 t)
                               ∨ (∃ tz0 now0, Return now i n = Renew tz0 now0 id
                                              ∧ t' = renewedDoc tz0 now0 t)
                               ∨ (∃ now0 clock, Return now i n = Sweep now0 clock
                                                ∧ t' = sweptDoc clock id t)))).
    { rewrite lookup_insert. case_decide as Heq.
      - intros [= <-]. subst i. right. right. exists t0.
        split_and!; [exact Hi | exact Hact |]. left. by exists now, n.
      - by left. }
    destruct (books db !! book t0) as [bk|]; [| exact Hstep].
    destruct (Book_save _ _ _) as [db2|] eqn:Hs2; [| exact Hstep].
    apply Book_save_Some in Hs2 as [_ ->]. exact Hstep.
  - unfold post_renew.
    destruct (findActiveById i (transactions db)) as [t0|] eqn:Hf; [| by left].
    apply findActiveById_Some in Hf as [Hi Hact].
    destruct (3 <=? renewalCount t0); [by left |].
    cbv zeta.
    destruct (Transaction_save _ _ db) as [db1|] eqn:Hs1; [| by left].
    apply Transaction_save_Some in Hs1 as ->. simpl.
    rewrite lookup_insert. case_decide as Heq; [| by left].
    intros [= <-]. subst i. right. right. exists t0.
    split_and!; [exact Hi | exact Hact |]. right. left. by exists tz, now.
  - assert (Hloop : transactions (get_meta_overdue now clock db).1
                    = transactions (sweep_loop clock
                                      (overdueTransactions now (transactions db)) db).1).
    { unfold get_meta_overdue. by destruct (sweep_loop _ _ db) as [db1 [e|]]. }
    rewrite Hloop.
    destruct (sweep_loop_lookup clock (overdueTransactions now (transactions db)) db)
      with (id := id) as [Hsame | (t0 & Hin & Hl)].
    + apply overdueTransactions_NoDup.
    + intros id' t0 Hin. by apply overdueTransactions_elem in Hin as [? _].
    + rewrite Hsame. by left.
    + rewrite Hl. intros [= <-].
      apply overdueTransactions_elem in Hin as [Hid0 Hpd].
      apply pastDue_true in Hpd as [Hact _].
      right. right. exists t0. split_and!; [exact Hid0 | exact Hact |].
      right. right. by exists now, clock.
Qed.


Lemma handle_no_fine_while_active r db :
  no_fine_while_active db → no_fine_while_active (handle r db).1.
Proof.
  intros Hinv id t' Hl Hact'.
  destruct (handle_lookup r db id t' Hl)
    as [Hsame | [(Hnone & tz & now & b & s & n & u & -> & ->)
                | (t & Hid & Hact & Hcase)]].
  - by apply (Hinv id).
  - done.
  - destruct (Hinv id t Hid Hact) as [Hnone H0].
    destruct Hcase as [(now & n & -> & ->) | [(tz & now & -> & ->) | (now & clock & -> & ->)]].
    + pose proof (returnedDoc_fields now n t) as (_ & _ & _ & _ & _ & _ & Hst & _).
      congruence.
    + done.
    + destruct (sweptDoc_cases clock id t Hact) as [Heq | (Hst & _)].
      * rewrite Heq. done.
      * congruence.
Qed.

Lemma run_no_fine_while_active rs db :
  no_fine_while_active db → no_fine_while_active (run rs db).
Proof.
  revert db. induction rs as [|r rs IH]; intros db Hinv; [exact Hinv |].
  rewrite run_cons. apply IH, handle_no_fine_while_active, Hinv.
Qed.



Lemma fines_settled_mono T T' db : T ≤ T' → fines_settled T db → fines_settled T' db.
Proof.
  intros Hle (Hact & Hov & Hret). split_and!; [exact Hact | | exact Hret].
  intros id t Hid Hst. destruct (Hov id t Hid Hst) as (Hnone & e & He & Hamt).
  split; [exact Hnone |]. exists e. split; [lia | exact Hamt].
Qed.





(** The loan [POST /return] leaves under the id of an [active] loan whose
    returned version passes the validators. *)
Lemma post_return_saved now id n db t :
  transactions db !! id = Some t → status t = Active →
  Transaction_validate (returnedDoc now n t) = true →
  transactions (post_return now id n db).1 !! id = Some (returnedDoc now n t).
Proof.
  intros Hid Hact Hval. rewrite post_return_unfold.
  replace (findActiveById id (transactions db)) with (Some t)
    by (symmetry; apply findActiveById_Some; done).
  unfold Transaction_save. rewrite Hval. simpl.
  destruct (books db !! book t) as [bk|]; [| simpl; apply lookup_insert_eq].
  destruct (Book_save _ _ _) as [db2|] eqn:Hs2; [| simpl; apply lookup_insert_eq].
  apply Book_save_Some in Hs2 as [_ ->]. simpl. apply lookup_insert_eq.
Qed.

(** C5.  Every fine the routes compute is the formula's.  [calculateFine]
    is called when a loan is settled: by [POST /return] once the status is
    [returned] and the return date set, and by the sweep once the status is
    [overdue]; on a loan that carried no fine it yields
    [max(0, ceil((settlementDate - dueDate) / 1 day)) * ratePerDay], the
    settlement date being the return date when there is one and the instant
    of the evaluation otherwise.  From a data base in which no [active] loan
    carries a fine or a return date (the loans [POST /issue] creates), after
    any sequence of requests a loan that is still [active] carries none, so
    the amount [POST /return] saves is the formula's at the return date and
    the amount the sweep saves is the formula's at the instant
    [calculateFine] reads.  A loan returned exactly three days late owes
    [3 * ratePerDay] and a loan returned on or before its due date owes
    0. *)
Theorem fine_at_settlement (rs : list Request) (db0 : Db) (id : ObjectId)
    (t : Transaction) :
  no_fine_while_active db0 →
  transactions (run rs db0) !! id = Some t → status t = Active →
  (amount (fine t) = 0 ∧ returnDate t = None)
  ∧ (∀ e t1, status t1 = Overdue ∨ status t1 = Returned → amount (fine t1) = 0 →
       (calculateFine e t1).2
       = Z.max 0 (ceil_div (settlementDate e t1 - dueDate t1) msPerDay) * ratePerDay)
  ∧ (∀ now n t',
       transactions (post_return now id n (run rs db0)).1 !! id = Some t' →
       status t' = Returned →
       returnDate t' = Some now ∧ dueDate t' = dueDate t
       ∧ (∀ e, settlementDate e t' = now)
       ∧ amount (fine t')
         = Z.max 0 (ceil_div (now - dueDate t') msPerDay) * ratePerDay
       ∧ (now = dueDate t + 3 * msPerDay → amount (fine t') = 3 * ratePerDay)
       ∧ (now ≤ dueDate t → amount (fine t') = 0))
  ∧ (∀ now n, Transaction_validate t = true → notes_ok n = true →
       ∃ t', transactions (post_return now id n (run rs db0)).1 !! id = Some t'
             ∧ status t' = Returned)
  ∧ (∀ now clock t',
       transactions (get_meta_overdue now clock (run rs db0)).1 !! id = Some t' →
       status t' = Overdue →
       returnDate t' = None ∧ dueDate t' = dueDate t
       ∧ settlementDate (clock id).2 t' = (clock id).2
       ∧ amount (fine t')
         = Z.max 0 (ceil_div ((clock id).2 - dueDate t') msPerDay) * ratePerDay)
  ∧ (∀ now clock,
       (∀ id' t', transactions (run rs db0) !! id' = Some t' → pastDue now t' = true →
                  Transaction_validate t' = true) →
       dueDate t < now → now ≤ (clock id).1 →
       ∃ t', transactions (get_meta_overdue now clock (run rs db0)).1 !! id = Some t'
             ∧ status t' = Overdue).
Proof.
  intros Hinv0 Hid Hact.
  pose proof (run_no_fine_while_active rs db0 Hinv0) as Hinv.
  destruct (Hinv id t Hid Hact) as [Hnone H0].
  set (db := run rs db0) in *.
  split_and!.
  - exact H0.
  - exact Hnone.
  - intros e t1 Hst1 H1. rewrite calculateFine_snd.
    by apply calculateFine_fineAt.
  - intros now n t' Hl Hst.
    change (post_return now id n db) with (handle (Return now id n) db) in Hl.
    destruct (handle_lookup _ db id t' Hl)
      as [Hsame | [(Hno & _) | (t0 & Hid0 & _ & Hcase)]]; [congruence | congruence |].
    assert (t0 = t) as -> by congruence.
    destruct Hcase as [(now0 & n0 & [= <- <-] & ->) | [(? & ? & [=] & _) | (? & ? & [=] & _)]].
    pose proof (returnedDoc_fields now n t) as (_ & _ & _ & _ & Hdue & Hret & _).
    pose proof (fineAt_returned now (returnedDoc now n t) 0 Hret) as (Hf & Hearly & Hdays).
    pose proof (returnedDoc_fineAt now n t 0 H0) as Hamt.
    split_and!.
    + exact Hret.
    + exact Hdue.
    + intros e. unfold settlementDate. by rewrite Hret.
    + rewrite Hamt. exact Hf.
    + intros Hthree. rewrite Hamt. apply Hdays; [lia | by rewrite Hdue].
    + intros Hle. rewrite Hamt. apply Hearly. by rewrite Hdue.
  - intros now n Hval Hn.
    exists (returnedDoc now n t). split.
    + apply post_return_saved; [exact Hid | exact Hact | by apply returnedDoc_valid].
    + by pose proof (returnedDoc_fields now n t) as (_ & _ & _ & _ & _ & _ & Hst & _).
  - intros now clock t' Hl Hst.
    change (get_meta_overdue now clock db) with (handle (Sweep now clock) db) in Hl.
    destruct (handle_lookup _ db id t' Hl)
      as [Hsame | [(Hno & _) | (t0 & Hid0 & _ & Hcase)]]; [congruence | congruence |].
    assert (t0 = t) as -> by congruence.
    destruct Hcase as [(? & ? & [=] & _) | [(? & ? & [=] & _) | (now0 & clock0 & [= <- <-] & ->)]].
    destruct (sweptDoc_cases clock id t Hact) as [Heq | (_ & Hret & Hdue & Hamt)];
      [rewrite Heq in Hst; congruence |].
    assert (Hs : settlementDate (clock id).2 (sweptDoc clock id t) = (clock id).2)
      by (unfold settlementDate; by rewrite Hret, Hnone).
    split_and!.
    + by rewrite Hret.
    + exact Hdue.
    + exact Hs.
    + rewrite (Hamt H0 Hnone). unfold fineAt. by rewrite Hs.
  - intros now clock Hval Hdue Hclk.
    exists (sweptDoc clock id t). split.
    + by apply get_meta_overdue_moved.
    + rewrite (sweptDoc_pastDue clock now); [| by apply pastDue_true | exact Hclk].
      pose proof (calculateFine_fields (clock id).2 (set_status Overdue t)) as Hf.
      cbv zeta in Hf. by destruct Hf as (_ & _ & _ & _ & _ & _ & -> & _).
Qed.

(** The borrower of the sample library takes a title and brings it back
    three days late: before the return the loan owes nothing, after it
    three days of fine. *)
Lemma fine_at_settlement_witness :
  let rs := [Issue zoneUTC 0 1%positive 1%positive None 9%positive] in
  let late := addDays zoneUTC 0 17 in
  ∃ t t', transactions (run rs quotaDb) !! 1%positive = Some t
          ∧ status t = Active ∧ amount (fine t) = 0
          ∧ transactions (post_return late 1%positive None (run rs quotaDb)).1 !! 1%positive
            = Some t'
          ∧ status t' = Returned ∧ returnDate t' = Some late
          ∧ amount (fine t') = 3 * ratePerDay.
Proof.
  intros rs late.
  assert (Hinv : no_fine_while_active quotaDb)
    by (intros id t Hid; simpl in Hid; by rewrite lookup_empty in Hid).
  assert (Hid : transactions (run rs quotaDb) !! 1%positive
                = Some (issuedDoc zoneUTC 0 1%positive 1%positive None 9%positive))
    by (vm_compute; reflexivity).
  destruct (fine_at_settlement rs quotaDb 1%positive _ Hinv Hid)
    as ((H0 & _) & _ & Hreturn & Hexists & _); [reflexivity |].
  destruct (Hexists late None) as (t' & Hl & Hst); [reflexivity | reflexivity |].
  destruct (Hreturn late None t' Hl Hst) as (Hret & _ & _ & _ & Hthree & _).
  eexists _, t'. split_and!; [exact Hid | reflexivity | exact H0 | exact Hl | exact Hst
                              | exact Hret |].
  apply Hthree. reflexivity.
Defined.



End FinesOnRecord.
